(** * The QSPI serial NOR flash driver of the Zynq-7020 acquisition firmware

    A shallow embedding of the flash driver in
    [Zynq7020_Test1.sdk/Main/src/main.h] (identification, address
    translation, bank selection, program / erase / read engines and the image
    update routine), with the properties of its specification stated and
    settled against it.

    Conventions.
    - [uint32_t] and [uint8_t] values are integers of [Z]; every operation
      that can leave the range is wrapped explicitly with [u32] or [u8].
    - RAM is a flat byte memory [Z -> Z]; a C pointer is the address it holds,
      so the caller-owned buffers may alias exactly as they can in C.
    - The bus is an explicit environment: [bus] holds the answers the device
      will give to the coming transfers, [trace] records what the driver did.
      A transfer on an exhausted [bus] is the outcome [Stalled]: this is how a
      device that never answers again (and a polling loop that never sees
      "ready") shows up in a total embedding.
    - Reading an automatic variable that no path has assigned, or a table
      entry outside [Flash_Config_Table], is the outcome [Undefined].
    - [xil_printf] output is diagnostic only and is not modelled. *)

From Stdlib Require Import ZArith List Bool Lia.
Import ListNotations.
Local Open Scope Z_scope.

(** ** Machine integers *)

Definition u32 (x : Z) : Z := x mod 2 ^ 32.
Definition u8 (x : Z) : Z := x mod 2 ^ 8.

(** Bitwise complement of a 32-bit operand ([~x] on [uint32_t]). *)
Definition not32 (x : Z) : Z := Z.land (Z.lnot x) 0xFFFFFFFF.

(** [(signed long) x] for a [uint32_t] x; [long] is 32 bits wide on the
    Cortex-A9 (ILP32) this firmware is built for. *)
Definition signed_long (x : Z) : Z :=
  if u32 x <? 2 ^ 31 then u32 x else u32 x - 2 ^ 32.

(** ** Constants of the driver *)

Definition WRITE_STATUS_CMD : Z := 0x01.
Definition WRITE_CMD : Z := 0x02.
Definition READ_CMD : Z := 0x03.
Definition WRITE_DISABLE_CMD : Z := 0x04.
Definition READ_STATUS_CMD : Z := 0x05.
Definition WRITE_ENABLE_CMD : Z := 0x06.
Definition FAST_READ_CMD : Z := 0x0B.
Definition DUAL_READ_CMD : Z := 0x3B.
Definition QUAD_READ_CMD : Z := 0x6B.
Definition BULK_ERASE_CMD : Z := 0xC7.
Definition SEC_ERASE_CMD : Z := 0xD8.
Definition READ_ID : Z := 0x9F.
Definition BANK_REG_RD : Z := 0x16.
Definition BANK_REG_WR : Z := 0x17.
Definition EXTADD_REG_RD : Z := 0xC8.
Definition EXTADD_REG_WR : Z := 0xC5.
Definition DIE_ERASE_CMD : Z := 0xC4.
Definition READ_FLAG_STATUS_CMD : Z := 0x70.

Definition COMMAND_OFFSET : Z := 0.
Definition ADDRESS_1_OFFSET : Z := 1.
Definition ADDRESS_2_OFFSET : Z := 2.
Definition ADDRESS_3_OFFSET : Z := 3.
Definition DATA_OFFSET : Z := 4.
Definition DUMMY_SIZE : Z := 1.
Definition RD_ID_SIZE : Z := 4.
Definition BULK_ERASE_SIZE : Z := 1.
Definition SEC_ERASE_SIZE : Z := 4.
Definition BANK_SEL_SIZE : Z := 2.
Definition DIE_ERASE_SIZE : Z := 4.
Definition OVERHEAD_SIZE : Z := 4.

Definition SIXTEENMB : Z := 0x1000000.
Definition BANKMASK : Z := 0xF000000.

Definition MICRON_ID_BYTE0 : Z := 0x20.
Definition MICRON_ID_BYTE2_128 : Z := 0x18.
Definition MICRON_ID_BYTE2_256 : Z := 0x19.
Definition MICRON_ID_BYTE2_512 : Z := 0x20.
Definition MICRON_ID_BYTE2_1G : Z := 0x21.

Definition SPANSION_ID_BYTE0 : Z := 0x01.
Definition SPANSION_ID_BYTE2_128 : Z := 0x18.
Definition SPANSION_ID_BYTE2_256 : Z := 0x19.
Definition SPANSION_ID_BYTE2_512 : Z := 0x20.

Definition WINBOND_ID_BYTE0 : Z := 0xEF.
Definition WINBOND_ID_BYTE2_128 : Z := 0x18.

Definition MACRONIX_ID_BYTE0 : Z := 0xC2.
Definition MACRONIX_ID_BYTE2_256 : Z := 0x19.
Definition MACRONIX_ID_BYTE2_512 : Z := 0x1A.
Definition MACRONIX_ID_BYTE2_1G : Z := 0x1B.

(** Indices into the configuration table. *)
Definition SPANSION_INDEX_START : Z := 0.
Definition FLASH_CFG_TBL_SINGLE_128_SP : Z := SPANSION_INDEX_START.
Definition FLASH_CFG_TBL_STACKED_128_SP : Z := SPANSION_INDEX_START + 1.
Definition FLASH_CFG_TBL_PARALLEL_128_SP : Z := SPANSION_INDEX_START + 2.
Definition FLASH_CFG_TBL_SINGLE_256_SP : Z := SPANSION_INDEX_START + 3.
Definition FLASH_CFG_TBL_STACKED_256_SP : Z := SPANSION_INDEX_START + 4.
Definition FLASH_CFG_TBL_PARALLEL_256_SP : Z := SPANSION_INDEX_START + 5.
Definition FLASH_CFG_TBL_SINGLE_512_SP : Z := SPANSION_INDEX_START + 6.
Definition FLASH_CFG_TBL_STACKED_512_SP : Z := SPANSION_INDEX_START + 7.
Definition FLASH_CFG_TBL_PARALLEL_512_SP : Z := SPANSION_INDEX_START + 8.

Definition MICRON_INDEX_START : Z := FLASH_CFG_TBL_PARALLEL_512_SP + 1.
Definition FLASH_CFG_TBL_SINGLE_1GB_MC : Z := MICRON_INDEX_START + 9.
Definition FLASH_CFG_TBL_STACKED_1GB_MC : Z := MICRON_INDEX_START + 10.
Definition FLASH_CFG_TBL_PARALLEL_1GB_MC : Z := MICRON_INDEX_START + 11.

Definition WINBOND_INDEX_START : Z := FLASH_CFG_TBL_PARALLEL_1GB_MC + 1.
Definition FLASH_CFG_TBL_PARALLEL_128_WB : Z := WINBOND_INDEX_START + 2.

Definition MACRONIX_INDEX_START : Z := FLASH_CFG_TBL_PARALLEL_128_WB + 1 - 3.

Definition BIN_START_ADDRESS : Z := 0.

(** ** The configuration table *)

Record FlashInfo : Type := mkFlashInfo {
  SectSize : Z;         (* sector size, combined in parallel mode *)
  NumSect : Z;          (* sectors in one/two devices *)
  PageSize : Z;         (* page size, combined in parallel mode *)
  NumPage : Z;          (* pages in one/two devices *)
  FlashDeviceSize : Z;  (* size of ONE device *)
  ManufacturerID : Z;
  DeviceIDMemSize : Z;
  SectMask : Z;         (* mask giving the sector start address *)
  NumDie : Z
}.

Definition Flash_Config_Table : list FlashInfo :=
  [ (* Spansion *)
    mkFlashInfo 0x10000 0x100 256 0x10000 0x1000000 SPANSION_ID_BYTE0 SPANSION_ID_BYTE2_128 0xFFFF0000 1;
    mkFlashInfo 0x10000 0x200 256 0x20000 0x1000000 SPANSION_ID_BYTE0 SPANSION_ID_BYTE2_128 0xFFFF0000 1;
    mkFlashInfo 0x20000 0x100 512 0x10000 0x1000000 SPANSION_ID_BYTE0 SPANSION_ID_BYTE2_128 0xFFFE0000 1;
    mkFlashInfo 0x10000 0x200 256 0x20000 0x2000000 SPANSION_ID_BYTE0 SPANSION_ID_BYTE2_256 0xFFFF0000 1;
    mkFlashInfo 0x10000 0x400 256 0x40000 0x2000000 SPANSION_ID_BYTE0 SPANSION_ID_BYTE2_256 0xFFFF0000 1;
    mkFlashInfo 0x20000 0x200 512 0x20000 0x2000000 SPANSION_ID_BYTE0 SPANSION_ID_BYTE2_256 0xFFFE0000 1;
    mkFlashInfo 0x40000 0x100 512 0x20000 0x4000000 SPANSION_ID_BYTE0 SPANSION_ID_BYTE2_512 0xFFFC0000 1;
    mkFlashInfo 0x40000 0x200 512 0x40000 0x4000000 SPANSION_ID_BYTE0 SPANSION_ID_BYTE2_512 0xFFFC0000 1;
    mkFlashInfo 0x80000 0x100 1024 0x20000 0x4000000 SPANSION_ID_BYTE0 SPANSION_ID_BYTE2_512 0xFFF80000 1;
    (* Micron *)
    mkFlashInfo 0x10000 0x100 256 0x10000 0x1000000 MICRON_ID_BYTE0 MICRON_ID_BYTE2_128 0xFFFF0000 1;
    mkFlashInfo 0x10000 0x200 256 0x20000 0x1000000 MICRON_ID_BYTE0 MICRON_ID_BYTE2_128 0xFFFF0000 1;
    mkFlashInfo 0x20000 0x100 512 0x10000 0x1000000 MICRON_ID_BYTE0 MICRON_ID_BYTE2_128 0xFFFE0000 1;
    mkFlashInfo 0x10000 0x200 256 0x20000 0x2000000 MICRON_ID_BYTE0 MICRON_ID_BYTE2_256 0xFFFF0000 1;
    mkFlashInfo 0x10000 0x400 256 0x40000 0x2000000 MICRON_ID_BYTE0 MICRON_ID_BYTE2_256 0xFFFF0000 1;
    mkFlashInfo 0x20000 0x200 512 0x20000 0x2000000 MICRON_ID_BYTE0 MICRON_ID_BYTE2_256 0xFFFE0000 1;
    mkFlashInfo 0x10000 0x400 256 0x40000 0x4000000 MICRON_ID_BYTE0 MICRON_ID_BYTE2_512 0xFFFF0000 2;
    mkFlashInfo 0x10000 0x800 256 0x80000 0x4000000 MICRON_ID_BYTE0 MICRON_ID_BYTE2_512 0xFFFF0000 2;
    mkFlashInfo 0x20000 0x400 512 0x40000 0x4000000 MICRON_ID_BYTE0 MICRON_ID_BYTE2_512 0xFFFE0000 2;
    mkFlashInfo 0x10000 0x800 256 0x80000 0x8000000 MICRON_ID_BYTE0 MICRON_ID_BYTE2_1G 0xFFFF0000 4;
    mkFlashInfo 0x10000 0x1000 256 0x100000 0x8000000 MICRON_ID_BYTE0 MICRON_ID_BYTE2_1G 0xFFFF0000 4;
    mkFlashInfo 0x20000 0x800 512 0x80000 0x8000000 MICRON_ID_BYTE0 MICRON_ID_BYTE2_1G 0xFFFE0000 4;
    (* Winbond *)
    mkFlashInfo 0x10000 0x100 256 0x10000 0x1000000 WINBOND_ID_BYTE0 WINBOND_ID_BYTE2_128 0xFFFF0000 1;
    mkFlashInfo 0x10000 0x200 256 0x20000 0x1000000 WINBOND_ID_BYTE0 WINBOND_ID_BYTE2_128 0xFFFF0000 1;
    mkFlashInfo 0x20000 0x100 512 0x10000 0x1000000 WINBOND_ID_BYTE0 WINBOND_ID_BYTE2_128 0xFFFE0000 1;
    (* Macronix *)
    mkFlashInfo 0x10000 0x200 256 0x20000 0x2000000 MACRONIX_ID_BYTE0 MACRONIX_ID_BYTE2_256 0xFFFF0000 1;
    mkFlashInfo 0x10000 0x400 256 0x40000 0x2000000 MACRONIX_ID_BYTE0 MACRONIX_ID_BYTE2_256 0xFFFF0000 1;
    mkFlashInfo 0x20000 0x200 512 0x20000 0x2000000 MACRONIX_ID_BYTE0 MACRONIX_ID_BYTE2_256 0xFFFE0000 1;
    mkFlashInfo 0x10000 0x400 256 0x40000 0x4000000 MACRONIX_ID_BYTE0 MACRONIX_ID_BYTE2_512 0xFFFF0000 1;
    mkFlashInfo 0x10000 0x800 256 0x80000 0x4000000 MACRONIX_ID_BYTE0 MACRONIX_ID_BYTE2_512 0xFFFF0000 1;
    mkFlashInfo 0x20000 0x400 512 0x40000 0x4000000 MACRONIX_ID_BYTE0 MACRONIX_ID_BYTE2_512 0xFFFE0000 1;
    mkFlashInfo 0x2000 0x4000 256 0x80000 0x8000000 MACRONIX_ID_BYTE0 MACRONIX_ID_BYTE2_1G 0xFFFF0000 1;
    mkFlashInfo 0x2000 0x8000 256 0x100000 0x8000000 MACRONIX_ID_BYTE0 MACRONIX_ID_BYTE2_1G 0xFFFF0000 1;
    mkFlashInfo 0x4000 0x4000 512 0x80000 0x8000000 MACRONIX_ID_BYTE0 MACRONIX_ID_BYTE2_1G 0xFFFE0000 1 ].

(** [Flash_Config_Table[i]]: the array has 33 entries, anything else is out
    of bounds. *)
Definition table_row (i : Z) : option FlashInfo :=
  if i <? 0 then None else nth_error Flash_Config_Table (Z.to_nat i).

(** ** Platform types the Xilinx headers declare

    [xqspips.h] and [xstatus.h] are not part of the sources.  Their symbolic
    constants are used by the driver only as [switch] labels and in equality
    tests, so they are enumerations here; [CONNECTION_MODE_other] stands for
    every value of the [ConnectionMode] byte that is none of the three
    labels, [XST_DEVICE_BUSY] for any status that is neither success nor
    failure. *)

Inductive ConnectionMode : Type :=
| XQSPIPS_CONNECTION_MODE_SINGLE
| XQSPIPS_CONNECTION_MODE_STACKED
| XQSPIPS_CONNECTION_MODE_PARALLEL
| CONNECTION_MODE_other.

Inductive XStatus : Type :=
| XST_SUCCESS
| XST_FAILURE
| XST_DEVICE_BUSY.

Definition XStatus_eqb (a b : XStatus) : bool :=
  match a, b with
  | XST_SUCCESS, XST_SUCCESS => true
  | XST_FAILURE, XST_FAILURE => true
  | XST_DEVICE_BUSY, XST_DEVICE_BUSY => true
  | _, _ => false
  end.

(** The part of [XQspiPs] the driver reads: [QspiPtr->Config.ConnectionMode]. *)
Record XQspiPs : Type := mkXQspiPs { Config_ConnectionMode : ConnectionMode }.

(** ** Bus, memory and driver state *)

(** One call of [XQspiPs_PolledTransfer]: the bytes clocked out, the byte
    count argument and whether a receive buffer was given. *)
Record Xfer : Type := mkXfer {
  xf_tx : list Z;
  xf_count : Z;
  xf_rx : bool
}.

Inductive Event : Type :=
| EvTransfer (x : Xfer)
| EvSlaveSelect (cr : Z).   (* XQspiPs_SetSlaveSelect, with the LQSPI_CR value then *)

(** What the device answers to one transfer: the status the transport
    returns and the bytes clocked in (bytes the answer does not list read
    as 0). *)
Definition Response : Type := (XStatus * list Z)%type.

Record State : Type := mkState {
  FlashMake : Z;          (* global, zero at power-on *)
  FCTIndex : Z;           (* global, zero at power-on *)
  LqspiCr : Z;            (* the LQSPI configuration register *)
  mem : Z -> Z;           (* RAM, one byte per address *)
  bus : list Response;    (* answers still to come *)
  trace : list Event      (* what happened so far, oldest first *)
}.

Definition set_FlashMake (v : Z) (st : State) : State :=
  mkState v (FCTIndex st) (LqspiCr st) (mem st) (bus st) (trace st).
Definition set_FCTIndex (v : Z) (st : State) : State :=
  mkState (FlashMake st) v (LqspiCr st) (mem st) (bus st) (trace st).
Definition set_LqspiCr (v : Z) (st : State) : State :=
  mkState (FlashMake st) (FCTIndex st) v (mem st) (bus st) (trace st).
Definition set_mem (m : Z -> Z) (st : State) : State :=
  mkState (FlashMake st) (FCTIndex st) (LqspiCr st) m (bus st) (trace st).
Definition set_bus (b : list Response) (st : State) : State :=
  mkState (FlashMake st) (FCTIndex st) (LqspiCr st) (mem st) b (trace st).
Definition log (e : Event) (st : State) : State :=
  mkState (FlashMake st) (FCTIndex st) (LqspiCr st) (mem st) (bus st) (trace st ++ [e]).

(** ** The monad of driver code *)

Inductive outcome (A : Type) : Type :=
| Done (a : A) (st : State)
| Stalled       (* the device gave no further answer *)
| Undefined.    (* an indeterminate value or an out-of-bounds entry was read *)

Arguments Done {A} a st.
Arguments Stalled {A}.
Arguments Undefined {A}.

Definition M (A : Type) : Type := State -> outcome A.

Definition ret {A} (a : A) : M A := fun st => Done a st.

Definition bind {A B} (m : M A) (k : A -> M B) : M B :=
  fun st =>
    match m st with
    | Done a st' => k a st'
    | Stalled => Stalled
    | Undefined => Undefined
    end.

Notation "x <- m ;; k" := (bind m (fun x => k))
  (at level 61, m at next level, right associativity).
Notation "m ;;; k" := (bind m (fun _ => k))
  (at level 61, right associativity).

Definition get {A} (f : State -> A) : M A := fun st => Done (f st) st.
Definition modify (f : State -> State) : M unit := fun st => Done tt (f st).
Definition undefined {A} : M A := fun _ => Undefined.

(** [if (c) { m }] *)
Definition when (c : bool) (m : M unit) : M unit := if c then m else ret tt.

(** Use of a variable that holds a value only on some paths. *)
Definition assigned {A} (v : option A) : M A :=
  match v with Some a => ret a | None => undefined end.

(** [Flash_Config_Table[FCTIndex]] *)
Definition Flash_Config_row : M FlashInfo :=
  i <- get FCTIndex ;; assigned (table_row i).

(** *** Memory *)

Definition load (p : Z) : M Z := get (fun st => mem st p).

Definition store_byte (m : Z -> Z) (p v : Z) : Z -> Z :=
  fun a => if a =? p then u8 v else m a.

Definition store (p v : Z) : M unit :=
  modify (fun st => set_mem (store_byte (mem st) p v) st).

(** The [n] bytes at [p], [p+1], ... *)
Definition load_bytes (m : Z -> Z) (p n : Z) : list Z :=
  map (fun i => m (p + Z.of_nat i)) (seq 0 (Z.to_nat n)).

(** [n] received bytes put at [p], [p+1], ... *)
Definition store_bytes (m : Z -> Z) (p n : Z) (data : list Z) : Z -> Z :=
  fun a => if (p <=? a) && (a <? p + n)
           then u8 (nth (Z.to_nat (a - p)) data 0) else m a.

(** *** Hardware access *)

Definition XQspiPs_GetLqspiConfigReg : M Z := get LqspiCr.
Definition XQspiPs_SetLqspiConfigReg (v : Z) : M unit := modify (set_LqspiCr v).
Definition XQspiPs_SetSlaveSelect : M unit :=
  modify (fun st => log (EvSlaveSelect (LqspiCr st)) st).

(** One blocking full-duplex exchange: the next answer of the device is
    consumed and the transfer is recorded. *)
Definition exchange (x : Xfer) : M Response :=
  fun st =>
    match bus st with
    | [] => Stalled
    | r :: rest => Done r (log (EvTransfer x) (set_bus rest st))
    end.

(** [XQspiPs_PolledTransfer(QspiPtr, SendBufPtr, RecvBufPtr, ByteCount)] with
    the buffers in RAM; [RecvBufPtr = None] is the NULL receive buffer. *)
Definition XQspiPs_PolledTransfer
    (SendBufPtr : Z) (RecvBufPtr : option Z) (ByteCount : Z) : M XStatus :=
  m <- get mem ;;
  r <- exchange (mkXfer (load_bytes m SendBufPtr ByteCount) ByteCount
                        (match RecvBufPtr with Some _ => true | None => false end)) ;;
  match RecvBufPtr with
  | Some q => modify (fun st => set_mem (store_bytes (mem st) q ByteCount (snd r)) st)
  | None => ret tt
  end ;;;
  ret (fst r).

(** The same call when the send buffer is a local array [tx] (of
    [sizeof tx] bytes) and the receive buffer, if any, a local array too:
    the received bytes are returned. *)
Definition XQspiPs_PolledTransfer_local (tx : list Z) (rx : bool) : M (list Z) :=
  r <- exchange (mkXfer tx (Z.of_nat (length tx)) rx) ;;
  ret (snd r).

(** * The ADC capture of [Controller/ADC_Controller.c]

    The trigger search over one DMA buffer and the selection of the window
    that is displayed.  Arrays are maps from the index to the element; an
    access outside an array is the result [None] of the function that makes
    it.  What [XAxiDma_BdGetActualLength] returns is an input; cache
    maintenance and the warning printed for an incomplete buffer have no
    counterpart here.  The functions that compute in floating point
    ([ADC_get_period], [ADC_get_mean], ...) are left out. *)

Module ADC.

(** Conversion to [int16_t]. *)
Definition int16 (x : Z) : Z := (x + 2 ^ 15) mod 2 ^ 16 - 2 ^ 15.

(** [((AdcData) * 10000 / 256)] on [int]: the division truncates. *)
Definition ADC_RawToVoltage_mV (AdcData : Z) : Z := Z.quot (AdcData * 10000) 256.

Definition TRIGGER_NUM_MAX : Z := 128.

(** [trigger_condition_e] is declared in [ADC_Controller.h], which is not
    part of the sources; the code tests for these two values only. *)
Inductive trigger_condition_e : Type :=
| RISING_EDGE_TRIGGER
| FALLING_EDGE_TRIGGER
| TRIGGER_other.

(** The two status codes [ADC_get_data] returns. *)
Inductive XStatus : Type :=
| XST_SUCCESS
| XST_DATA_LOST.

(** The registers of the AXI4_IO block the file writes. *)
Inductive Reg : Type :=
| SLV_REG0
| SLV_REG3.

Record State : Type := mkState {
  ADC_OriginalData : Z -> Z;      (* int8_t [8192], filled by the DMA *)
  trigger_level : Z;
  trigger_hysteresis : Z;
  trigger_condition : trigger_condition_e;
  trigger_position : Z;
  trigger_num : Z;
  trigger_locate : Z -> Z;        (* int16_t [TRIGGER_NUM_MAX] *)
  ADC_Data : Z -> Z;              (* int16_t [4096] *)
  writes : list (Reg * Z)         (* AXI4_IO_mWriteReg calls, oldest first *)
}.

Definition set_trigger_num (v : Z) (st : State) : State :=
  mkState (ADC_OriginalData st) (trigger_level st) (trigger_hysteresis st)
          (trigger_condition st) (trigger_position st) v (trigger_locate st)
          (ADC_Data st) (writes st).
Definition set_trigger_locate (f : Z -> Z) (st : State) : State :=
  mkState (ADC_OriginalData st) (trigger_level st) (trigger_hysteresis st)
          (trigger_condition st) (trigger_position st) (trigger_num st) f
          (ADC_Data st) (writes st).
Definition set_ADC_Data (f : Z -> Z) (st : State) : State :=
  mkState (ADC_OriginalData st) (trigger_level st) (trigger_hysteresis st)
          (trigger_condition st) (trigger_position st) (trigger_num st)
          (trigger_locate st) f (writes st).
Definition AXI4_IO_mWriteReg (r : Reg) (v : Z) (st : State) : State :=
  mkState (ADC_OriginalData st) (trigger_level st) (trigger_hysteresis st)
          (trigger_condition st) (trigger_position st) (trigger_num st)
          (trigger_locate st) (ADC_Data st) (writes st ++ [(r, v)]).

(** [a[i] = v] *)
Definition update (a : Z -> Z) (i v : Z) : Z -> Z :=
  fun j => if j =? i then v else a j.

(** [ADC_OriginalData[idx]] *)
Definition read_OriginalData (st : State) (idx : Z) : option Z :=
  if (0 <=? idx) && (idx <? 8192) then Some (ADC_OriginalData st idx) else None.

(** [for (int i = 0; i < 4096; i++) ADC_Data[i] = ...], [todo] elements to
    go. *)
Fixpoint ADC_data_copy_loop (todo : nat) (i trigger_pos : Z) (st : State) : option State :=
  match todo with
  | O => Some st
  | S todo' =>
      match read_OriginalData st (i - trigger_position st + trigger_pos) with
      | None => None
      | Some raw =>
          ADC_data_copy_loop todo' (i + 1) trigger_pos
            (set_ADC_Data (update (ADC_Data st) i (int16 (ADC_RawToVoltage_mV raw))) st)
      end
  end.

(** [trigger_pos] is the [int16_t] parameter, already converted. *)
Definition ADC_data_copy (trigger_pos : Z) (st : State) : option (bool * State) :=
  if (trigger_pos >=? trigger_position st) && (trigger_pos <? 4096 + trigger_position st)
  then match ADC_data_copy_loop (Z.to_nat 4096) 0 trigger_pos st with
       | Some st' => Some (true, st')
       | None => None
       end
  else Some (false, st).

(** The locals of the search in [ADC_get_data]. *)
Record Search : Type := mkSearch {
  t : bool;
  trigger_status : Z;
  trigger_pos1 : Z
}.

(** The three statements both trigger branches make for a trigger found at
    [pos]: [if (!t) t = ADC_data_copy(pos); if (trigger_num <
    TRIGGER_NUM_MAX) trigger_locate[trigger_num++] = pos; trigger_status =
    0;]. *)
Definition trigger_found (pos : Z) (s : Search) (st : State) : option (Search * State) :=
  match (if negb (t s) then ADC_data_copy (int16 pos) st else Some (t s, st)) with
  | None => None
  | Some (t', st1) =>
      let st2 :=
        if trigger_num st1 <? TRIGGER_NUM_MAX then
          if (0 <=? trigger_num st1) && (trigger_num st1 <? TRIGGER_NUM_MAX) then
            Some (set_trigger_num (int16 (trigger_num st1 + 1))
                    (set_trigger_locate
                       (update (trigger_locate st1) (trigger_num st1) (int16 pos)) st1))
          else None
        else Some st1 in
      match st2 with
      | None => None
      | Some st2 => Some (mkSearch t' 0 (trigger_pos1 s), st2)
      end
  end.

(** The body of the search loop for sample [i]. *)
Definition search_step (trigger_upper trigger_lower i : Z) (s : Search) (st : State)
  : option (Search * State) :=
  match read_OriginalData st i with
  | None => None
  | Some raw =>
      let voltage := int16 (ADC_RawToVoltage_mV raw) in
      match trigger_condition st with
      | TRIGGER_other => Some (s, st)
      | c =>
          let voltage :=
            match c with
            | FALLING_EDGE_TRIGGER => int16 (- voltage)
            | _ => voltage
            end in
          if trigger_status s =? 0 then
            if voltage <? trigger_lower
            then Some (mkSearch (t s) 1 (trigger_pos1 s), st)
            else Some (s, st)
          else if trigger_status s =? 1 then
            match (if voltage >? trigger_upper then trigger_found i s st
                   else Some (s, st)) with
            | None => None
            | Some (s1, st1) =>
                if (voltage >? trigger_lower) && (voltage <? trigger_upper)
                then Some (mkSearch (t s1) 2 i, st1)
                else Some (s1, st1)
            end
          else if trigger_status s =? 2 then
            if voltage <? trigger_lower
            then Some (mkSearch (t s) 1 (trigger_pos1 s), st)
            else if voltage >? trigger_upper
                 then trigger_found (Z.quot (trigger_pos1 s + i) 2) s st
                 else Some (s, st)
          else Some (s, st)
      end
  end.

(** [for (int i = 0; i < 8192; i++)], [todo] samples to go. *)
Fixpoint search_loop (todo : nat) (trigger_upper trigger_lower i : Z)
    (s : Search) (st : State) : option (Search * State) :=
  match todo with
  | O => Some (s, st)
  | S todo' =>
      match search_step trigger_upper trigger_lower i s st with
      | None => None
      | Some (s', st') => search_loop todo' trigger_upper trigger_lower (i + 1) s' st'
      end
  end.

(** [triggered] tells whether the pointer argument is non-NULL, and
    [receive_len] is what [XAxiDma_BdGetActualLength] returned.  The result
    holds the status, what was stored through the pointer and the final
    state. *)
Definition ADC_get_data (triggered : bool) (receive_len : Z) (st : State)
  : option (XStatus * option bool * State) :=
  let st := set_trigger_num 0 st in
  let searched :=
    if receive_len =? 8192 then
      let trigger_upper := int16 (trigger_level st + Z.quot (trigger_hysteresis st) 2) in
      let trigger_lower := int16 (trigger_level st - Z.quot (trigger_hysteresis st) 2) in
      match search_loop (Z.to_nat 8192) trigger_upper trigger_lower 0 (mkSearch false 0 0) st with
      | None => None
      | Some (s, st') => Some (XST_SUCCESS, t s, st')
      end
    else Some (XST_DATA_LOST, false, st) in
  match searched with
  | None => None
  | Some (status, t, st1) =>
      match (if negb t then ADC_data_copy (trigger_position st1) st1
             else Some (t, st1)) with
      | None => None
      | Some (_, st2) =>
          Some (status, (if triggered then Some t else None),
                AXI4_IO_mWriteReg SLV_REG3 0 (AXI4_IO_mWriteReg SLV_REG3 2 st2))
      end
  end.

(** *** Vocabulary of the statements *)

(** The voltage the search compares with the thresholds at sample [i]. *)
Definition voltage_at (st : State) (i : Z) : Z :=
  let voltage := int16 (ADC_RawToVoltage_mV (ADC_OriginalData st i)) in
  match trigger_condition st with
  | FALLING_EDGE_TRIGGER => int16 (- voltage)
  | _ => voltage
  end.

Definition trigger_upper (st : State) : Z :=
  int16 (trigger_level st + Z.quot (trigger_hysteresis st) 2).
Definition trigger_lower (st : State) : Z :=
  int16 (trigger_level st - Z.quot (trigger_hysteresis st) 2).

(** A window of 4096 samples around sample [L] fits the buffer when [L]
    can be shown at index [trigger_position]. *)
Definition fits (st : State) (L : Z) : bool :=
  (L >=? trigger_position st) && (L <? 4096 + trigger_position st).

(** Element [i] of the window that shows sample [L] at index
    [trigger_position]. *)
Definition window (st : State) (L i : Z) : Z :=
  int16 (ADC_RawToVoltage_mV (ADC_OriginalData st (i - trigger_position st + L))).

(** The trigger locations recorded, in order. *)
Definition recorded (st : State) : list Z :=
  map (fun k => trigger_locate st (Z.of_nat k)) (seq 0 (Z.to_nat (trigger_num st))).

(** The sample shown at index [trigger_position]: the first recorded
    trigger whose window fits, and sample [trigger_position] itself (the
    window of the first 4096 samples) when there is none. *)
Definition anchor (st : State) : Z :=
  match find (fits st) (recorded st) with
  | Some L => L
  | None => trigger_position st
  end.

(** [st] has the inputs of [st0]: the samples, the trigger settings and the
    register writes made so far. *)
Definition same_inputs (st0 st : State) : Prop :=
  ADC_OriginalData st = ADC_OriginalData st0 /\
  trigger_level st = trigger_level st0 /\
  trigger_hysteresis st = trigger_hysteresis st0 /\
  trigger_condition st = trigger_condition st0 /\
  trigger_position st = trigger_position st0 /\
  writes st = writes st0.

(** What holds of the search when it comes to sample [i], [st0] being the
    state it started from: the recorded locations are samples already seen,
    in increasing order; in state 2 the sample at which that state was
    entered lies after all of them; and, as long as no trigger had to be
    dropped, [t] tells whether the window of a recorded trigger fits and
    [ADC_Data] holds the window of the first one that does. *)
Definition searching (st0 : State) (i : Z) (s : Search) (st : State) : Prop :=
  same_inputs st0 st /\
  0 <= trigger_num st <= TRIGGER_NUM_MAX /\
  (forall k, 0 <= k < trigger_num st -> 0 <= trigger_locate st k < i) /\
  (forall k, 0 <= k -> k + 1 < trigger_num st ->
             trigger_locate st k < trigger_locate st (k + 1)) /\
  (trigger_status s = 2 ->
     0 <= trigger_pos1 s < i /\
     forall k, 0 <= k < trigger_num st -> trigger_locate st k < trigger_pos1 s) /\
  (trigger_num st < TRIGGER_NUM_MAX ->
     t s = existsb (fits st0) (recorded st) /\
     forall j, 0 <= j < 4096 ->
       ADC_Data st j = if t s then window st0 (anchor st) j else ADC_Data st0 j).

End ADC.


(** * The coefficient reload of the FIR controller ([FIR_Controller.c])

    [SPU_SwitchChannelSource], [DMA_send_package] and [xil_printf] are
    defined outside the sources: a call is an event of the trace, and the
    status a [DMA_send_package] call returns is an input. *)

Module FIR.

(** Status codes of [xstatus.h]. *)
Definition XST_SUCCESS : Z := 0.
Definition XST_INVALID_PARAM : Z := 15.

(** The second argument of [SPU_SwitchChannelSource]. *)
Inductive Source : Type :=
| FIR_RELOAD
| FIR_CONFIG.

(** The buffers handed to the DMA. *)
Inductive Buffer : Type :=
| coe_buffer        (* [(UINTPTR) coe] *)
| fir_config.       (* [(UINTPTR) &fir_config] *)

Inductive Event : Type :=
| SwitchChannelSource (src : Source)                        (* channel [CHANNEL_INDEX_FIR] *)
| send_package (interface : option Z) (buf : Buffer) (len : Z)
| error_printed (status : Z).                               (* by [CHECK_STATUS_RET] *)

Record State : Type := mkState {
  DmaInterface : option Z;        (* [None] is NULL *)
  trace : list Event              (* oldest first *)
}.

Definition emit (e : Event) (st : State) : State :=
  mkState (DmaInterface st) (trace st ++ [e]).

Definition FIR_init_dma_channel (interface : option Z) (st : State) : Z * State :=
  (XST_SUCCESS, mkState interface (trace st)).

Definition SPU_SwitchChannelSource (src : Source) (st : State) : State :=
  emit (SwitchChannelSource src) st.

(** [status] is what the call returns. *)
Definition DMA_send_package (buf : Buffer) (len : Z) (status : Z) (st : State) : Z * State :=
  (status, emit (send_package (DmaInterface st) buf len) st).

(** [CHECK_STATUS_RET] of [check.h]: a status other than [XST_SUCCESS] is
    printed and returned from the calling function. *)
Definition CHECK_STATUS_RET (call : Z * State) (rest : State -> Z * State) : Z * State :=
  let (status, st) := call in
  if negb (status =? XST_SUCCESS) then (status, emit (error_printed status) st)
  else rest st.

(** [for (int i = 0; i < 32; i++) if (coe[i] != coe[64 - i]) return ...]:
    [false] when the loop returns from the function, [todo] turns to go. *)
Fixpoint symmetry_loop (todo : nat) (i : Z) (coe : Z -> Z) : bool :=
  match todo with
  | O => true
  | S todo' =>
      if negb (coe i =? coe (64 - i)) then false
      else symmetry_loop todo' (i + 1) coe
  end.

(** [coe] is [None] for NULL and the array of [int16_t] otherwise; [send1]
    and [send2] are the statuses of the two [DMA_send_package] calls. *)
Definition FIR_reload_coe (coe : option (Z -> Z)) (send1 send2 : Z) (st : State)
  : Z * State :=
  match coe with
  | None => (XST_INVALID_PARAM, st)
  | Some c =>
      if negb (symmetry_loop 32 0 c) then (XST_INVALID_PARAM, st)
      else
        let st := SPU_SwitchChannelSource FIR_RELOAD st in
        CHECK_STATUS_RET (DMA_send_package coe_buffer (2 * 33) send1 st) (fun st =>
        let st := SPU_SwitchChannelSource FIR_CONFIG st in
        CHECK_STATUS_RET (DMA_send_package fir_config 1 send2 st) (fun st =>
        (XST_SUCCESS, st)))
  end.

(** The 65 taps read the same from both ends. *)
Definition symmetric (c : Z -> Z) : Prop :=
  forall k, 0 <= k <= 64 -> c k = c (64 - k).

End FIR.

Section Driver.

(** [XQSPIPS_LQSPI_CR_U_PAGE_MASK] of [xqspips_hw.h], which is not part of
    the sources: the upper-page bit of the LQSPI configuration register. *)
Variable XQSPIPS_LQSPI_CR_U_PAGE_MASK : Z.

(** ** Address translation *)

(** The result is [None] when [RealAddr] is returned without ever having
    been assigned (the [default] label). *)
Definition GetRealAddr (QspiPtr : XQspiPs) (Address : Z) : M (option Z) :=
  match Config_ConnectionMode QspiPtr with
  | XQSPIPS_CONNECTION_MODE_SINGLE =>
      ret (Some Address)
  | XQSPIPS_CONNECTION_MODE_STACKED =>
      LqspiCr <- XQspiPs_GetLqspiConfigReg ;;
      row <- Flash_Config_row ;;
      RealAddr <-
        (if negb (Z.land Address (FlashDeviceSize row) =? 0) then
           XQspiPs_SetLqspiConfigReg (Z.lor LqspiCr XQSPIPS_LQSPI_CR_U_PAGE_MASK) ;;;
           ret (Z.land Address (not32 (FlashDeviceSize row)))
         else
           XQspiPs_SetLqspiConfigReg
             (Z.land LqspiCr (not32 XQSPIPS_LQSPI_CR_U_PAGE_MASK)) ;;;
           ret Address) ;;
      XQspiPs_SetSlaveSelect ;;;
      ret (Some RealAddr)
  | XQSPIPS_CONNECTION_MODE_PARALLEL =>
      ret (Some (Address / 2))
  | CONNECTION_MODE_other =>
      ret None
  end.

(** ** Bank selection *)

Definition SendBankSelect (WriteBfrPtr : Z) (BankSel : Z) : M XStatus :=
  make <- get FlashMake ;;
  when (make =? MICRON_ID_BYTE0)
    (XQspiPs_PolledTransfer_local [WRITE_ENABLE_CMD] false ;;;
     store (WriteBfrPtr + COMMAND_OFFSET) EXTADD_REG_WR ;;;
     store (WriteBfrPtr + ADDRESS_1_OFFSET) BankSel ;;;
     XQspiPs_PolledTransfer WriteBfrPtr None BANK_SEL_SIZE ;;;
     ret tt) ;;;
  when (make =? SPANSION_ID_BYTE0)
    (store (WriteBfrPtr + COMMAND_OFFSET) BANK_REG_WR ;;;
     store (WriteBfrPtr + ADDRESS_1_OFFSET) BankSel ;;;
     XQspiPs_PolledTransfer WriteBfrPtr None BANK_SEL_SIZE ;;;
     ret tt) ;;;
  ret XST_SUCCESS.

(** ** Status polling

    [while (1) { transfer; if (ready) break; }].  Every turn of such a loop
    consumes one answer of the device, so the answers still on the bus bound
    the number of turns: the loops recurse on that bound and are [Stalled]
    when it is used up, exactly when the next transfer would be. *)

Definition stalled {A} : M A := fun _ => Stalled.

Definition ReadStatusCmd : list Z := [READ_STATUS_CMD; 0].
Definition ReadFlagSRCmd : list Z := [READ_FLAG_STATUS_CMD; 0].

(** Polls the status register until [(FlashStatus[1] & 0x01) == 0]. *)
Fixpoint wait_status_loop (turns : nat) : M unit :=
  match turns with
  | O => stalled
  | S turns' =>
      FlashStatus <- XQspiPs_PolledTransfer_local ReadStatusCmd true ;;
      if Z.land (nth 1 FlashStatus 0) 0x01 =? 0 then ret tt
      else wait_status_loop turns'
  end.

Definition wait_status : M unit :=
  fun st => wait_status_loop (length (bus st)) st.

(** Polls the flag status register until [(FlagStatus[1] & 0x80) == 0x80]. *)
Fixpoint wait_flag_loop (turns : nat) : M unit :=
  match turns with
  | O => stalled
  | S turns' =>
      FlagStatus <- XQspiPs_PolledTransfer_local ReadFlagSRCmd true ;;
      if Z.land (nth 1 FlagStatus 0) 0x80 =? 0x80 then ret tt
      else wait_flag_loop turns'
  end.

Definition wait_flag : M unit :=
  fun st => wait_flag_loop (length (bus st)) st.

(** The single flag status read made around the status polling when
    [NumDie > 1 && FlashMake == MICRON_ID_BYTE0]. *)
Definition read_flag_status_if_multi_die (row : FlashInfo) : M unit :=
  make <- get FlashMake ;;
  when ((NumDie row >? 1) && (make =? MICRON_ID_BYTE0))
    (XQspiPs_PolledTransfer_local ReadFlagSRCmd true ;;; ret tt).

(** ** Program *)

Definition FlashWrite (QspiPtr : XQspiPs) (Address ByteCount Command WriteBfrPtr : Z)
  : M unit :=
  r <- GetRealAddr QspiPtr Address ;;
  RealAddr <- assigned r ;;
  row <- Flash_Config_row ;;
  when (FlashDeviceSize row >? SIXTEENMB)
    (SendBankSelect WriteBfrPtr (RealAddr / SIXTEENMB) ;;; ret tt) ;;;
  XQspiPs_PolledTransfer_local [WRITE_ENABLE_CMD] false ;;;
  store (WriteBfrPtr + COMMAND_OFFSET) Command ;;;
  store (WriteBfrPtr + ADDRESS_1_OFFSET) (Z.shiftr (Z.land RealAddr 0xFF0000) 16) ;;;
  store (WriteBfrPtr + ADDRESS_2_OFFSET) (Z.shiftr (Z.land RealAddr 0xFF00) 8) ;;;
  store (WriteBfrPtr + ADDRESS_3_OFFSET) (Z.land RealAddr 0xFF) ;;;
  XQspiPs_PolledTransfer WriteBfrPtr None (u32 (ByteCount + OVERHEAD_SIZE)) ;;;
  read_flag_status_if_multi_die row ;;;
  wait_status ;;;
  read_flag_status_if_multi_die row.

(** ** Erase *)

Definition BulkErase (WriteBfrPtr : Z) : M unit :=
  XQspiPs_PolledTransfer_local [WRITE_ENABLE_CMD] false ;;;
  store (WriteBfrPtr + COMMAND_OFFSET) BULK_ERASE_CMD ;;;
  XQspiPs_PolledTransfer WriteBfrPtr None BULK_ERASE_SIZE ;;;
  wait_status.

(** [for (DieCnt = 0; DieCnt < NumDie; DieCnt++)], [todo] dies to go. *)
Fixpoint DieErase_loop (todo : nat) (WriteBfrPtr DieCnt : Z) : M unit :=
  match todo with
  | O => ret tt
  | S todo' =>
      SendBankSelect WriteBfrPtr (u32 (DieCnt * 2)) ;;;
      XQspiPs_PolledTransfer_local [WRITE_ENABLE_CMD] false ;;;
      store (WriteBfrPtr + COMMAND_OFFSET) DIE_ERASE_CMD ;;;
      store (WriteBfrPtr + ADDRESS_1_OFFSET) 0x00 ;;;
      store (WriteBfrPtr + ADDRESS_2_OFFSET) 0x00 ;;;
      store (WriteBfrPtr + ADDRESS_3_OFFSET) 0x00 ;;;
      XQspiPs_PolledTransfer WriteBfrPtr None DIE_ERASE_SIZE ;;;
      wait_flag ;;;
      DieErase_loop todo' WriteBfrPtr (u8 (DieCnt + 1))
  end.

Definition DieErase (WriteBfrPtr : Z) : M unit :=
  row <- Flash_Config_row ;;
  DieErase_loop (Z.to_nat (NumDie row)) WriteBfrPtr 0.

(** The bulk or die erase of the chip that is selected. *)
Definition erase_selected_chip (row : FlashInfo) (WriteBfrPtr : Z) : M unit :=
  when (NumDie row =? 1) (BulkErase WriteBfrPtr) ;;;
  when (NumDie row >? 1) (DieErase WriteBfrPtr).

(** One turn of the sector loop.  [BankSel] is [None] until the first
    assignment.  The source tests [(BankSel != RealAddr / SIXTEENMB) &&
    (FlashDeviceSize > SIXTEENMB)]: on a device of at most 16 MB the
    conjunction is false whatever [BankSel] holds, on a larger one [BankSel]
    must hold a value. *)
Definition FlashErase_sector (QspiPtr : XQspiPs) (WriteBfrPtr Address : Z)
    (BankInitFlag : bool) (BankSel : option Z) : M (bool * option Z) :=
  r <- GetRealAddr QspiPtr Address ;;
  RealAddr <- assigned r ;;
  row <- Flash_Config_row ;;
  init <-
    (if BankInitFlag && (FlashDeviceSize row >? SIXTEENMB) then
       SendBankSelect WriteBfrPtr (RealAddr / SIXTEENMB) ;;;
       ret (false, Some (RealAddr / SIXTEENMB))
     else ret (BankInitFlag, BankSel)) ;;
  BankSel' <-
    (if FlashDeviceSize row >? SIXTEENMB then
       b <- assigned (snd init) ;;
       if negb (b =? RealAddr / SIXTEENMB) then
         SendBankSelect WriteBfrPtr (RealAddr / SIXTEENMB) ;;;
         ret (Some (RealAddr / SIXTEENMB))
       else ret (Some b)
     else ret (snd init)) ;;
  XQspiPs_PolledTransfer_local [WRITE_ENABLE_CMD] false ;;;
  store (WriteBfrPtr + COMMAND_OFFSET) SEC_ERASE_CMD ;;;
  store (WriteBfrPtr + ADDRESS_1_OFFSET) (Z.shiftr RealAddr 16) ;;;
  store (WriteBfrPtr + ADDRESS_2_OFFSET) (Z.shiftr RealAddr 8) ;;;
  store (WriteBfrPtr + ADDRESS_3_OFFSET) (Z.land RealAddr 0xFF) ;;;
  XQspiPs_PolledTransfer WriteBfrPtr None SEC_ERASE_SIZE ;;;
  read_flag_status_if_multi_die row ;;;
  wait_status ;;;
  read_flag_status_if_multi_die row ;;;
  ret (fst init, BankSel').

(** [for (Sector = 0; Sector < NumSect; Sector++)], [todo] sectors to go. *)
Fixpoint FlashErase_loop (todo : nat) (QspiPtr : XQspiPs) (WriteBfrPtr Address : Z)
    (BankInitFlag : bool) (BankSel : option Z) : M unit :=
  match todo with
  | O => ret tt
  | S todo' =>
      s <- FlashErase_sector QspiPtr WriteBfrPtr Address BankInitFlag BankSel ;;
      row <- Flash_Config_row ;;
      FlashErase_loop todo' QspiPtr WriteBfrPtr (u32 (Address + SectSize row))
                      (fst s) (snd s)
  end.

(** The number of sectors the partial erase goes through. *)
Definition erase_NumSect (row : FlashInfo) (Address ByteCount : Z) : Z :=
  let NumSect := u32 (ByteCount / SectSize row + 1) in
  if Z.land (u32 (Address + ByteCount)) (SectMask row) =?
     Z.land (u32 (Address + u32 (NumSect * SectSize row))) (SectMask row)
  then u32 (NumSect + 1) else NumSect.

Definition FlashErase (QspiPtr : XQspiPs) (Address ByteCount WriteBfrPtr : Z) : M unit :=
  row <- Flash_Config_row ;;
  if ByteCount =? u32 (NumSect row * SectSize row) then
    when (match Config_ConnectionMode QspiPtr with
          | XQSPIPS_CONNECTION_MODE_STACKED => true | _ => false end)
      (LqspiCr <- XQspiPs_GetLqspiConfigReg ;;
       XQspiPs_SetLqspiConfigReg (Z.land LqspiCr (not32 XQSPIPS_LQSPI_CR_U_PAGE_MASK)) ;;;
       XQspiPs_SetSlaveSelect) ;;;
    erase_selected_chip row WriteBfrPtr ;;;
    when (match Config_ConnectionMode QspiPtr with
          | XQSPIPS_CONNECTION_MODE_STACKED => true | _ => false end)
      (LqspiCr <- XQspiPs_GetLqspiConfigReg ;;
       XQspiPs_SetLqspiConfigReg (Z.lor LqspiCr XQSPIPS_LQSPI_CR_U_PAGE_MASK) ;;;
       XQspiPs_SetSlaveSelect ;;;
       erase_selected_chip row WriteBfrPtr)
  else
    FlashErase_loop (Z.to_nat (erase_NumSect row Address ByteCount))
                    QspiPtr WriteBfrPtr Address true None.

(** ** Identification *)

(** [FCTIndex = base + StartIndex], [StartIndex] being assigned only when
    the manufacturer byte was recognised. *)
Definition index_from (base : Z) (StartIndex : option Z) : M Z :=
  s <- assigned StartIndex ;; ret (u32 (base + s)).

(** The [switch (QspiPtr->Config.ConnectionMode)] that assigns [FCTIndex]. *)
Definition select_row (QspiPtr : XQspiPs) (single parallel stacked : M Z) : M unit :=
  i <- match Config_ConnectionMode QspiPtr with
       | XQSPIPS_CONNECTION_MODE_SINGLE => single
       | XQSPIPS_CONNECTION_MODE_PARALLEL => parallel
       | XQSPIPS_CONNECTION_MODE_STACKED => stacked
       | CONNECTION_MODE_other => ret 0
       end ;;
  modify (set_FCTIndex i).

(** "Deduce flash make": [FlashMake] and [StartIndex] are assigned only
    when the manufacturer byte is a known one. *)
Definition deduce_make (id0 : Z) : M (option Z) :=
  if id0 =? MICRON_ID_BYTE0 then
    modify (set_FlashMake MICRON_ID_BYTE0) ;;; ret (Some MICRON_INDEX_START)
  else if id0 =? SPANSION_ID_BYTE0 then
    modify (set_FlashMake SPANSION_ID_BYTE0) ;;; ret (Some SPANSION_INDEX_START)
  else if id0 =? WINBOND_ID_BYTE0 then
    modify (set_FlashMake WINBOND_ID_BYTE0) ;;; ret (Some WINBOND_INDEX_START)
  else if id0 =? MACRONIX_ID_BYTE0 then
    modify (set_FlashMake MACRONIX_ID_BYTE0) ;;; ret (Some MACRONIX_INDEX_START)
  else ret None.

(** The four size tests, in the order of the source; [id2] is
    [ReadBfrPtr[3]]. *)
Definition assign_index (QspiPtr : XQspiPs) (StartIndex : option Z) (id2 : Z) : M unit :=
  make <- get FlashMake ;;
  when (((make =? MICRON_ID_BYTE0) || (make =? SPANSION_ID_BYTE0) ||
         (make =? WINBOND_ID_BYTE0)) && (id2 =? MICRON_ID_BYTE2_128))
    (select_row QspiPtr
       (index_from FLASH_CFG_TBL_SINGLE_128_SP StartIndex)
       (index_from FLASH_CFG_TBL_PARALLEL_128_SP StartIndex)
       (index_from FLASH_CFG_TBL_STACKED_128_SP StartIndex)) ;;;
  when (((make =? MICRON_ID_BYTE0) || (make =? SPANSION_ID_BYTE0) ||
         (make =? MACRONIX_ID_BYTE0)) && (id2 =? MICRON_ID_BYTE2_256))
    (select_row QspiPtr
       (index_from FLASH_CFG_TBL_SINGLE_256_SP StartIndex)
       (index_from FLASH_CFG_TBL_PARALLEL_256_SP StartIndex)
       (index_from FLASH_CFG_TBL_STACKED_256_SP StartIndex)) ;;;
  when ((((make =? MICRON_ID_BYTE0) || (make =? SPANSION_ID_BYTE0)) &&
         (id2 =? MICRON_ID_BYTE2_512)) ||
        ((make =? MACRONIX_ID_BYTE0) && (id2 =? MACRONIX_ID_BYTE2_512)))
    (select_row QspiPtr
       (index_from FLASH_CFG_TBL_SINGLE_512_SP StartIndex)
       (index_from FLASH_CFG_TBL_PARALLEL_512_SP StartIndex)
       (index_from FLASH_CFG_TBL_STACKED_512_SP StartIndex)) ;;;
  when (((make =? MICRON_ID_BYTE0) && (id2 =? MICRON_ID_BYTE2_1G)) ||
        ((make =? MACRONIX_ID_BYTE0) && (id2 =? MACRONIX_ID_BYTE2_1G)))
    (select_row QspiPtr
       (ret FLASH_CFG_TBL_SINGLE_1GB_MC)
       (ret FLASH_CFG_TBL_PARALLEL_1GB_MC)
       (ret FLASH_CFG_TBL_STACKED_1GB_MC)).

Definition FlashReadID (QspiPtr : XQspiPs) (WriteBfrPtr ReadBfrPtr : Z) : M XStatus :=
  store (WriteBfrPtr + COMMAND_OFFSET) READ_ID ;;;
  store (WriteBfrPtr + ADDRESS_1_OFFSET) 0x23 ;;;
  store (WriteBfrPtr + ADDRESS_2_OFFSET) 0x08 ;;;
  store (WriteBfrPtr + ADDRESS_3_OFFSET) 0x09 ;;;
  Status <- XQspiPs_PolledTransfer WriteBfrPtr (Some ReadBfrPtr) RD_ID_SIZE ;;
  if negb (XStatus_eqb Status XST_SUCCESS) then ret XST_FAILURE
  else
    id0 <- load (ReadBfrPtr + 1) ;;
    StartIndex <- deduce_make id0 ;;
    id2 <- load (ReadBfrPtr + 3) ;;
    assign_index QspiPtr StartIndex id2 ;;;
    ret XST_SUCCESS.

(** ** Read *)

(** Fast, dual and quad reads carry a dummy byte after the address. *)
Definition has_dummy (Command : Z) : bool :=
  (Command =? FAST_READ_CMD) || (Command =? DUAL_READ_CMD) || (Command =? QUAD_READ_CMD).

(** The payload size the source computes for one turn, before the dummy
    byte is added. *)
Definition read_RealByteCnt (Address ByteCount : Z) : Z :=
  if negb (Z.land Address BANKMASK =? Z.land (u32 (Address + ByteCount)) BANKMASK)
  then u32 (Z.land Address BANKMASK + SIXTEENMB - Address)
  else ByteCount.

(** [ReadBfrPtr[BufferIndex] = ReadBfrPtr[BufferIndex + ShiftSize]] for
    [todo] consecutive values of [BufferIndex]. *)
Fixpoint shift_loop (todo : nat) (ReadBfrPtr BufferIndex ShiftSize : Z) : M unit :=
  match todo with
  | O => ret tt
  | S todo' =>
      v <- load (ReadBfrPtr + u32 (BufferIndex + ShiftSize)) ;;
      store (ReadBfrPtr + BufferIndex) v ;;;
      shift_loop todo' ReadBfrPtr (u32 (BufferIndex + 1)) ShiftSize
  end.

(** [while (((signed long) ByteCount) > 0)].  Every turn makes a transfer,
    so [turns], the number of answers on the bus at entry, bounds the turns
    that do not stall. *)
Fixpoint FlashRead_loop (turns : nat) (QspiPtr : XQspiPs)
    (Address ByteCount Command WriteBfrPtr ReadBfrPtr TotalByteCnt : Z) : M unit :=
  if signed_long ByteCount >? 0 then
    match turns with
    | O => stalled
    | S turns' =>
        r <- GetRealAddr QspiPtr Address ;;
        RealAddr <- assigned r ;;
        row <- Flash_Config_row ;;
        when (FlashDeviceSize row >? SIXTEENMB)
          (SendBankSelect WriteBfrPtr (RealAddr / SIXTEENMB) ;;; ret tt) ;;;
        let RealByteCnt := read_RealByteCnt Address ByteCount in
        store (WriteBfrPtr + COMMAND_OFFSET) Command ;;;
        store (WriteBfrPtr + ADDRESS_1_OFFSET) (Z.shiftr (Z.land RealAddr 0xFF0000) 16) ;;;
        store (WriteBfrPtr + ADDRESS_2_OFFSET) (Z.shiftr (Z.land RealAddr 0xFF00) 8) ;;;
        store (WriteBfrPtr + ADDRESS_3_OFFSET) (Z.land RealAddr 0xFF) ;;;
        let RealByteCnt :=
          if has_dummy Command then u32 (RealByteCnt + DUMMY_SIZE) else RealByteCnt in
        let start := u32 (TotalByteCnt - ByteCount) in
        XQspiPs_PolledTransfer WriteBfrPtr (Some (ReadBfrPtr + start))
                               (u32 (RealByteCnt + OVERHEAD_SIZE)) ;;;
        let ShiftSize :=
          if has_dummy Command then OVERHEAD_SIZE + DUMMY_SIZE else OVERHEAD_SIZE in
        shift_loop (Z.to_nat (u32 (start + RealByteCnt) - start))
                   ReadBfrPtr start ShiftSize ;;;
        let Address' := u32 (Z.land Address BANKMASK + SIXTEENMB) in
        let ByteCount' :=
          if has_dummy Command then u32 (ByteCount - u32 (RealByteCnt - DUMMY_SIZE))
          else u32 (ByteCount - RealByteCnt) in
        FlashRead_loop turns' QspiPtr Address' ByteCount' Command
                       WriteBfrPtr ReadBfrPtr TotalByteCnt
    end
  else ret tt.

Definition FlashRead (QspiPtr : XQspiPs)
    (Address ByteCount Command WriteBfrPtr ReadBfrPtr : Z) : M unit :=
  fun st => FlashRead_loop (length (bus st)) QspiPtr Address ByteCount Command
                           WriteBfrPtr ReadBfrPtr ByteCount st.

(** ** Image update *)

(** The globals [update_flash] names: the driver instance and the address
    of the [WriteBuffer] array. *)
Variable QspiInstance : XQspiPs.
Variable WriteBuffer : Z.

(** [memcpy(dst, src, n)] on regions that do not overlap. *)
Definition memcpy (dst src n : Z) : M unit :=
  modify (fun st =>
    set_mem (fun a => if (dst <=? a) && (a <? dst + n)
                      then mem st (src + (a - dst)) else mem st a) st).

(** [(int) x] for a [uint32_t] x. *)
Definition to_int (x : Z) : Z := signed_long x.

(** [for (Page = 0; Page < Page_cnt; Page++)], [todo] pages to go. *)
Fixpoint update_flash_pages (todo : nat) (write_buffer Page : Z) : M unit :=
  match todo with
  | O => ret tt
  | S todo' =>
      row <- Flash_Config_row ;;
      FlashWrite QspiInstance
                 (u32 (u32 (Page * PageSize row) + BIN_START_ADDRESS))
                 (PageSize row) WRITE_CMD
                 (write_buffer + u32 (Page * PageSize row)) ;;;
      update_flash_pages todo' write_buffer (Page + 1)
  end.

(** The closing comparison of [read_buffer] with [buffer] only prints the
    mismatching offsets and leaves the state alone; it has no counterpart
    here. *)
Definition update_flash (buffer read_buffer write_buffer length : Z) : M unit :=
  memcpy (write_buffer + 4) buffer length ;;;
  row <- Flash_Config_row ;;
  let Page_cnt := to_int (u32 (length / PageSize row + 1)) in
  FlashErase QspiInstance BIN_START_ADDRESS length WriteBuffer ;;;
  update_flash_pages (Z.to_nat Page_cnt) write_buffer 0 ;;;
  FlashRead QspiInstance BIN_START_ADDRESS length QUAD_READ_CMD WriteBuffer read_buffer.

(** ** Vocabulary of the statements *)

(** The bus transfers of a trace, in order. *)
Fixpoint transfers (tr : list Event) : list Xfer :=
  match tr with
  | [] => []
  | EvTransfer x :: tr' => x :: transfers tr'
  | EvSlaveSelect _ :: tr' => transfers tr'
  end.

(** The instruction byte of a transfer. *)
Definition opcode (x : Xfer) : Z := nth 0 (xf_tx x) 0.

(** [table_row] at the index the driver currently holds. *)
Definition active_row (st : State) : option FlashInfo := table_row (FCTIndex st).

(** The pure part of [GetRealAddr] for the three wired topologies. *)
Definition translate (mode : ConnectionMode) (row : FlashInfo) (a : Z) : Z :=
  match mode with
  | XQSPIPS_CONNECTION_MODE_STACKED =>
      if Z.land a (FlashDeviceSize row) =? 0 then a else a - FlashDeviceSize row
  | XQSPIPS_CONNECTION_MODE_PARALLEL => a / 2
  | _ => a
  end.

(** The state [FlashReadID] is in once the device has answered [data] to
    the read-ID transfer. *)
Definition after_read_id (WriteBfrPtr ReadBfrPtr : Z) (data : list Z)
    (rest : list Response) (st : State) : State :=
  let m := store_byte (store_byte (store_byte (store_byte (mem st)
             (WriteBfrPtr + COMMAND_OFFSET) READ_ID)
             (WriteBfrPtr + ADDRESS_1_OFFSET) 0x23)
             (WriteBfrPtr + ADDRESS_2_OFFSET) 0x08)
             (WriteBfrPtr + ADDRESS_3_OFFSET) 0x09 in
  set_mem (store_bytes m ReadBfrPtr RD_ID_SIZE data)
    (log (EvTransfer (mkXfer (load_bytes m WriteBfrPtr RD_ID_SIZE) RD_ID_SIZE true))
       (set_bus rest (set_mem m st))).

(** Some row of the catalog carries this manufacturer and this size code. *)
Definition in_catalog (id0 id2 : Z) : bool :=
  existsb (fun row => (id0 =? ManufacturerID row) && (id2 =? DeviceIDMemSize row))
          Flash_Config_Table.

(** Row 4 of the table: two stacked Spansion 256 Mb chips. *)
Definition stacked_256_row : FlashInfo :=
  mkFlashInfo 0x10000 0x400 256 0x40000 0x2000000
              SPANSION_ID_BYTE0 SPANSION_ID_BYTE2_256 0xFFFF0000 1.

(** The driver state when the program starts: the globals are zero and
    nothing has happened on the bus, which will answer [answers]. *)
Definition power_on (answers : list Response) : State :=
  mkState 0 0 0 (fun _ => 0) answers [].

(** The manufacturer byte is one the driver knows. *)
Definition known_make (id0 : Z) : bool :=
  (id0 =? MICRON_ID_BYTE0) || (id0 =? SPANSION_ID_BYTE0) ||
  (id0 =? WINBOND_ID_BYTE0) || (id0 =? MACRONIX_ID_BYTE0).

(** *** A device that keeps answering

    An answer is [ready] when it would end either polling loop: the status
    byte has the write-in-progress bit clear and the flag status byte has the
    completion bit set.  [ready_count] counts the ready answers still to
    come; a plain transfer consumes one answer and a polling loop consumes
    answers up to the first one that ends it, so either uses up at most one
    ready answer. *)
Definition ready (r : Response) : bool :=
  (Z.land (nth 1 (snd r) 0) 0x01 =? 0) && (Z.land (nth 1 (snd r) 0) 0x80 =? 0x80).

Definition ready_count (b : list Response) : nat := length (filter ready b).

(** [st'] is reached from [st] by bus traffic only: the globals are kept,
    the trace grew by events whose transfers are [xs], each transfer took
    the next answer off the bus, and at most [n] ready answers were used
    up. *)
Definition advances (n : nat) (st st' : State) (xs : list Xfer) : Prop :=
  FlashMake st' = FlashMake st /\
  FCTIndex st' = FCTIndex st /\
  (exists added, trace st' = trace st ++ added /\ transfers added = xs) /\
  (exists answers, bus st = answers ++ bus st' /\ length answers = length xs) /\
  (ready_count (bus st) <= ready_count (bus st') + n)%nat.

(** The write-in-progress bit of an answer to a status read. *)
Definition status_busy (r : Response) : bool :=
  negb (Z.land (nth 1 (snd r) 0) 0x01 =? 0).

(** *** The frames the driver sends *)

Definition wren_xfer : Xfer := mkXfer [WRITE_ENABLE_CMD] 1 false.
Definition status_xfer : Xfer := mkXfer ReadStatusCmd 2 true.
Definition flag_xfer : Xfer := mkXfer ReadFlagSRCmd 2 true.

(** The 3-byte address as [FlashWrite] and [FlashRead] encode it. *)
Definition addr3_masked (RealAddr : Z) : list Z :=
  [u8 (Z.shiftr (Z.land RealAddr 0xFF0000) 16);
   u8 (Z.shiftr (Z.land RealAddr 0xFF00) 8);
   u8 (Z.land RealAddr 0xFF)].

(** The 3-byte address as [FlashErase] encodes it. *)
Definition addr3_cast (RealAddr : Z) : list Z :=
  [u8 (Z.shiftr RealAddr 16); u8 (Z.shiftr RealAddr 8); u8 (Z.land RealAddr 0xFF)].

(** What [SendBankSelect] puts on the bus for a manufacturer. *)
Definition bank_select_xfers (make BankSel : Z) : list Xfer :=
  (if make =? MICRON_ID_BYTE0
   then [wren_xfer; mkXfer [EXTADD_REG_WR; u8 BankSel] BANK_SEL_SIZE false] else []) ++
  (if make =? SPANSION_ID_BYTE0
   then [mkXfer [BANK_REG_WR; u8 BankSel] BANK_SEL_SIZE false] else []).

(** The flag status read of multi-die Micron parts. *)
Definition flag_xfers (row : FlashInfo) (make : Z) : list Xfer :=
  if (NumDie row >? 1) && (make =? MICRON_ID_BYTE0) then [flag_xfer] else [].

Definition sector_erase_xfer (RealAddr : Z) : Xfer :=
  mkXfer (SEC_ERASE_CMD :: addr3_cast RealAddr) SEC_ERASE_SIZE false.

(** *** Kinds of transfers *)

Definition is_sector_erase (x : Xfer) : bool :=
  (opcode x =? SEC_ERASE_CMD) && (xf_count x =? SEC_ERASE_SIZE) && negb (xf_rx x).

(** A write of the bank register (Spansion) or of the extended address
    register (Micron). *)
Definition is_bank_select (x : Xfer) : bool :=
  ((opcode x =? EXTADD_REG_WR) || (opcode x =? BANK_REG_WR)) &&
  (xf_count x =? BANK_SEL_SIZE) && negb (xf_rx x).

Definition is_page_program (x : Xfer) : bool :=
  (opcode x =? WRITE_CMD) && negb (xf_rx x).

(** The bank a bank-select frame selects. *)
Definition selected_bank (x : Xfer) : Z := nth 1 (xf_tx x) 0.


(** The topologies [GetRealAddr] has a case for. *)
Definition wired (QspiPtr : XQspiPs) : bool :=
  match Config_ConnectionMode QspiPtr with
  | CONNECTION_MODE_other => false
  | _ => true
  end.

(** [translate] at the topology of a driver instance. *)
Definition real_addr (QspiPtr : XQspiPs) (row : FlashInfo) (a : Z) : Z :=
  translate (Config_ConnectionMode QspiPtr) row a.

(** Whether a turn of the sector loop selects a bank: the device is larger
    than 16 MB and either no bank was selected yet in this operation or the
    bank of this sector is another one. *)
Definition erase_selects (row : FlashInfo) (BankInitFlag : bool) (BankSel : option Z)
    (bank : Z) : bool :=
  (FlashDeviceSize row >? SIXTEENMB) &&
  (BankInitFlag || negb (match BankSel with Some b => b =? bank | None => false end)).

(** The transfers of one turn of the sector loop; [polls] status reads
    came back busy before the one that ended the wait. *)
Definition sector_xfers (row : FlashInfo) (make : Z) (select : bool)
    (RealAddr : Z) (polls : nat) : list Xfer :=
  (if select then bank_select_xfers make (RealAddr / SIXTEENMB) else []) ++
  [wren_xfer; sector_erase_xfer RealAddr] ++
  flag_xfers row make ++ repeat status_xfer (S polls) ++ flag_xfers row make.


(** The logical addresses the sector loop goes through in [n] turns. *)
Fixpoint erase_addresses (n : nat) (row : FlashInfo) (Address : Z) : list Z :=
  match n with
  | O => []
  | S n' => Address :: erase_addresses n' row (u32 (Address + SectSize row))
  end.

(** The bank of a logical address: the translated address over 16 MB. *)
Definition bank_of (QspiPtr : XQspiPs) (row : FlashInfo) (a : Z) : Z :=
  real_addr QspiPtr row a / SIXTEENMB.

(** The banks, out of a sequence of banks visited in turn, that differ from
    the bank selected before them; [prev] is the bank selected before the
    first, if any. *)
Fixpoint bank_changes (prev : option Z) (banks : list Z) : list Z :=
  match banks with
  | [] => []
  | b :: rest =>
      (if match prev with Some p => p =? b | None => false end then [] else [b]) ++
      bank_changes (Some b) rest
  end.

(** The register write among the frames of [SendBankSelect]. *)
Definition bank_register_writes (make BankSel : Z) : list Xfer :=
  (if make =? MICRON_ID_BYTE0
   then [mkXfer [EXTADD_REG_WR; u8 BankSel] BANK_SEL_SIZE false] else []) ++
  (if make =? SPANSION_ID_BYTE0
   then [mkXfer [BANK_REG_WR; u8 BankSel] BANK_SEL_SIZE false] else []).

(** The condition under which [FlashErase] adds a sector to its count. *)
Definition boundary_overlap (row : FlashInfo) (Address ByteCount : Z) : bool :=
  Z.land (u32 (Address + ByteCount)) (SectMask row) =?
  Z.land (u32 (Address + u32 (u32 (ByteCount / SectSize row + 1) * SectSize row)))
         (SectMask row).

Definition ceil_div (n d : Z) : Z := (n + d - 1) / d.

(** The sector-erase frames of a list of events, and their number. *)
Definition sector_erases (added : list Event) : list Xfer :=
  filter is_sector_erase (transfers added).

Definition bank_selects (added : list Event) : list Xfer :=
  filter is_bank_select (transfers added).

Definition page_programs (added : list Event) : list Xfer :=
  filter is_page_program (transfers added).


(** Row 0 of the table: one Spansion 128 Mb chip, 64 KB sectors. *)
Definition single_128_row : FlashInfo :=
  mkFlashInfo 0x10000 0x100 256 0x10000 0x1000000
              SPANSION_ID_BYTE0 SPANSION_ID_BYTE2_128 0xFFFF0000 1.

(** An answer of an idle device, and one of a device that is still busy. *)
Definition ready_answer : Response := (XST_SUCCESS, [0; 0x80]).
Definition busy_answer : Response := (XST_SUCCESS, [0; 0x01]).


(** The frame of a page program: instruction, 3-byte address, payload. *)
Definition program_xfer (Command RealAddr : Z) (payload : list Z) (ByteCount : Z) : Xfer :=
  mkXfer (Command :: addr3_masked RealAddr ++ payload) (ByteCount + OVERHEAD_SIZE) false.

(** The transfers of [FlashWrite] up to the status polling. *)
Definition write_head (row : FlashInfo) (make RealAddr Command : Z)
    (payload : list Z) (ByteCount : Z) : list Xfer :=
  (if FlashDeviceSize row >? SIXTEENMB
   then bank_select_xfers make (RealAddr / SIXTEENMB) else []) ++
  [wren_xfer; program_xfer Command RealAddr payload ByteCount] ++
  flag_xfers row make.


(** *** The chunks of a read, in the words of the specification *)

(** The first address of the 16 MB bank after the one [a] lies in. *)
Definition next_bank (a : Z) : Z := (a / SIXTEENMB + 1) * SIXTEENMB.

(** The chunks of a read of [remaining] bytes from [Address], each given by
    its logical address and payload size: a chunk takes the bytes left up to
    the next bank boundary when the remaining span reaches beyond it and all
    remaining bytes otherwise, and the next chunk starts on that boundary.
    [turns] bounds the number of chunks. *)
Fixpoint read_plan (turns : nat) (Address remaining : Z) : list (Z * Z) :=
  match turns with
  | O => []
  | S turns' =>
      if 0 <? remaining then
        let payload := Z.min remaining (next_bank Address - Address) in
        (Address, payload) ::
        read_plan turns' (next_bank Address) (remaining - payload)
      else []
  end.

(** The number of banks a span of [ByteCount > 0] bytes from [Address]
    touches. *)
Definition read_turns (Address ByteCount : Z) : nat :=
  Z.to_nat ((Address + ByteCount - 1) / SIXTEENMB - Address / SIXTEENMB + 1).

Definition sum_payloads (plan : list (Z * Z)) : Z :=
  fold_right (fun ap acc => snd ap + acc) 0 plan.


(** Instruction and address bytes of a frame, and its total size. *)
Definition frame_header (x : Xfer) : list Z * Z := (firstn 4 (xf_tx x), xf_count x).

(** The header of the read transaction of a chunk. *)
Definition read_header (QspiPtr : XQspiPs) (row : FlashInfo) (Command : Z)
    (chunk : Z * Z) : list Z * Z :=
  (Command :: addr3_masked (real_addr QspiPtr row (fst chunk)),
   snd chunk + OVERHEAD_SIZE + (if has_dummy Command then DUMMY_SIZE else 0)).


(** The chunking rule as the specification words it: while bytes remain,
    the chunk at [Address] takes the bytes left up to the next bank boundary
    if the remaining span goes beyond that boundary, and the next chunk
    starts there; otherwise it takes all that remains and is the last. *)
Inductive chunked : Z -> Z -> list (Z * Z) -> Prop :=
| chunked_done (Address : Z) :
    chunked Address 0 []
| chunked_last (Address remaining : Z) :
    0 < remaining <= next_bank Address - Address ->
    chunked Address remaining [(Address, remaining)]
| chunked_cross (Address remaining : Z) (plan : list (Z * Z)) :
    next_bank Address - Address < remaining ->
    chunked (next_bank Address) (remaining - (next_bank Address - Address)) plan ->
    chunked Address remaining ((Address, next_bank Address - Address) :: plan).

(** No chunk goes beyond the bank it starts in. *)
Definition within_bank (chunk : Z * Z) : Prop :=
  0 < snd chunk /\ fst chunk + snd chunk <= next_bank (fst chunk).


(** A driver that has identified its device: manufacturer [make], table
    index [index], and a bus that will answer [answers]. *)
Definition identified (make index : Z) (answers : list Response) : State :=
  mkState make index 0 (fun _ => 0) answers [].


(** [n] consecutive page numbers from [Page] on. *)
Fixpoint page_numbers (n : nat) (Page : Z) : list Z :=
  match n with
  | O => []
  | S n' => Page :: page_numbers n' (Page + 1)
  end.

(** The header of the page program of page [Page] of the image. *)
Definition page_header (QspiPtr : XQspiPs) (row : FlashInfo) (Page : Z) : list Z * Z :=
  (WRITE_CMD ::
     addr3_masked (real_addr QspiPtr row (Page * PageSize row + BIN_START_ADDRESS)),
   PageSize row + OVERHEAD_SIZE).

(** Ready answers that are enough for an erase and for an image update. *)
Definition erase_budget (row : FlashInfo) (Address ByteCount : Z) : nat :=
  if ByteCount =? u32 (NumSect row * SectSize row)
  then (10 * Z.to_nat (NumDie row))%nat
  else (7 * Z.to_nat (erase_NumSect row Address ByteCount))%nat.

Definition update_flash_budget (row : FlashInfo) (length : Z) : nat :=
  (erase_budget row BIN_START_ADDRESS length +
   7 * Z.to_nat (length / PageSize row + 1) +
   3 * read_turns BIN_START_ADDRESS length)%nat.


(** The table entry at a valid index, for stating instances. *)
Definition row_at (i : nat) : FlashInfo := nth i Flash_Config_Table single_128_row.


(** *** Rows and topologies

    The table lists, for every manufacturer and size, the rows of one chip,
    of two stacked chips and of two parallel chips, in this order. *)
Definition topology_offset (mode : ConnectionMode) : Z :=
  match mode with
  | XQSPIPS_CONNECTION_MODE_STACKED => 1
  | XQSPIPS_CONNECTION_MODE_PARALLEL => 2
  | _ => 0
  end.

(** The number of chips of the array a row describes, by its index. *)
Definition chips_of_index (i : Z) : Z := if i mod 3 =? 0 then 1 else 2.


(** *** A device that never gets ready

    An answer is [unready] when it ends neither polling loop: as a status
    byte it has the write-in-progress bit set, as a flag status byte it has
    the completion bit clear. *)
Definition unready (r : Response) : bool :=
  negb (Z.land (nth 1 (snd r) 0) 0x01 =? 0) &&
  negb (Z.land (nth 1 (snd r) 0) 0x80 =? 0x80).

(** The driver has its row [row] and every answer still to come is
    [unready]. *)
Definition starving (row : FlashInfo) (st : State) : Prop :=
  forallb unready (bus st) = true /\ active_row st = Some row.

(** A piece of driver code that, on a starving driver, either runs out of
    answers or goes on with the driver still starving. *)
Definition passes {A} (row : FlashInfo) (m : M A) : Prop :=
  forall st, starving row st ->
    m st = Stalled \/ exists a st', m st = Done a st' /\ starving row st'.

(** A piece of driver code that does not return on a starving driver. *)
Definition stalls {A} (row : FlashInfo) (m : M A) : Prop :=
  forall st, starving row st -> m st = Stalled.


(** *** The frames of a full-device erase *)




Definition is_stacked (QspiPtr : XQspiPs) : bool :=
  match Config_ConnectionMode QspiPtr with
  | XQSPIPS_CONNECTION_MODE_STACKED => true
  | _ => false
  end.


(** *** What a run leaves alone

    [st'] differs from [st] at most on the bus, in the trace, in RAM at the
    addresses of [W] and, unless [fixcr], in the LQSPI configuration
    register. *)
Definition confined (W : Z -> Prop) (fixcr : bool) (st st' : State) : Prop :=
  FlashMake st' = FlashMake st /\
  FCTIndex st' = FCTIndex st /\
  (fixcr = true -> LqspiCr st' = LqspiCr st) /\
  (forall p, ~ W p -> mem st' p = mem st p).

(** Every run of [m] that returns is confined. *)
Definition keeps {A} (W : Z -> Prop) (fixcr : bool) (m : M A) : Prop :=
  forall st a st', m st = Done a st' -> confined W fixcr st st'.

(** The four bytes of a command header at [w]. *)
Definition header_at (w : Z) (p : Z) : Prop := w <= p < w + 4.


(** *** Where the bytes of a read end up *)

(** The number of transfers the bank selection of one chunk makes. *)
Definition select_transfers (row : FlashInfo) (make : Z) : nat :=
  if FlashDeviceSize row >? SIXTEENMB then length (bank_select_xfers make 0) else 0%nat.

(** The answers to the read transactions among the answers to come, for at
    most [chunks] chunks: every chunk uses up [sel] answers for its bank
    selection and the next one for its read. *)
Fixpoint read_answers (chunks sel : nat) (b : list Response) : list Response :=
  match chunks with
  | O => []
  | S n =>
      match skipn sel b with
      | [] => []
      | r :: rest => r :: read_answers n sel rest
      end
  end.

(** The bytes in front of the payload in the frame received: instruction and
    address, and the dummy byte of the fast, dual and quad reads. *)
Definition shift_size (Command : Z) : Z :=
  if has_dummy Command then OVERHEAD_SIZE + DUMMY_SIZE else OVERHEAD_SIZE.

(** The offset of the payload of chunk [j] in the data read: the payloads
    of the chunks before it. *)
Definition chunk_offset (plan : list (Z * Z)) (j : nat) : Z :=
  sum_payloads (firstn j plan).


(** The number of chips a topology wires up. *)
Definition chips_of_topology (mode : ConnectionMode) : Z :=
  match mode with
  | XQSPIPS_CONNECTION_MODE_STACKED => 2
  | XQSPIPS_CONNECTION_MODE_PARALLEL => 2
  | _ => 1
  end.


(** ** Initialisation

    [XQspiPs_LookupConfig], [XQspiPs_CfgInitialize] and [XQspiPs_SelfTest]
    belong to the Xilinx driver, which is not part of the sources: what they
    return is an input here ([lookup] is [None] for the NULL pointer and
    otherwise the [ConnectionMode] of the configuration found, which
    [XQspiPs_CfgInitialize] copies into the instance).
    [XQspiPs_SetClkPrescaler] and [XQspiPs_SetOptions] act on the
    configuration register of the controller, which no function of this file
    reads and the state does not record. *)

Variable XQSPIPS_LQSPI_CR_TWO_MEM_MASK : Z.
Variable XQSPIPS_LQSPI_CR_SEP_BUS_MASK : Z.

(** The address of the global [ReadBuffer]. *)
Variable ReadBuffer : Z.






Arguments u32 : simpl never.
Arguments u8 : simpl never.
Arguments not32 : simpl never.
Arguments load_bytes : simpl never.
Arguments store_bytes : simpl never.
Arguments store_byte : simpl never.

(** ** Facts about the table and the machine integers *)

Lemma table_row_In (i : Z) (row : FlashInfo) :
  table_row i = Some row -> In row Flash_Config_Table.
Proof.
  unfold table_row. destruct (i <? 0); [discriminate|].
  apply nth_error_In.
Qed.

Lemma table_row_FlashDeviceSize (i : Z) (row : FlashInfo) :
  table_row i = Some row ->
  exists k, 24 <= k <= 27 /\ FlashDeviceSize row = 2 ^ k.
Proof.
  intros H. apply table_row_In in H. unfold Flash_Config_Table in H.
  simpl in H.
  repeat (destruct H as [H | H];
          [subst row; simpl;
           first [ exists 24; split; [lia | reflexivity]
                 | exists 25; split; [lia | reflexivity]
                 | exists 26; split; [lia | reflexivity]
                 | exists 27; split; [lia | reflexivity] ] | ]).
  contradiction.
Qed.

Lemma land_not32_ldiff (a d : Z) :
  0 <= a < 2 ^ 32 -> Z.land a (not32 d) = Z.ldiff a d.
Proof.
  intros Ha. unfold not32.
  rewrite (Z.land_comm (Z.lnot d)), Z.land_assoc.
  change 0xFFFFFFFF with (Z.ones 32).
  rewrite Z.land_ones by lia. rewrite Z.mod_small by lia.
  now rewrite Z.ldiff_land.
Qed.

Lemma land_pow2_testbit (a k : Z) :
  0 <= k -> Z.land a (2 ^ k) = if Z.testbit a k then 2 ^ k else 0.
Proof.
  intros Hk. apply Z.bits_inj'. intros n Hn.
  rewrite Z.land_spec, Z.pow2_bits_eqb by lia.
  destruct (Z.eqb_spec k n) as [->|Hne].
  - destruct (Z.testbit a n) eqn:E; simpl.
    + now rewrite Z.pow2_bits_true.
    + now rewrite Z.bits_0.
  - rewrite andb_false_r.
    destruct (Z.testbit a k).
    + now rewrite Z.pow2_bits_false.
    + now rewrite Z.bits_0.
Qed.

(** Clearing a bit that is set subtracts its weight. *)
Lemma land_not32_pow2 (a k : Z) :
  0 <= a < 2 ^ 32 -> 0 <= k ->
  Z.land a (2 ^ k) <> 0 ->
  Z.land a (not32 (2 ^ k)) = a - 2 ^ k.
Proof.
  intros Ha Hk Hset.
  rewrite land_not32_ldiff by assumption.
  symmetry. apply Z.sub_nocarry_ldiff.
  rewrite land_pow2_testbit in Hset by assumption.
  destruct (Z.testbit a k) eqn:E; [|congruence].
  apply Z.bits_inj'. intros n Hn.
  rewrite Z.ldiff_spec, Z.pow2_bits_eqb, Z.bits_0 by lia.
  destruct (Z.eqb_spec k n) as [->|]; [|reflexivity].
  now rewrite E.
Qed.

Lemma upage_set (cr m : Z) : Z.land (Z.lor cr m) m = m.
Proof.
  apply Z.bits_inj'. intros n _.
  rewrite Z.land_spec, Z.lor_spec.
  destruct (Z.testbit cr n), (Z.testbit m n); reflexivity.
Qed.

Lemma upage_clear (cr m : Z) : Z.land (Z.land cr (not32 m)) m = 0.
Proof.
  apply Z.bits_inj'. intros n Hn. unfold not32.
  rewrite !Z.land_spec, Z.lnot_spec, Z.bits_0 by assumption.
  destruct (Z.testbit m n); [|apply andb_false_r].
  now rewrite andb_false_r.
Qed.

(** ** Address translation: the three topologies *)

Lemma GetRealAddr_stacked_run (a : Z) (st : State) (row : FlashInfo) :
  0 <= a < 2 ^ 32 -> active_row st = Some row ->
  let upper := negb (Z.land a (FlashDeviceSize row) =? 0) in
  let cr := if upper then Z.lor (LqspiCr st) XQSPIPS_LQSPI_CR_U_PAGE_MASK
            else Z.land (LqspiCr st) (not32 XQSPIPS_LQSPI_CR_U_PAGE_MASK) in
  GetRealAddr (mkXQspiPs XQSPIPS_CONNECTION_MODE_STACKED) a st =
    Done (Some (if upper then a - FlashDeviceSize row else a))
         (log (EvSlaveSelect cr) (set_LqspiCr cr st)).
Proof.
  intros Ha Hrow upper cr.
  destruct (table_row_FlashDeviceSize _ _ Hrow) as (k & Hk & Hsize).
  unfold GetRealAddr, Flash_Config_row, bind, get,
    XQspiPs_GetLqspiConfigReg; simpl.
  unfold active_row in Hrow. rewrite Hrow. simpl.
  subst upper cr. rewrite Hsize.
  destruct (Z.eqb_spec (Z.land a (2 ^ k)) 0) as [E|E]; simpl.
  - reflexivity.
  - rewrite land_not32_pow2 by (assumption || lia). reflexivity.
Qed.

(** C1. Address translation is the identity in Single topology and the
    halved address in Parallel topology; in Stacked topology it returns the
    address minus [FlashDeviceSize] exactly when [Address & FlashDeviceSize]
    is not zero and the address itself otherwise, the U_PAGE bit of the LQSPI
    configuration register and the slave select asserted afterwards being
    those of the branch taken. *)
Theorem GetRealAddr_translation (a : Z) (st : State) :
  GetRealAddr (mkXQspiPs XQSPIPS_CONNECTION_MODE_SINGLE) a st = Done (Some a) st /\
  GetRealAddr (mkXQspiPs XQSPIPS_CONNECTION_MODE_PARALLEL) a st = Done (Some (a / 2)) st /\
  (forall row, 0 <= a < 2 ^ 32 -> active_row st = Some row ->
   let upper := negb (Z.land a (FlashDeviceSize row) =? 0) in
   let cr := if upper then Z.lor (LqspiCr st) XQSPIPS_LQSPI_CR_U_PAGE_MASK
             else Z.land (LqspiCr st) (not32 XQSPIPS_LQSPI_CR_U_PAGE_MASK) in
   GetRealAddr (mkXQspiPs XQSPIPS_CONNECTION_MODE_STACKED) a st =
     Done (Some (if upper then a - FlashDeviceSize row else a))
          (log (EvSlaveSelect cr) (set_LqspiCr cr st)) /\
   Z.land cr XQSPIPS_LQSPI_CR_U_PAGE_MASK =
     (if upper then XQSPIPS_LQSPI_CR_U_PAGE_MASK else 0)).
Proof.
  split; [reflexivity|]. split; [reflexivity|].
  intros row Ha Hrow upper cr.
  split; [exact (GetRealAddr_stacked_run a st row Ha Hrow)|].
  subst cr. destruct upper.
  - apply upage_set.
  - apply upage_clear.
Qed.

(** ** Address translation: the [default] label *)

(** C10. When the connection mode is none of Single, Stacked and Parallel,
    [GetRealAddr] assigns nothing to [RealAddr] and touches no register: what
    it returns is an unassigned variable, which has no value that the inputs
    determine, and a caller that uses it has no defined behaviour. *)
Theorem GetRealAddr_default_unassigned (a : Z) (st : State) :
  GetRealAddr (mkXQspiPs CONNECTION_MODE_other) a st = Done None st /\
  (forall n c w, FlashWrite (mkXQspiPs CONNECTION_MODE_other) a n c w st = Undefined).
Proof.
  split; reflexivity.
Qed.

(** ** Memory *)

Lemma store_bytes_at (m : Z -> Z) (p n : Z) (data : list Z) (i : Z) :
  0 <= i < n -> store_bytes m p n data (p + i) = u8 (nth (Z.to_nat i) data 0).
Proof.
  intros Hi. unfold store_bytes.
  replace (p + i - p) with i by lia.
  destruct (Z.leb_spec p (p + i)); [|lia].
  destruct (Z.ltb_spec (p + i) (p + n)); [|lia].
  reflexivity.
Qed.

(** ** Identification *)

(** Once the device has answered, what is left of [FlashReadID] is the
    decoding of two bytes of the answer. *)
Lemma FlashReadID_answered (Q : XQspiPs) (W R : Z) (st : State)
    (status : XStatus) (data : list Z) (rest : list Response) :
  bus st = (status, data) :: rest ->
  FlashReadID Q W R st =
    if negb (XStatus_eqb status XST_SUCCESS)
    then Done XST_FAILURE (after_read_id W R data rest st)
    else (StartIndex <- deduce_make (u8 (nth 1 data 0)) ;;
          assign_index Q StartIndex (u8 (nth 3 data 0)) ;;;
          ret XST_SUCCESS) (after_read_id W R data rest st).
Proof.
  intros Hbus.
  unfold FlashReadID, XQspiPs_PolledTransfer, exchange, bind at 1 2 3 4 5 6 7 8, store, modify, get.
  cbn. rewrite Hbus. cbn.
  destruct (negb (XStatus_eqb status XST_SUCCESS)); [reflexivity|].
  unfold bind at 1, load at 1, get. cbn [mem set_mem].
  rewrite (store_bytes_at _ R RD_ID_SIZE data 1) by (unfold RD_ID_SIZE; lia).
  change (Z.to_nat 1) with 1%nat.
  unfold bind at 1. unfold bind at 3.
  unfold after_read_id, deduce_make.
  repeat match goal with
         | |- context [if ?c then _ else _] => destruct c
         end;
    cbn;
    rewrite (store_bytes_at _ R RD_ID_SIZE data 3) by (unfold RD_ID_SIZE; lia);
    reflexivity.
Qed.

(** C6. The answer 0x20, 0xBA, 0x19 to the read-ID command in Single
    topology selects row [MICRON_INDEX_START + 3] of the table: the Micron
    row with the 256 Mb size code and the geometry of one 256 Mb chip. *)
Theorem FlashReadID_micron_256_single (st : State) (W R b0 : Z) (tail : list Z)
    (rest : list Response) :
  bus st = (XST_SUCCESS, b0 :: 0x20 :: 0xBA :: 0x19 :: tail) :: rest ->
  exists st',
    FlashReadID (mkXQspiPs XQSPIPS_CONNECTION_MODE_SINGLE) W R st = Done XST_SUCCESS st' /\
    FlashMake st' = MICRON_ID_BYTE0 /\
    FCTIndex st' = MICRON_INDEX_START + 3 /\
    active_row st' =
      Some (mkFlashInfo 0x10000 0x200 256 0x20000 0x2000000
                        MICRON_ID_BYTE0 MICRON_ID_BYTE2_256 0xFFFF0000 1).
Proof.
  intros Hbus.
  rewrite (FlashReadID_answered _ W R st _ _ _ Hbus).
  eexists. split; [reflexivity|].
  repeat split.
Qed.

(** C7, as amended. When no row of the catalog carries the manufacturer
    byte and the size code of the answer, and no device was identified
    before ([FlashMake] is not a known manufacturer, as at power-on),
    [FlashReadID] leaves [FCTIndex] as it was and returns [XST_SUCCESS]
    whenever the transfer itself succeeded, and [XST_FAILURE] only when the
    transfer failed.  [FlashMake] is left as it was when the manufacturer
    byte is unknown or the transfer failed; a known manufacturer byte is
    recorded in [FlashMake] even though its size code matches nothing. *)
Theorem FlashReadID_unrecognised (Q : XQspiPs) (W R : Z) (st : State)
    (status : XStatus) (data : list Z) (rest : list Response) :
  bus st = (status, data) :: rest ->
  known_make (FlashMake st) = false ->
  in_catalog (u8 (nth 1 data 0)) (u8 (nth 3 data 0)) = false ->
  exists st',
    FlashReadID Q W R st =
      Done (if XStatus_eqb status XST_SUCCESS then XST_SUCCESS else XST_FAILURE) st' /\
    FCTIndex st' = FCTIndex st /\
    FlashMake st' =
      (if XStatus_eqb status XST_SUCCESS && known_make (u8 (nth 1 data 0))
       then u8 (nth 1 data 0) else FlashMake st).
Proof.
  intros Hbus Hold Hcat.
  rewrite (FlashReadID_answered _ W R st _ _ _ Hbus).
  destruct (XStatus_eqb status XST_SUCCESS); cbn [negb andb].
  2:{ eexists. split; [reflexivity|]. split; reflexivity. }
  set (id0 := u8 (nth 1 data 0)) in *. set (id2 := u8 (nth 3 data 0)) in *.
  set (st1 := after_read_id W R data rest st).
  assert (Hm : FlashMake st1 = FlashMake st) by reflexivity.
  assert (Hi : FCTIndex st1 = FCTIndex st) by reflexivity.
  rewrite <- Hm, <- Hi. rewrite <- Hm in Hold. clearbody st1. clear Hm Hi Hbus.
  clearbody id0 id2.
  unfold known_make in *. unfold in_catalog in Hcat. cbn in Hcat.
  unfold bind at 1. unfold deduce_make, assign_index.
  cbv [MICRON_ID_BYTE0 SPANSION_ID_BYTE0 WINBOND_ID_BYTE0 MACRONIX_ID_BYTE0
       MICRON_ID_BYTE2_128 MICRON_ID_BYTE2_256 MICRON_ID_BYTE2_512 MICRON_ID_BYTE2_1G
       SPANSION_ID_BYTE2_128 SPANSION_ID_BYTE2_256 SPANSION_ID_BYTE2_512
       WINBOND_ID_BYTE2_128 MACRONIX_ID_BYTE2_256 MACRONIX_ID_BYTE2_512
       MACRONIX_ID_BYTE2_1G] in *.
  destruct (Z.eqb_spec id0 32) as [->|N1];
    [|destruct (Z.eqb_spec id0 1) as [->|N2];
      [|destruct (Z.eqb_spec id0 239) as [->|N3];
        [|destruct (Z.eqb_spec id0 194) as [->|N4]]]];
    cbn in Hcat |- *.
  5:{ repeat (apply orb_false_elim in Hold; destruct Hold as [Hold ?]).
      unfold bind, get.
      repeat match goal with H : (_ =? _) = false |- _ => rewrite H end.
      cbn. eexists. repeat split. }
  all: repeat match goal with
              | |- context [?v =? ?c] => is_var v; destruct (v =? c) eqn:?
              end; cbn in Hcat; try discriminate Hcat;
       cbn; eexists; repeat split.
Qed.

(** ** Bus traffic *)

Lemma transfers_app (a b : list Event) :
  transfers (a ++ b) = transfers a ++ transfers b.
Proof.
  induction a as [|[x|cr] a IH]; simpl; [reflexivity| |assumption].
  now rewrite IH.
Qed.

Lemma ready_count_cons (r : Response) (b : list Response) :
  ready_count (r :: b) = ((if ready r then 1 else 0) + ready_count b)%nat.
Proof. unfold ready_count. simpl. now destruct (ready r). Qed.

Lemma ready_count_length (b : list Response) : (ready_count b <= length b)%nat.
Proof. apply filter_length_le. Qed.

Lemma advances_refl (st : State) : advances 0 st st [].
Proof.
  repeat split; [| |lia].
  - exists []. now rewrite app_nil_r.
  - now exists [].
Qed.

Lemma advances_trans (n1 n2 : nat) (st st1 st2 : State) (xs1 xs2 : list Xfer) :
  advances n1 st st1 xs1 -> advances n2 st1 st2 xs2 ->
  advances (n1 + n2) st st2 (xs1 ++ xs2).
Proof.
  intros (M1 & I1 & (a1 & T1 & X1) & (b1 & B1 & L1) & R1)
         (M2 & I2 & (a2 & T2 & X2) & (b2 & B2 & L2) & R2).
  repeat split; try congruence; [| |lia].
  - exists (a1 ++ a2). split.
    + now rewrite T2, T1, app_assoc.
    + now rewrite transfers_app, X1, X2.
  - exists (b1 ++ b2). split.
    + now rewrite B1, B2, app_assoc.
    + rewrite !length_app. lia.
Qed.

Lemma advances_weaken (n m : nat) (st st' : State) (xs : list Xfer) :
  (n <= m)%nat -> advances n st st' xs -> advances m st st' xs.
Proof.
  intros Hnm (M1 & I1 & T1 & B1 & R1). repeat split; try assumption. lia.
Qed.

(** States that differ in memory and chip select only. *)
Lemma advances_silent (st st' : State) :
  FlashMake st' = FlashMake st -> FCTIndex st' = FCTIndex st ->
  bus st' = bus st -> (exists added, trace st' = trace st ++ added /\ transfers added = []) ->
  advances 0 st st' [].
Proof.
  intros M1 I1 B1 T1. repeat split; try assumption.
  - exists []. split; [now rewrite B1|reflexivity].
  - rewrite B1. lia.
Qed.

Lemma active_row_advances (n : nat) (st st' : State) (xs : list Xfer) :
  advances n st st' xs -> active_row st' = active_row st.
Proof. intros (_ & I & _). unfold active_row. now rewrite I. Qed.

Lemma exchange_spec (x : Xfer) (st : State) :
  (1 <= ready_count (bus st))%nat ->
  exists r st', exchange x st = Done r st' /\ advances 1 st st' [x] /\
                mem st' = mem st /\ LqspiCr st' = LqspiCr st.
Proof.
  intros H. unfold exchange.
  destruct (bus st) as [|r rest] eqn:Hbus; [cbv in H; lia|].
  exists r, (log (EvTransfer x) (set_bus rest st)).
  repeat split.
  - exists [EvTransfer x]. split; reflexivity.
  - exists [r]. split; [exact Hbus|reflexivity].
  - rewrite Hbus, ready_count_cons. simpl. destruct (ready r); lia.
Qed.

Lemma PolledTransfer_local_spec (tx : list Z) (rx : bool) (st : State) :
  (1 <= ready_count (bus st))%nat ->
  exists data st',
    XQspiPs_PolledTransfer_local tx rx st = Done data st' /\
    advances 1 st st' [mkXfer tx (Z.of_nat (length tx)) rx] /\
    mem st' = mem st /\ LqspiCr st' = LqspiCr st.
Proof.
  intros H. unfold XQspiPs_PolledTransfer_local, bind.
  destruct (exchange_spec (mkXfer tx (Z.of_nat (length tx)) rx) st H)
    as (r & st' & E & A & Hm & Hc).
  rewrite E. now exists (snd r), st'.
Qed.

Lemma PolledTransfer_send_spec (p n : Z) (st : State) :
  (1 <= ready_count (bus st))%nat ->
  exists s st',
    XQspiPs_PolledTransfer p None n st = Done s st' /\
    advances 1 st st' [mkXfer (load_bytes (mem st) p n) n false] /\
    mem st' = mem st /\ LqspiCr st' = LqspiCr st.
Proof.
  intros H. unfold XQspiPs_PolledTransfer, bind, get.
  destruct (exchange_spec (mkXfer (load_bytes (mem st) p n) n false) st H)
    as (r & st' & E & A & Hm & Hc).
  rewrite E. now exists (fst r), st'.
Qed.

Lemma PolledTransfer_recv_spec (p q n : Z) (st : State) :
  (1 <= ready_count (bus st))%nat ->
  exists s st',
    XQspiPs_PolledTransfer p (Some q) n st = Done s st' /\
    advances 1 st st' [mkXfer (load_bytes (mem st) p n) n true] /\
    LqspiCr st' = LqspiCr st.
Proof.
  intros H. unfold XQspiPs_PolledTransfer, bind, get.
  destruct (exchange_spec (mkXfer (load_bytes (mem st) p n) n true) st H)
    as (r & st' & E & A & Hm & Hc).
  rewrite E. cbn.
  exists (fst r), (set_mem (store_bytes (mem st') q n (snd r)) st').
  split; [reflexivity|]. split; [|exact Hc].
  destruct A as (M1 & I1 & T1 & B1 & R1). repeat split; assumption.
Qed.

(** The status polling ends on a ready answer at the latest: it reads the
    status once for every answer that has the write-in-progress bit set and
    stops at the first answer that has it clear. *)
Lemma wait_status_loop_spec (b : list Response) :
  forall st, bus st = b -> (1 <= ready_count b)%nat ->
  exists busy r st',
    wait_status_loop (length b) st = Done tt st' /\
    advances 1 st st' (repeat status_xfer (S (length busy))) /\
    bus st = busy ++ r :: bus st' /\
    forallb status_busy busy = true /\ status_busy r = false /\
    mem st' = mem st /\ LqspiCr st' = LqspiCr st.
Proof.
  induction b as [|r rest IH]; intros st Hbus Hr; [cbv in Hr; lia|].
  cbn [length wait_status_loop]. unfold XQspiPs_PolledTransfer_local, bind, exchange.
  rewrite Hbus. cbn.
  destruct (Z.land (nth 1 (snd r) 0) 1 =? 0) eqn:Hbit.
  - exists [], r. eexists. split; [reflexivity|]. repeat split.
    + exists [EvTransfer status_xfer]. split; reflexivity.
    + exists [r]. split; [now rewrite Hbus|reflexivity].
    + rewrite Hbus, ready_count_cons. simpl. destruct (ready r); lia.
    + unfold status_busy. now rewrite Hbit.
  - assert (Hnr : ready r = false) by (unfold ready; now rewrite Hbit).
    rewrite ready_count_cons, Hnr in Hr.
    destruct (IH (log (EvTransfer status_xfer) (set_bus rest st)) eq_refl Hr)
      as (busy & r' & st' & E & (M1 & I1 & (a & T1 & X1) & (bs & B1 & L1) & R1) &
          Hb & Hbusy & Hr' & Hm & Hc).
    exists (r :: busy), r', st'. split; [exact E|]. repeat split; try assumption.
    + exists (EvTransfer status_xfer :: a). split.
      * rewrite T1. cbn. now rewrite <- app_assoc.
      * cbn. now rewrite X1.
    + exists (r :: bs). split.
      * cbn in B1. rewrite Hbus. cbn. now rewrite <- B1.
      * cbn [length]. rewrite L1. reflexivity.
    + rewrite Hbus, ready_count_cons, Hnr. simpl in R1. simpl. lia.
    + cbn in Hb. cbn. now rewrite <- Hb.
    + cbn [forallb]. rewrite Hbusy. unfold status_busy. now rewrite Hbit.
Qed.

Lemma wait_status_spec (st : State) :
  (1 <= ready_count (bus st))%nat ->
  exists busy r st',
    wait_status st = Done tt st' /\
    advances 1 st st' (repeat status_xfer (S (length busy))) /\
    bus st = busy ++ r :: bus st' /\
    forallb status_busy busy = true /\ status_busy r = false /\
    mem st' = mem st /\ LqspiCr st' = LqspiCr st.
Proof. intros H. unfold wait_status. now apply wait_status_loop_spec. Qed.

Lemma wait_flag_loop_spec (b : list Response) :
  forall st, bus st = b -> (1 <= ready_count b)%nat ->
  exists k st',
    wait_flag_loop (length b) st = Done tt st' /\
    advances 1 st st' (repeat flag_xfer (S k)) /\
    mem st' = mem st /\ LqspiCr st' = LqspiCr st.
Proof.
  induction b as [|r rest IH]; intros st Hbus Hr; [cbv in Hr; lia|].
  cbn [length wait_flag_loop]. unfold XQspiPs_PolledTransfer_local, bind, exchange.
  rewrite Hbus. cbn.
  destruct (Z.land (nth 1 (snd r) 0) 128 =? 128) eqn:Hbit.
  - exists 0%nat. eexists. split; [reflexivity|]. repeat split.
    + exists [EvTransfer flag_xfer]. split; reflexivity.
    + exists [r]. split; [now rewrite Hbus|reflexivity].
    + rewrite Hbus, ready_count_cons. simpl. destruct (ready r); lia.
  - assert (Hnr : ready r = false)
      by (unfold ready; rewrite Hbit; apply andb_false_r).
    rewrite ready_count_cons, Hnr in Hr.
    destruct (IH (log (EvTransfer flag_xfer) (set_bus rest st)) eq_refl Hr)
      as (k & st' & E & (M1 & I1 & (a & T1 & X1) & (bs & B1 & L1) & R1) & Hm & Hc).
    exists (S k), st'. split; [exact E|]. repeat split; try assumption.
    + exists (EvTransfer flag_xfer :: a). split.
      * rewrite T1. cbn. now rewrite <- app_assoc.
      * cbn. now rewrite X1.
    + exists (r :: bs). split.
      * cbn in B1. rewrite Hbus. cbn. now rewrite <- B1.
      * cbn [length]. rewrite L1. reflexivity.
    + rewrite Hbus, ready_count_cons, Hnr. simpl in R1. simpl. lia.
Qed.

Lemma wait_flag_spec (st : State) :
  (1 <= ready_count (bus st))%nat ->
  exists k st',
    wait_flag st = Done tt st' /\
    advances 1 st st' (repeat flag_xfer (S k)) /\
    mem st' = mem st /\ LqspiCr st' = LqspiCr st.
Proof. intros H. unfold wait_flag. now apply wait_flag_loop_spec. Qed.

(** ** Frames assembled in the write buffer *)

Lemma load_bytes_cons (m : Z -> Z) (p n : Z) :
  0 < n -> load_bytes m p n = m p :: load_bytes m (p + 1) (n - 1).
Proof.
  intros Hn. unfold load_bytes.
  replace (Z.to_nat n) with (S (Z.to_nat (n - 1))) by lia.
  cbn [seq map]. rewrite Z.add_0_r. f_equal.
  rewrite <- seq_shift, map_map.
  apply map_ext. intros i. f_equal. lia.
Qed.

Lemma load_bytes_nil (m : Z -> Z) (p n : Z) : n <= 0 -> load_bytes m p n = [].
Proof.
  intros Hn. unfold load_bytes. now replace (Z.to_nat n) with 0%nat by lia.
Qed.

Lemma load_bytes_ext (m m' : Z -> Z) (p n : Z) :
  (forall a, p <= a < p + n -> m a = m' a) ->
  load_bytes m p n = load_bytes m' p n.
Proof.
  intros H. unfold load_bytes. apply map_ext_in. intros i Hi.
  apply in_seq in Hi. apply H. lia.
Qed.

Lemma load_bytes_length (m : Z -> Z) (p n : Z) :
  length (load_bytes m p n) = Z.to_nat n.
Proof. unfold load_bytes. now rewrite length_map, length_seq. Qed.

Lemma store_byte_same (m : Z -> Z) (p v a : Z) :
  a = p -> store_byte m p v a = u8 v.
Proof. intros ->. unfold store_byte. now rewrite Z.eqb_refl. Qed.

Lemma store_byte_other (m : Z -> Z) (p v a : Z) :
  a <> p -> store_byte m p v a = m a.
Proof.
  intros H. unfold store_byte. destruct (Z.eqb_spec a p); [contradiction|reflexivity].
Qed.

(** Resolves reads through a stack of [store_byte]. *)
Ltac mem_simp :=
  repeat first
    [ rewrite store_byte_same by lia
    | rewrite store_byte_other by lia ].

(** The four header bytes followed by what the buffer held behind them. *)
Lemma load_bytes_header (m : Z -> Z) (w c a1 a2 a3 n : Z) :
  4 <= n ->
  load_bytes
    (store_byte (store_byte (store_byte (store_byte m
       (w + COMMAND_OFFSET) c) (w + ADDRESS_1_OFFSET) a1)
       (w + ADDRESS_2_OFFSET) a2) (w + ADDRESS_3_OFFSET) a3) w n =
  u8 c :: u8 a1 :: u8 a2 :: u8 a3 :: load_bytes m (w + 4) (n - 4).
Proof.
  intros Hn. unfold COMMAND_OFFSET, ADDRESS_1_OFFSET, ADDRESS_2_OFFSET, ADDRESS_3_OFFSET.
  rewrite Z.add_0_r.
  do 4 (rewrite load_bytes_cons by lia; mem_simp; f_equal).
  replace (w + 1 + 1 + 1 + 1) with (w + 4) by lia.
  replace (n - 1 - 1 - 1 - 1) with (n - 4) by lia.
  apply load_bytes_ext. intros a Ha. now mem_simp.
Qed.

Lemma load_bytes_header2 (m : Z -> Z) (w c b : Z) :
  load_bytes (store_byte (store_byte m (w + COMMAND_OFFSET) c)
                         (w + ADDRESS_1_OFFSET) b) w BANK_SEL_SIZE =
  [u8 c; u8 b].
Proof.
  unfold COMMAND_OFFSET, ADDRESS_1_OFFSET, BANK_SEL_SIZE. rewrite Z.add_0_r.
  do 2 (rewrite load_bytes_cons by lia; mem_simp; f_equal).
Qed.

Lemma load_bytes_header1 (m : Z -> Z) (w c : Z) :
  load_bytes (store_byte m (w + COMMAND_OFFSET) c) w 1 = [u8 c].
Proof.
  unfold COMMAND_OFFSET. rewrite Z.add_0_r.
  rewrite load_bytes_cons by lia; mem_simp; f_equal.
Qed.

(** ** Bank selection and the flag status read *)

Lemma SendBankSelect_spec (w bank : Z) (st : State) :
  (2 <= ready_count (bus st))%nat ->
  exists st',
    SendBankSelect w bank st = Done XST_SUCCESS st' /\
    advances 2 st st' (bank_select_xfers (FlashMake st) bank) /\
    LqspiCr st' = LqspiCr st /\
    (forall a, a <> w -> a <> w + 1 -> mem st' a = mem st a).
Proof.
  intros H. unfold SendBankSelect, bank_select_xfers.
  unfold bind at 1, get.
  destruct (FlashMake st =? MICRON_ID_BYTE0) eqn:Emic.
  - assert (Esp : (FlashMake st =? SPANSION_ID_BYTE0) = false).
    { apply Z.eqb_eq in Emic. rewrite Emic. reflexivity. }
    rewrite Esp. cbn [when].
    unfold bind at 1. unfold bind at 1.
    destruct (PolledTransfer_local_spec [WRITE_ENABLE_CMD] false st)
      as (d & st1 & E1 & A1 & Hm1 & Hc1); [lia|].
    rewrite E1.
    unfold bind at 1, store at 1, modify. unfold bind at 1, store at 1, modify.
    unfold bind at 1.
    set (st2 := set_mem _ (set_mem _ st1)).
    destruct (PolledTransfer_send_spec w BANK_SEL_SIZE st2)
      as (s & st3 & E3 & A3 & Hm3 & Hc3).
    { destruct A1 as (_ & _ & _ & _ & R1). subst st2. simpl. lia. }
    rewrite E3. cbn.
    exists st3. split; [reflexivity|].
    assert (A2 : advances 0 st1 st2 []).
    { subst st2. apply advances_silent; try reflexivity.
      exists []. simpl. now rewrite app_nil_r. }
    pose proof (advances_trans _ _ _ _ _ _ _ (advances_trans _ _ _ _ _ _ _ A1 A2) A3) as A.
    subst st2. cbn [mem set_mem] in A. rewrite load_bytes_header2 in A.
    split; [|split].
    + exact A.
    + rewrite Hc3. simpl. exact Hc1.
    + intros a N0 N1. rewrite Hm3. cbn [mem set_mem].
      unfold COMMAND_OFFSET, ADDRESS_1_OFFSET. rewrite Z.add_0_r.
      mem_simp. now rewrite Hm1.
  - cbn [when]. unfold bind at 1. cbn [ret].
    destruct (FlashMake st =? SPANSION_ID_BYTE0) eqn:Esp; cbn [when].
    + unfold bind at 1. unfold bind at 1.
      unfold store at 1, modify. unfold bind at 1, store at 1, modify.
      unfold bind at 1.
      set (st2 := set_mem _ (set_mem _ st)).
      destruct (PolledTransfer_send_spec w BANK_SEL_SIZE st2)
        as (s & st3 & E3 & A3 & Hm3 & Hc3).
      { subst st2. simpl. lia. }
      rewrite E3. cbn.
      exists st3. split; [reflexivity|].
      assert (A2 : advances 0 st st2 []).
      { subst st2. apply advances_silent; try reflexivity.
        exists []. simpl. now rewrite app_nil_r. }
      pose proof (advances_trans _ _ _ _ _ _ _ A2 A3) as A.
      subst st2. cbn [mem set_mem] in A. rewrite load_bytes_header2 in A.
      split; [|split].
      * eapply advances_weaken; [|exact A]. lia.
      * rewrite Hc3. reflexivity.
      * intros a N0 N1. rewrite Hm3. cbn [mem set_mem].
        unfold COMMAND_OFFSET, ADDRESS_1_OFFSET. rewrite Z.add_0_r.
        now mem_simp.
    + cbn. exists st. split; [reflexivity|]. split; [|split; [reflexivity|reflexivity]].
      eapply advances_weaken; [|apply advances_refl]. lia.
Qed.

Lemma read_flag_status_spec (row : FlashInfo) (st : State) :
  (1 <= ready_count (bus st))%nat ->
  exists st',
    read_flag_status_if_multi_die row st = Done tt st' /\
    advances 1 st st' (flag_xfers row (FlashMake st)) /\
    mem st' = mem st /\ LqspiCr st' = LqspiCr st.
Proof.
  intros H. unfold read_flag_status_if_multi_die, flag_xfers, bind at 1, get.
  destruct ((NumDie row >? 1) && (FlashMake st =? MICRON_ID_BYTE0)); cbn [when].
  - unfold bind.
    destruct (PolledTransfer_local_spec ReadFlagSRCmd true st H)
      as (d & st1 & E1 & A1 & Hm1 & Hc1).
    rewrite E1. exists st1. split; [reflexivity|]. split; [exact A1|]. now split.
  - exists st. split; [reflexivity|]. split; [|split; reflexivity].
    eapply advances_weaken; [|apply advances_refl]. lia.
Qed.

(** ** Address translation inside the engines *)

Lemma translate_range (mode : ConnectionMode) (i : Z) (row : FlashInfo) (a : Z) :
  table_row i = Some row -> 0 <= a < 2 ^ 32 ->
  0 <= translate mode row a < 2 ^ 32.
Proof.
  intros Hrow Ha.
  destruct (table_row_FlashDeviceSize _ _ Hrow) as (k & Hk & Hsize).
  destruct mode; simpl; try lia.
  - rewrite Hsize.
    destruct (Z.eqb_spec (Z.land a (2 ^ k)) 0) as [E|E]; [lia|].
    rewrite <- land_not32_pow2 by (assumption || lia).
    rewrite land_not32_ldiff by assumption.
    split; [apply Z.ldiff_nonneg; lia|].
    assert (Z.ldiff a (2 ^ k) <= a); [|lia].
    rewrite <- (Z.sub_nocarry_ldiff a (2 ^ k)).
    + assert (0 < 2 ^ k) by (apply Z.pow_pos_nonneg; lia). lia.
    + rewrite land_pow2_testbit in E by lia.
      destruct (Z.testbit a k) eqn:Eb; [|congruence].
      apply Z.bits_inj'. intros n Hn.
      rewrite Z.ldiff_spec, Z.pow2_bits_eqb, Z.bits_0 by lia.
      destruct (Z.eqb_spec k n) as [->|]; [|reflexivity].
      now rewrite Eb.
  - split; [apply Z.div_pos; lia|].
    apply Z.div_lt_upper_bound; lia.
Qed.

Lemma GetRealAddr_spec (Q : XQspiPs) (a : Z) (st : State) (row : FlashInfo) :
  wired Q = true -> active_row st = Some row -> 0 <= a < 2 ^ 32 ->
  exists st',
    GetRealAddr Q a st = Done (Some (real_addr Q row a)) st' /\
    advances 0 st st' [] /\ bus st' = bus st /\ mem st' = mem st.
Proof.
  intros Hw Hrow Ha. destruct Q as [mode]. unfold real_addr. simpl in *.
  destruct mode; try discriminate Hw.
  - exists st. repeat split; try apply advances_refl.
  - rewrite (GetRealAddr_stacked_run a st row Ha Hrow).
    eexists. split.
    + simpl. f_equal. now destruct (Z.land a (FlashDeviceSize row) =? 0).
    + split; [|split; reflexivity].
      apply advances_silent; try reflexivity.
      eexists. split; [reflexivity|reflexivity].
  - exists st. repeat split; try apply advances_refl.
Qed.

(** ** Stepping through driver code *)

Lemma bind_Done {A B} (m : M A) (k : A -> M B) (st st' : State) (a : A) :
  m st = Done a st' -> bind m k st = k a st'.
Proof. intros E. unfold bind. now rewrite E. Qed.

Lemma bind_ret {A B} (a : A) (k : A -> M B) (st : State) :
  bind (ret a) k st = k a st.
Proof. reflexivity. Qed.

Lemma bind_store {B} (p v : Z) (k : unit -> M B) (st : State) :
  bind (store p v) k st = k tt (set_mem (store_byte (mem st) p v) st).
Proof. reflexivity. Qed.

Lemma bind_get {A B} (f : State -> A) (k : A -> M B) (st : State) :
  bind (get f) k st = k (f st) st.
Proof. reflexivity. Qed.

Lemma Flash_Config_row_spec (st : State) (row : FlashInfo) :
  active_row st = Some row -> Flash_Config_row st = Done row st.
Proof.
  intros H. unfold Flash_Config_row, bind, get. unfold active_row in H.
  now rewrite H.
Qed.

(** The common middle of program and sector erase: write enable, the frame
    assembled in the write buffer, the flag status read of multi-die parts
    and the wait for the write-in-progress bit. *)
Lemma send_and_wait_spec (w c a1 a2 a3 count : Z) (row : FlashInfo) (st : State) :
  (4 <= ready_count (bus st))%nat -> 4 <= count ->
  exists pre busy r st',
    advances 4 st st'
      ([wren_xfer;
        mkXfer (u8 c :: u8 a1 :: u8 a2 :: u8 a3 ::
                load_bytes (mem st) (w + 4) (count - 4)) count false] ++
       flag_xfers row (FlashMake st) ++ repeat status_xfer (S (length busy))) /\
    bus st = pre ++ busy ++ r :: bus st' /\
    length pre = (2 + length (flag_xfers row (FlashMake st)))%nat /\
    forallb status_busy busy = true /\ status_busy r = false /\
    LqspiCr st' = LqspiCr st /\
    forall B (k : M B),
      (XQspiPs_PolledTransfer_local [WRITE_ENABLE_CMD] false ;;;
       store (w + COMMAND_OFFSET) c ;;;
       store (w + ADDRESS_1_OFFSET) a1 ;;;
       store (w + ADDRESS_2_OFFSET) a2 ;;;
       store (w + ADDRESS_3_OFFSET) a3 ;;;
       XQspiPs_PolledTransfer w None count ;;;
       read_flag_status_if_multi_die row ;;;
       wait_status ;;;
       k) st = k st'.
Proof.
  intros Hr Hc.
  destruct (PolledTransfer_local_spec [WRITE_ENABLE_CMD] false st)
    as (d & st1 & E1 & A1 & Hm1 & Hc1); [lia|].
  set (st2 := set_mem (store_byte (store_byte (store_byte (store_byte (mem st1)
                (w + COMMAND_OFFSET) c) (w + ADDRESS_1_OFFSET) a1)
                (w + ADDRESS_2_OFFSET) a2) (w + ADDRESS_3_OFFSET) a3) st1).
  assert (A2 : advances 1 st st2 [wren_xfer]) by exact A1.
  destruct (PolledTransfer_send_spec w count st2)
    as (s & st3 & E3 & A3 & Hm3 & Hc3).
  { destruct A2 as (_ & _ & _ & _ & R). lia. }
  pose proof (advances_trans _ _ _ _ _ _ _ A2 A3) as A23.
  destruct (read_flag_status_spec row st3)
    as (st4 & E4 & A4 & Hm4 & Hc4).
  { destruct A23 as (_ & _ & _ & _ & R). simpl in R. lia. }
  pose proof (advances_trans _ _ _ _ _ _ _ A23 A4) as A234.
  destruct (wait_status_spec st4)
    as (busy & r & st5 & E5 & A5 & Hb5 & Hbusy & Hdone & Hm5 & Hc5).
  { destruct A234 as (_ & _ & _ & _ & R). simpl in R. lia. }
  pose proof (advances_trans _ _ _ _ _ _ _ A234 A5) as A.
  assert (Hmk : FlashMake st3 = FlashMake st).
  { destruct A23 as (Hmk & _). exact Hmk. }
  destruct A234 as (_ & _ & _ & (pre & Hpre & Lpre) & _).
  exists pre, busy, r, st5. split; [|split; [|split; [|split; [|split; [|split]]]]];
    try assumption.
  - subst st2. cbn [mem set_mem] in A.
    rewrite load_bytes_header, Hm1 in A by assumption.
    rewrite Hmk in A. rewrite <- !app_assoc in A. exact A.
  - now rewrite Hpre, Hb5.
  - rewrite Lpre, !length_app, Hmk. reflexivity.
  - rewrite Hc5, Hc4, Hc3. subst st2. simpl. exact Hc1.
  - intros B k.
    rewrite (bind_Done _ _ _ _ _ E1). rewrite !bind_store.
    fold st2.
    rewrite (bind_Done _ _ _ _ _ E3), (bind_Done _ _ _ _ _ E4).
    now rewrite (bind_Done _ _ _ _ _ E5).
Qed.

(** ** One turn of the sector loop *)

Lemma bind_bind_ret {A B C} (a : A) (f : A -> M B) (k : B -> M C) (st : State) :
  bind (bind (ret a) f) k st = bind (f a) k st.
Proof. reflexivity. Qed.

Lemma FlashErase_sector_spec (Q : XQspiPs) (w a : Z) (flag : bool) (bsel : option Z)
    (st : State) (row : FlashInfo) :
  wired Q = true -> active_row st = Some row -> 0 <= a < 2 ^ 32 ->
  (7 <= ready_count (bus st))%nat ->
  (flag = false -> (FlashDeviceSize row >? SIXTEENMB) = true -> bsel <> None) ->
  let RealAddr := real_addr Q row a in
  let bank := RealAddr / SIXTEENMB in
  let big := FlashDeviceSize row >? SIXTEENMB in
  exists polls st',
    FlashErase_sector Q w a flag bsel st =
      Done (flag && negb big, if big then Some bank else bsel) st' /\
    advances 7 st st'
      (sector_xfers row (FlashMake st) (erase_selects row flag bsel bank) RealAddr polls).
Proof.
  intros Hw Hrow Ha Hr Hinit RealAddr bank big.
  destruct (GetRealAddr_spec Q a st row Hw Hrow Ha) as (st1 & E1 & A1 & B1 & M1).
  assert (Hrow1 : active_row st1 = Some row)
    by (now rewrite (active_row_advances _ _ _ _ A1)).
  assert (Hmk1 : FlashMake st1 = FlashMake st) by (destruct A1 as (H & _); exact H).
  (* the bank selection, if any *)
  assert (Hsel : exists st2,
    advances 2 st1 st2
      (if erase_selects row flag bsel bank
       then bank_select_xfers (FlashMake st) bank else []) /\
    forall B (k : bool * option Z -> option Z -> M B),
      (init <-
         (if flag && (FlashDeviceSize row >? SIXTEENMB) then
            SendBankSelect w (RealAddr / SIXTEENMB) ;;;
            ret (false, Some (RealAddr / SIXTEENMB))
          else ret (flag, bsel)) ;;
       BankSel' <-
         (if FlashDeviceSize row >? SIXTEENMB then
            b <- assigned (snd init) ;;
            if negb (b =? RealAddr / SIXTEENMB) then
              SendBankSelect w (RealAddr / SIXTEENMB) ;;;
              ret (Some (RealAddr / SIXTEENMB))
            else ret (Some b)
          else ret (snd init)) ;;
       k init BankSel') st1 =
      k (if flag && big then (false, Some bank) else (flag, bsel))
        (if big then Some bank else bsel) st2).
  { destruct (SendBankSelect_spec w bank st1) as (st2 & E2 & A2 & _).
    { rewrite B1. lia. }
    rewrite Hmk1 in A2.
    unfold erase_selects. fold big. fold bank.
    destruct big eqn:Ebig.
    - destruct flag; cbn [andb orb negb].
      + exists st2. split; [exact A2|]. intros B k.
        rewrite (bind_Done _ (fun init => _) st1 st2 (false, Some bank))
          by (now rewrite (bind_Done _ _ _ _ _ E2)).
        cbn [snd assigned]. rewrite bind_bind_ret. rewrite Z.eqb_refl. cbn [negb].
        now rewrite bind_ret.
      + destruct bsel as [b|]; [|now destruct (Hinit eq_refl Ebig)].
        destruct (Z.eqb_spec b bank) as [->|Hne]; cbn [negb].
        * exists st1. split.
          { eapply advances_weaken; [|apply advances_refl]. lia. }
          intros B k. rewrite bind_ret. cbn [snd assigned]. rewrite bind_bind_ret.
          rewrite Z.eqb_refl. cbn [negb]. now rewrite bind_ret.
        * exists st2. split; [exact A2|]. intros B k.
          rewrite bind_ret. cbn [snd assigned]. rewrite bind_bind_ret.
          destruct (Z.eqb_spec b bank) as [|_]; [contradiction|]. cbn [negb].
          rewrite (bind_Done _ (fun BankSel' => _) st1 st2 (Some bank))
            by (now rewrite (bind_Done _ _ _ _ _ E2)).
          reflexivity.
    - rewrite andb_false_r. cbn [andb].
      exists st1. split.
      { eapply advances_weaken; [|apply advances_refl]. lia. }
      intros B k. rewrite bind_ret. cbn [snd]. now rewrite bind_ret. }
  destruct Hsel as (st2 & A2 & Hk).
  pose proof (advances_trans _ _ _ _ _ _ _ A1 A2) as A12.
  destruct (send_and_wait_spec w SEC_ERASE_CMD (Z.shiftr RealAddr 16)
              (Z.shiftr RealAddr 8) (Z.land RealAddr 0xFF) SEC_ERASE_SIZE row st2)
    as (pre & busy & r & st3 & A3 & _ & _ & _ & _ & _ & Hk3).
  { destruct A12 as (_ & _ & _ & _ & R). simpl in R. lia. }
  { unfold SEC_ERASE_SIZE. lia. }
  pose proof (advances_trans _ _ _ _ _ _ _ A12 A3) as A123.
  destruct (read_flag_status_spec row st3) as (st4 & E4 & A4 & _).
  { destruct A123 as (_ & _ & _ & _ & R). simpl in R. lia. }
  pose proof (advances_trans _ _ _ _ _ _ _ A123 A4) as A.
  exists (length busy), st4. split.
  - unfold FlashErase_sector.
    rewrite (bind_Done _ _ _ _ _ E1). cbn [assigned]. rewrite bind_ret.
    rewrite (bind_Done _ _ _ _ _ (Flash_Config_row_spec _ _ Hrow1)).
    fold RealAddr.
    rewrite (Hk _ (fun init BankSel' => _)).
    rewrite Hk3. rewrite (bind_Done _ _ _ _ _ E4).
    unfold ret. f_equal. f_equal. fold big. now destruct flag, big.
  - assert (Hmk2 : FlashMake st2 = FlashMake st)
      by (destruct A12 as (H & _); exact H).
    assert (Hmk3 : FlashMake st3 = FlashMake st)
      by (destruct A123 as (H & _); exact H).
    rewrite Hmk2, Hmk3 in A.
    match type of A with
    | advances _ _ _ ?xs =>
        replace xs with (sector_xfers row (FlashMake st)
                           (erase_selects row flag bsel bank) RealAddr (length busy)) in A
    end; [exact A|].
    unfold sector_xfers. cbn [app]. repeat (rewrite <- app_assoc; cbn [app]).
    reflexivity.
Qed.

(** ** Kinds of the frames *)

Lemma filter_repeat_none {A} (f : A -> bool) (x : A) (n : nat) :
  f x = false -> filter f (repeat x n) = [].
Proof.
  intros H. induction n as [|n IH]; [reflexivity|].
  simpl. now rewrite H.
Qed.

Lemma sector_xfers_sector_erases (row : FlashInfo) (make : Z) (sel : bool)
    (RealAddr : Z) (polls : nat) :
  filter is_sector_erase (sector_xfers row make sel RealAddr polls) =
  [sector_erase_xfer RealAddr].
Proof.
  unfold sector_xfers, bank_select_xfers, flag_xfers.
  rewrite !filter_app, (filter_repeat_none _ status_xfer) by reflexivity.
  destruct sel, (make =? MICRON_ID_BYTE0), (make =? SPANSION_ID_BYTE0),
    (NumDie row >? 1); reflexivity.
Qed.

Lemma sector_xfers_bank_selects (row : FlashInfo) (make : Z) (sel : bool)
    (RealAddr : Z) (polls : nat) :
  filter is_bank_select (sector_xfers row make sel RealAddr polls) =
  if sel then bank_register_writes make (RealAddr / SIXTEENMB) else [].
Proof.
  unfold sector_xfers, bank_select_xfers, bank_register_writes, flag_xfers.
  rewrite !filter_app, (filter_repeat_none _ status_xfer) by reflexivity.
  destruct sel, (make =? MICRON_ID_BYTE0), (make =? SPANSION_ID_BYTE0),
    (NumDie row >? 1); reflexivity.
Qed.

Lemma sector_xfers_page_programs (row : FlashInfo) (make : Z) (sel : bool)
    (RealAddr : Z) (polls : nat) :
  filter is_page_program (sector_xfers row make sel RealAddr polls) = [].
Proof.
  unfold sector_xfers, bank_select_xfers, flag_xfers.
  rewrite !filter_app, (filter_repeat_none _ status_xfer) by reflexivity.
  destruct sel, (make =? MICRON_ID_BYTE0), (make =? SPANSION_ID_BYTE0),
    (NumDie row >? 1); reflexivity.
Qed.

(** ** The sector loop *)

Lemma FlashErase_loop_spec (Q : XQspiPs) (w : Z) (row : FlashInfo) (n : nat) :
  forall (a : Z) (flag : bool) (bsel : option Z) (st : State),
  wired Q = true -> active_row st = Some row -> 0 <= a < 2 ^ 32 ->
  (7 * n <= ready_count (bus st))%nat ->
  flag = match bsel with Some _ => false | None => true end ->
  (bsel <> None -> (FlashDeviceSize row >? SIXTEENMB) = true) ->
  exists st' xs,
    FlashErase_loop n Q w a flag bsel st = Done tt st' /\
    advances (7 * n) st st' xs /\
    filter is_sector_erase xs =
      map (fun s => sector_erase_xfer (real_addr Q row s)) (erase_addresses n row a) /\
    filter is_bank_select xs =
      (if FlashDeviceSize row >? SIXTEENMB
       then flat_map (bank_register_writes (FlashMake st))
                     (bank_changes bsel (map (bank_of Q row) (erase_addresses n row a)))
       else []) /\
    filter is_page_program xs = [].
Proof.
  induction n as [|n IH]; intros a flag bsel st Hw Hrow Ha Hr Hflag Hbig.
  - exists st, []. split; [reflexivity|]. split; [apply advances_refl|].
    cbn. now destruct (FlashDeviceSize row >? SIXTEENMB).
  - destruct (FlashErase_sector_spec Q w a flag bsel st row Hw Hrow Ha)
      as (polls & st1 & E1 & A1).
    { lia. }
    { intros Hf Hb. subst flag. destruct bsel; [discriminate|discriminate]. }
    assert (Hrow1 : active_row st1 = Some row)
      by (now rewrite (active_row_advances _ _ _ _ A1)).
    assert (Hmk1 : FlashMake st1 = FlashMake st) by (destruct A1 as (H & _); exact H).
    set (big := FlashDeviceSize row >? SIXTEENMB) in *.
    set (bank := real_addr Q row a / SIXTEENMB) in *.
    destruct (IH (u32 (a + SectSize row)) (flag && negb big)
                 (if big then Some bank else bsel) st1 Hw Hrow1)
      as (st2 & xs & E2 & A2 & S2 & B2 & P2).
    { unfold u32. apply Z.mod_pos_bound. lia. }
    { destruct A1 as (_ & _ & _ & _ & R). lia. }
    { subst flag. destruct big, bsel; reflexivity. }
    { destruct big; [reflexivity|]. exact Hbig. }
    exists st2, (sector_xfers row (FlashMake st) (erase_selects row flag bsel bank)
                              (real_addr Q row a) polls ++ xs).
    split; [|split; [|split; [|split]]].
    + cbn [FlashErase_loop].
      rewrite (bind_Done _ _ _ _ _ E1).
      rewrite (bind_Done _ _ _ _ _ (Flash_Config_row_spec _ _ Hrow1)).
      exact E2.
    + replace (7 * S n)%nat with (7 + 7 * n)%nat by lia.
      eapply advances_trans; eassumption.
    + rewrite filter_app, sector_xfers_sector_erases, S2. reflexivity.
    + rewrite filter_app, sector_xfers_bank_selects, B2. rewrite Hmk1.
      cbn [erase_addresses map bank_changes]. unfold erase_selects.
      fold big. change (bank_of Q row a) with bank.
      change (real_addr Q row a / SIXTEENMB) with bank.
      destruct big; [|reflexivity].
      rewrite flat_map_app. f_equal.
      subst flag. destruct bsel as [p|]; cbn [andb orb negb].
      * destruct (p =? bank); cbn; [reflexivity|]. now rewrite app_nil_r.
      * cbn. now rewrite app_nil_r.
    + rewrite filter_app, sector_xfers_page_programs, P2. reflexivity.
Qed.

(** ** Partial erase: the number of sectors *)

Lemma table_row_SectSize (i : Z) (row : FlashInfo) :
  table_row i = Some row -> 0x2000 <= SectSize row <= 0x80000.
Proof.
  intros H. apply table_row_In in H. unfold Flash_Config_Table in H.
  simpl in H.
  repeat (destruct H as [H | H]; [subst row; simpl; lia | ]).
  contradiction.
Qed.

Lemma u32_small (x : Z) : 0 <= x < 2 ^ 32 -> u32 x = x.
Proof. intros H. unfold u32. now apply Z.mod_small. Qed.

Lemma u32_range (x : Z) : 0 <= u32 x < 2 ^ 32.
Proof. unfold u32. apply Z.mod_pos_bound. lia. Qed.

Lemma erase_addresses_length (n : nat) (row : FlashInfo) (a : Z) :
  length (erase_addresses n row a) = n.
Proof.
  revert a. induction n as [|n IH]; intros a; [reflexivity|].
  simpl. now rewrite IH.
Qed.

Lemma erase_NumSect_value (i : Z) (row : FlashInfo) (a n : Z) :
  table_row i = Some row -> 0 <= n < 2 ^ 32 ->
  erase_NumSect row a n =
  n / SectSize row + 1 + (if boundary_overlap row a n then 1 else 0).
Proof.
  intros Hrow Hn. pose proof (table_row_SectSize _ _ Hrow) as Hs.
  assert (Hq : 0 <= n / SectSize row < 2 ^ 31).
  { split; [apply Z.div_pos; lia|].
    apply Z.div_lt_upper_bound; [lia|]. nia. }
  unfold erase_NumSect, boundary_overlap.
  destruct (_ =? _); [|rewrite u32_small by lia; lia].
  rewrite (u32_small (n / SectSize row + 1)) by lia.
  rewrite u32_small by lia. reflexivity.
Qed.

Lemma ceil_div_not_multiple (n d : Z) :
  0 < d -> n mod d <> 0 -> n / d + 1 = ceil_div n d.
Proof.
  intros Hd Hm. unfold ceil_div.
  pose proof (Z.mod_pos_bound n d Hd) as Hr.
  pose proof (Z.div_mod n d ltac:(lia)) as Hdm.
  apply (Z.div_unique _ _ _ (n mod d - 1)); lia.
Qed.

(** C2, as amended. A partial erase issues [ByteCount / SectSize + 1]
    sector-erase transactions, and one more exactly when the boundary-overlap
    condition holds; the first term is the ceiling of [ByteCount / SectSize]
    whenever [ByteCount] is not a multiple of the sector size. *)
Theorem FlashErase_partial_sector_count (Q : XQspiPs) (w a n : Z) (st : State)
    (row : FlashInfo) :
  wired Q = true -> active_row st = Some row ->
  0 <= a < 2 ^ 32 -> 0 <= n < 2 ^ 32 ->
  n <> u32 (NumSect row * SectSize row) ->
  (7 * Z.to_nat (erase_NumSect row a n) <= ready_count (bus st))%nat ->
  exists st' added,
    FlashErase Q a n w st = Done tt st' /\
    trace st' = trace st ++ added /\
    Z.of_nat (length (sector_erases added)) =
      n / SectSize row + 1 + (if boundary_overlap row a n then 1 else 0) /\
    (n mod SectSize row <> 0 -> n / SectSize row + 1 = ceil_div n (SectSize row)).
Proof.
  intros Hw Hrow Ha Hn Hpart Hr.
  pose proof (table_row_SectSize _ _ Hrow) as Hs.
  destruct (FlashErase_loop_spec Q w row (Z.to_nat (erase_NumSect row a n))
              a true None st Hw Hrow Ha Hr eq_refl)
    as (st' & xs & E & (_ & _ & (added & T & X) & _ & _) & S & _).
  { intros H. now contradiction H. }
  exists st', added. split; [|split; [exact T|split]].
  - unfold FlashErase.
    rewrite (bind_Done _ _ _ _ _ (Flash_Config_row_spec _ _ Hrow)).
    destruct (Z.eqb_spec n (u32 (NumSect row * SectSize row))); [contradiction|].
    exact E.
  - unfold sector_erases. rewrite X, S, length_map, erase_addresses_length.
    rewrite Z2Nat.id.
    + apply (erase_NumSect_value _ _ _ _ Hrow Hn).
    + rewrite (erase_NumSect_value _ _ _ _ Hrow Hn).
      assert (0 <= n / SectSize row) by (apply Z.div_pos; lia).
      destruct (boundary_overlap row a n); lia.
  - apply ceil_div_not_multiple. lia.
Qed.

(** ** Bulk and die erase *)

Lemma bank_select_xfers_page_programs (make bank : Z) :
  filter is_page_program (bank_select_xfers make bank) = [].
Proof.
  unfold bank_select_xfers.
  destruct (make =? MICRON_ID_BYTE0), (make =? SPANSION_ID_BYTE0); reflexivity.
Qed.

Lemma flag_xfers_page_programs (row : FlashInfo) (make : Z) :
  filter is_page_program (flag_xfers row make) = [].
Proof. unfold flag_xfers. now destruct (_ && _). Qed.

Lemma BulkErase_spec (w : Z) (st : State) :
  (3 <= ready_count (bus st))%nat ->
  exists st' xs,
    BulkErase w st = Done tt st' /\
    advances 3 st st' xs /\
    LqspiCr st' = LqspiCr st /\
    filter is_page_program xs = [].
Proof.
  intros Hr. unfold BulkErase.
  destruct (PolledTransfer_local_spec [WRITE_ENABLE_CMD] false st)
    as (d & st1 & E1 & A1 & Hm1 & Hc1); [lia|].
  rewrite (bind_Done _ _ _ _ _ E1), bind_store.
  set (st2 := set_mem _ st1).
  assert (A2 : advances 1 st st2 [wren_xfer]) by exact A1.
  destruct (PolledTransfer_send_spec w BULK_ERASE_SIZE st2)
    as (s & st3 & E3 & A3 & Hm3 & Hc3).
  { destruct A2 as (_ & _ & _ & _ & R). lia. }
  rewrite (bind_Done _ _ _ _ _ E3).
  pose proof (advances_trans _ _ _ _ _ _ _ A2 A3) as A23.
  destruct (wait_status_spec st3) as (busy & r & st4 & E4 & A4 & _ & _ & _ & Hm4 & Hc4).
  { destruct A23 as (_ & _ & _ & _ & R). simpl in R. lia. }
  pose proof (advances_trans _ _ _ _ _ _ _ A23 A4) as A.
  eexists st4, _. split; [exact E4|]. split; [exact A|]. split.
  - rewrite Hc4, Hc3. subst st2. simpl. exact Hc1.
  - subst st2. cbn [mem set_mem]. unfold BULK_ERASE_SIZE.
    rewrite load_bytes_header1, !filter_app.
    now rewrite (filter_repeat_none _ status_xfer) by reflexivity.
Qed.

Lemma DieErase_loop_spec (w : Z) (n : nat) :
  forall (die : Z) (st : State),
  (5 * n <= ready_count (bus st))%nat ->
  exists st' xs,
    DieErase_loop n w die st = Done tt st' /\
    advances (5 * n) st st' xs /\
    LqspiCr st' = LqspiCr st /\
    filter is_page_program xs = [].
Proof.
  induction n as [|n IH]; intros die st Hr.
  - exists st, []. repeat split; try apply advances_refl.
  - cbn [DieErase_loop].
    destruct (SendBankSelect_spec w (u32 (die * 2)) st) as (st1 & E1 & A1 & Hc1 & _);
      [lia|].
    rewrite (bind_Done _ _ _ _ _ E1).
    destruct (PolledTransfer_local_spec [WRITE_ENABLE_CMD] false st1)
      as (d & st2 & E2 & A2 & Hm2 & Hc2).
    { destruct A1 as (_ & _ & _ & _ & R). lia. }
    rewrite (bind_Done _ _ _ _ _ E2), !bind_store.
    pose proof (advances_trans _ _ _ _ _ _ _ A1 A2) as A12.
    set (st3 := set_mem _ (set_mem _ (set_mem _ (set_mem _ st2)))).
    assert (A13 : advances (2 + 1) st st3
                    (bank_select_xfers (FlashMake st) (u32 (die * 2)) ++ [wren_xfer]))
      by exact A12.
    destruct (PolledTransfer_send_spec w DIE_ERASE_SIZE st3)
      as (s & st4 & E4 & A4 & Hm4 & Hc4).
    { destruct A13 as (_ & _ & _ & _ & R). lia. }
    rewrite (bind_Done _ _ _ _ _ E4).
    pose proof (advances_trans _ _ _ _ _ _ _ A13 A4) as A14.
    destruct (wait_flag_spec st4) as (polls & st5 & E5 & A5 & Hm5 & Hc5).
    { destruct A14 as (_ & _ & _ & _ & R). simpl in R. lia. }
    rewrite (bind_Done _ _ _ _ _ E5).
    pose proof (advances_trans _ _ _ _ _ _ _ A14 A5) as A15.
    destruct (IH (u8 (die + 1)) st5) as (st6 & xs & E6 & A6 & Hc6 & P6).
    { destruct A15 as (_ & _ & _ & _ & R). simpl in R. lia. }
    pose proof (advances_trans _ _ _ _ _ _ _ A15 A6) as A.
    eexists st6, _. split; [exact E6|]. split; [|split].
    + replace (5 * S n)%nat with (2 + 1 + 1 + 1 + 5 * n)%nat by lia. exact A.
    + rewrite Hc6, Hc5, Hc4. subst st3. simpl. now rewrite Hc2.
    + subst st3. cbn [mem set_mem]. unfold DIE_ERASE_SIZE.
      rewrite load_bytes_header by lia.
      rewrite !filter_app, bank_select_xfers_page_programs, P6.
      now rewrite (filter_repeat_none _ flag_xfer) by reflexivity.
Qed.

Lemma erase_selected_chip_spec (row : FlashInfo) (w : Z) (st : State) :
  active_row st = Some row ->
  (5 * Z.to_nat (NumDie row) <= ready_count (bus st))%nat ->
  exists st' xs,
    erase_selected_chip row w st = Done tt st' /\
    advances (5 * Z.to_nat (NumDie row)) st st' xs /\
    LqspiCr st' = LqspiCr st /\
    filter is_page_program xs = [].
Proof.
  intros Hrow Hr. unfold erase_selected_chip.
  destruct (Z.eqb_spec (NumDie row) 1) as [H1|H1]; cbn [when].
  - rewrite H1 in *. cbn [Z.gtb Z.compare Pos.compare Pos.compare_cont when].
    destruct (BulkErase_spec w st) as (st' & xs & E & A & Hc & P); [lia|].
    rewrite (bind_Done _ _ _ _ _ E).
    exists st', xs. split; [reflexivity|]. split; [|now split].
    eapply advances_weaken; [|exact A]. lia.
  - rewrite bind_ret.
    destruct (Z.gtb_spec (NumDie row) 1) as [H2|H2]; cbn [when].
    + unfold DieErase. rewrite (bind_Done _ _ _ _ _ (Flash_Config_row_spec _ _ Hrow)).
      now apply DieErase_loop_spec.
    + exists st, []. split; [reflexivity|]. split; [|now split].
      eapply advances_weaken; [|apply advances_refl]. lia.
Qed.

(** ** Full-device erase *)

Lemma select_page_spec (v : Z -> Z) (st : State) :
  (LqspiCr <- XQspiPs_GetLqspiConfigReg ;;
   XQspiPs_SetLqspiConfigReg (v LqspiCr) ;;;
   XQspiPs_SetSlaveSelect) st =
  Done tt (log (EvSlaveSelect (v (LqspiCr st))) (set_LqspiCr (v (LqspiCr st)) st)).
Proof. reflexivity. Qed.

Lemma FlashErase_full_stacked_spec (w a n : Z) (st : State) (row : FlashInfo) :
  active_row st = Some row ->
  n = u32 (NumSect row * SectSize row) ->
  (10 * Z.to_nat (NumDie row) <= ready_count (bus st))%nat ->
  let lo := Z.land (LqspiCr st) (not32 XQSPIPS_LQSPI_CR_U_PAGE_MASK) in
  let hi := Z.lor lo XQSPIPS_LQSPI_CR_U_PAGE_MASK in
  exists st' xs added,
    FlashErase (mkXQspiPs XQSPIPS_CONNECTION_MODE_STACKED) a n w st = Done tt st' /\
    advances (10 * Z.to_nat (NumDie row)) st st' xs /\
    filter is_page_program xs = [] /\
    LqspiCr st' = hi /\
    trace st' = trace st ++ EvSlaveSelect lo :: added /\
    In (EvSlaveSelect hi) added.
Proof.
  intros Hrow Hn Hr lo hi.
  set (st1 := log (EvSlaveSelect lo) (set_LqspiCr lo st)).
  assert (A1 : advances 0 st st1 []).
  { apply advances_silent; try reflexivity.
    exists [EvSlaveSelect lo]. split; reflexivity. }
  destruct (erase_selected_chip_spec row w st1 Hrow)
    as (st2 & xs2 & E2 & A2 & Hc2 & P2).
  { subst st1. simpl. lia. }
  set (st3 := log (EvSlaveSelect hi) (set_LqspiCr hi st2)).
  assert (A3 : advances 0 st2 st3 []).
  { apply advances_silent; try reflexivity.
    exists [EvSlaveSelect hi]. split; reflexivity. }
  pose proof (advances_trans _ _ _ _ _ _ _ (advances_trans _ _ _ _ _ _ _ A1 A2) A3) as A13.
  assert (Hrow3 : active_row st3 = Some row)
    by (now rewrite (active_row_advances _ _ _ _ A13)).
  destruct (erase_selected_chip_spec row w st3 Hrow3)
    as (st4 & xs4 & E4 & A4 & Hc4 & P4).
  { destruct A13 as (_ & _ & _ & _ & R). lia. }
  pose proof (advances_trans _ _ _ _ _ _ _ A13 A4) as A.
  destruct A2 as (M2 & I2 & (ad2 & T2 & X2) & _ & R2).
  destruct A4 as (M4 & I4 & (ad4 & T4 & X4) & _ & R4).
  exists st4, (xs2 ++ xs4), (ad2 ++ EvSlaveSelect hi :: ad4).
  split; [|split; [|split; [|split; [|split]]]].
  - unfold FlashErase.
    rewrite (bind_Done _ _ _ _ _ (Flash_Config_row_spec _ _ Hrow)).
    rewrite <- Hn, Z.eqb_refl. cbn [Config_ConnectionMode when].
    rewrite (bind_Done _ _ _ _ _ (select_page_spec _ st)).
    fold lo. fold st1.
    rewrite (bind_Done _ _ _ _ _ E2).
    unfold bind at 1. unfold XQspiPs_GetLqspiConfigReg at 1, get.
    unfold bind at 1. unfold XQspiPs_SetLqspiConfigReg at 1, modify.
    unfold bind at 1. unfold XQspiPs_SetSlaveSelect at 1, modify.
    cbn [LqspiCr set_LqspiCr]. rewrite Hc2.
    exact E4.
  - replace (10 * Z.to_nat (NumDie row))%nat
      with (0 + 5 * Z.to_nat (NumDie row) + 0 + 5 * Z.to_nat (NumDie row))%nat by lia.
    cbn [app] in A. rewrite app_nil_r in A. exact A.
  - now rewrite filter_app, P2, P4.
  - rewrite Hc4. reflexivity.
  - rewrite T4. subst st3. cbn [trace log set_LqspiCr]. rewrite T2.
    subst st1. cbn [trace log set_LqspiCr].
    rewrite <- !app_assoc. reflexivity.
  - apply in_or_app. right. now left.
Qed.

(** C9. A full-device erase in Stacked topology selects the lower chip at
    its start and returns with the U_PAGE bit of the LQSPI configuration
    register set: the upper chip stays selected, the selection is not put
    back. *)
Theorem FlashErase_full_stacked_leaves_upper_page (w a n : Z) (st : State)
    (row : FlashInfo) :
  active_row st = Some row ->
  n = u32 (NumSect row * SectSize row) ->
  (10 * Z.to_nat (NumDie row) <= ready_count (bus st))%nat ->
  let lo := Z.land (LqspiCr st) (not32 XQSPIPS_LQSPI_CR_U_PAGE_MASK) in
  let hi := Z.lor lo XQSPIPS_LQSPI_CR_U_PAGE_MASK in
  exists st' added,
    FlashErase (mkXQspiPs XQSPIPS_CONNECTION_MODE_STACKED) a n w st = Done tt st' /\
    trace st' = trace st ++ EvSlaveSelect lo :: added /\
    In (EvSlaveSelect hi) added /\
    Z.land lo XQSPIPS_LQSPI_CR_U_PAGE_MASK = 0 /\
    LqspiCr st' = hi /\
    Z.land (LqspiCr st') XQSPIPS_LQSPI_CR_U_PAGE_MASK = XQSPIPS_LQSPI_CR_U_PAGE_MASK.
Proof.
  intros Hrow Hn Hr lo hi.
  destruct (FlashErase_full_stacked_spec w a n st row Hrow Hn Hr)
    as (st' & xs & added & E & _ & _ & Hc & T & Hin).
  exists st', added. repeat split; try assumption.
  - apply upage_clear.
  - rewrite Hc. apply upage_set.
Qed.

Lemma FlashErase_full_spec (Q : XQspiPs) (w a n : Z) (st : State) (row : FlashInfo) :
  active_row st = Some row ->
  n = u32 (NumSect row * SectSize row) ->
  (10 * Z.to_nat (NumDie row) <= ready_count (bus st))%nat ->
  exists st' xs,
    FlashErase Q a n w st = Done tt st' /\
    advances (10 * Z.to_nat (NumDie row)) st st' xs /\
    filter is_page_program xs = [].
Proof.
  intros Hrow Hn Hr.
  destruct Q as [mode].
  destruct (match mode with XQSPIPS_CONNECTION_MODE_STACKED => true | _ => false end)
    eqn:Hst.
  - destruct mode; try discriminate Hst.
    destruct (FlashErase_full_stacked_spec w a n st row Hrow Hn Hr)
      as (st' & xs & added & E & A & P & _).
    now exists st', xs.
  - destruct (erase_selected_chip_spec row w st Hrow)
      as (st2 & xs2 & E2 & A2 & Hc2 & P2); [lia|].
    exists st2, xs2. split; [|split; [|exact P2]].
    + unfold FlashErase.
      rewrite (bind_Done _ _ _ _ _ (Flash_Config_row_spec _ _ Hrow)).
      rewrite <- Hn, Z.eqb_refl. cbn [Config_ConnectionMode]. rewrite Hst.
      cbn [when]. rewrite bind_ret.
      rewrite (bind_Done _ _ _ _ _ E2). reflexivity.
    + eapply advances_weaken; [|exact A2]. lia.
Qed.

(** ** Program *)

Lemma table_row_PageSize (i : Z) (row : FlashInfo) :
  table_row i = Some row -> 256 <= PageSize row <= 1024.
Proof.
  intros H. apply table_row_In in H. unfold Flash_Config_Table in H.
  simpl in H.
  repeat (destruct H as [H | H]; [subst row; simpl; lia | ]).
  contradiction.
Qed.

Lemma u8_small (x : Z) : 0 <= x < 256 -> u8 x = x.
Proof. intros H. unfold u8. now apply Z.mod_small. Qed.

Lemma FlashWrite_spec (Q : XQspiPs) (a n c w : Z) (st : State) (row : FlashInfo) :
  wired Q = true -> active_row st = Some row ->
  0 <= a < 2 ^ 32 -> 0 <= n < 2 ^ 32 - 4 -> 0 <= c < 256 ->
  (7 <= ready_count (bus st))%nat ->
  let RealAddr := real_addr Q row a in
  let head := write_head row (FlashMake st) RealAddr c
                         (load_bytes (mem st) (w + 4) n) n in
  exists st' pre busy r post,
    FlashWrite Q a n c w st = Done tt st' /\
    advances 7 st st'
      (head ++ repeat status_xfer (S (length busy)) ++ flag_xfers row (FlashMake st)) /\
    bus st = pre ++ busy ++ r :: post ++ bus st' /\
    length pre = length head /\
    length post = length (flag_xfers row (FlashMake st)) /\
    forallb status_busy busy = true /\ status_busy r = false.
Proof.
  intros Hw Hrow Ha Hn Hc Hr RealAddr head.
  destruct (GetRealAddr_spec Q a st row Hw Hrow Ha) as (st1 & E1 & A1 & B1 & M1).
  assert (Hrow1 : active_row st1 = Some row)
    by (now rewrite (active_row_advances _ _ _ _ A1)).
  assert (Hmk1 : FlashMake st1 = FlashMake st) by (destruct A1 as (H & _); exact H).
  set (bank := RealAddr / SIXTEENMB).
  assert (Hsel : exists st2,
    advances 2 st1 st2
      (if FlashDeviceSize row >? SIXTEENMB
       then bank_select_xfers (FlashMake st) bank else []) /\
    (forall x, w + 4 <= x -> mem st2 x = mem st x) /\
    forall B (k : M B),
      (when (FlashDeviceSize row >? SIXTEENMB)
         (SendBankSelect w bank ;;; ret tt) ;;; k) st1 = k st2).
  { destruct (FlashDeviceSize row >? SIXTEENMB); cbn [when].
    - destruct (SendBankSelect_spec w bank st1) as (st2 & E2 & A2 & _ & Hm2).
      { rewrite B1. lia. }
      exists st2. rewrite Hmk1 in A2. split; [exact A2|]. split.
      + intros x Hx. rewrite Hm2 by lia. now rewrite M1.
      + intros B k.
        now rewrite (bind_Done _ (fun _ => k) st1 st2 tt)
          by (now rewrite (bind_Done _ _ _ _ _ E2)).
    - exists st1. split; [|split].
      + eapply advances_weaken; [|apply advances_refl]. lia.
      + intros x _. now rewrite M1.
      + intros B k. now rewrite bind_ret. }
  destruct Hsel as (st2 & A2 & Hm2 & Hk2).
  pose proof (advances_trans _ _ _ _ _ _ _ A1 A2) as A12.
  assert (Hcount : u32 (n + OVERHEAD_SIZE) = n + OVERHEAD_SIZE)
    by (apply u32_small; unfold OVERHEAD_SIZE; lia).
  destruct (send_and_wait_spec w c (Z.shiftr (Z.land RealAddr 0xFF0000) 16)
              (Z.shiftr (Z.land RealAddr 0xFF00) 8) (Z.land RealAddr 0xFF)
              (u32 (n + OVERHEAD_SIZE)) row st2)
    as (pre & busy & r & st3 & A3 & Hb3 & Lpre & Hbusy & Hdone & _ & Hk3).
  { destruct A12 as (_ & _ & _ & _ & R). simpl in R. lia. }
  { rewrite Hcount. unfold OVERHEAD_SIZE. lia. }
  pose proof (advances_trans _ _ _ _ _ _ _ A12 A3) as A123.
  destruct (read_flag_status_spec row st3) as (st4 & E4 & A4 & _).
  { destruct A123 as (_ & _ & _ & _ & R). simpl in R. lia. }
  pose proof (advances_trans _ _ _ _ _ _ _ A123 A4) as A.
  assert (Hmk2 : FlashMake st2 = FlashMake st)
    by (destruct A12 as (H & _); exact H).
  assert (Hmk3 : FlashMake st3 = FlashMake st)
    by (destruct A123 as (H & _); exact H).
  rewrite Hmk2 in *. rewrite Hmk3 in *.
  destruct A12 as (_ & _ & _ & (ans2 & Hans2 & Lans2) & _).
  destruct A4 as (_ & _ & _ & (post & Hpost & Lpost) & _).
  exists st4, (ans2 ++ pre), busy, r, post.
  split; [|split; [|split; [|split; [|split; [|split]]]]]; try assumption.
  - unfold FlashWrite.
    rewrite (bind_Done _ _ _ _ _ E1). cbn [assigned]. rewrite bind_ret.
    rewrite (bind_Done _ _ _ _ _ (Flash_Config_row_spec _ _ Hrow1)).
    fold RealAddr. fold bank.
    rewrite Hk2, Hk3. exact E4.
  - match type of A with
    | advances _ _ _ ?xs =>
        replace xs with (head ++ repeat status_xfer (S (length busy)) ++
                         flag_xfers row (FlashMake st)) in A
    end; [exact A|].
    subst head. unfold write_head, program_xfer, addr3_masked.
    rewrite Hcount, (u8_small c Hc).
    replace (n + OVERHEAD_SIZE - 4) with n by (unfold OVERHEAD_SIZE; lia).
    rewrite (load_bytes_ext (mem st2) (mem st) (w + 4) n)
      by (intros x Hx; apply Hm2; lia).
    cbn [app]. repeat (rewrite <- app_assoc; cbn [app]). reflexivity.
  - rewrite Hans2, Hb3, Hpost. now rewrite <- !app_assoc.
  - subst head. unfold write_head. rewrite !length_app, Lans2, Lpre.
    cbn [app length]. reflexivity.
Qed.

Lemma u8_land (x : Z) : u8 x = Z.land x 0xFF.
Proof. unfold u8. change 0xFF with (Z.ones 8). now rewrite Z.land_ones by lia. Qed.

(** The address bytes are bits 23..16, 15..8 and 7..0 of the translated
    address, whatever its higher bits. *)
Lemma addr3_masked_bytes (RealAddr : Z) :
  addr3_masked RealAddr =
  [(RealAddr / 2 ^ 16) mod 256; (RealAddr / 2 ^ 8) mod 256; RealAddr mod 256].
Proof.
  unfold addr3_masked. rewrite !u8_land, !Z.shiftr_land.
  change (Z.shiftr 0xFF0000 16) with 0xFF. change (Z.shiftr 0xFF00 8) with 0xFF.
  rewrite <- !Z.land_assoc. change (Z.land 0xFF 0xFF) with 0xFF.
  rewrite !Z.shiftr_div_pow2 by lia.
  change 0xFF with (Z.ones 8). rewrite !Z.land_ones by lia.
  reflexivity.
Qed.

(** C4. A page program within one page makes exactly these transfers, in
    this order: the bank selection when the device exceeds 16 MB, write
    enable, one frame of instruction, 3-byte address (most significant byte
    first, bits above 23 dropped) and payload, one flag status read if and
    only if the part is a multi-die Micron, one status read for every answer
    that still has the write-in-progress bit set and one for the first
    answer that has it clear, and again one flag status read for a multi-die
    Micron. *)
Theorem FlashWrite_transaction_sequence (Q : XQspiPs) (a n c w : Z) (st : State)
    (row : FlashInfo) :
  wired Q = true -> active_row st = Some row ->
  0 <= a < 2 ^ 32 -> 0 <= n <= PageSize row -> 0 <= c < 256 ->
  (7 <= ready_count (bus st))%nat ->
  let RealAddr := real_addr Q row a in
  let select := if FlashDeviceSize row >? SIXTEENMB
                then bank_select_xfers (FlashMake st) (RealAddr / SIXTEENMB) else [] in
  let frame := mkXfer (c :: (RealAddr / 2 ^ 16) mod 256 :: (RealAddr / 2 ^ 8) mod 256 ::
                       RealAddr mod 256 :: load_bytes (mem st) (w + DATA_OFFSET) n)
                      (n + OVERHEAD_SIZE) false in
  let flag := if (NumDie row >? 1) && (FlashMake st =? MICRON_ID_BYTE0)
              then [flag_xfer] else [] in
  exists st' added pre busy r post,
    FlashWrite Q a n c w st = Done tt st' /\
    trace st' = trace st ++ added /\
    transfers added =
      select ++ [wren_xfer; frame] ++ flag ++
      repeat status_xfer (length busy) ++ [status_xfer] ++ flag /\
    bus st = pre ++ busy ++ r :: post ++ bus st' /\
    length pre = length (select ++ [wren_xfer; frame] ++ flag) /\
    length post = length flag /\
    forallb status_busy busy = true /\ status_busy r = false.
Proof.
  intros Hw Hrow Ha Hn Hc Hr RealAddr select frame flag.
  pose proof (table_row_PageSize _ _ Hrow) as Hp.
  destruct (FlashWrite_spec Q a n c w st row Hw Hrow Ha ltac:(lia) Hc Hr)
    as (st' & pre & busy & r & post & E & (_ & _ & (added & T & X) & _) &
        Hb & Lpre & Lpost & Hbusy & Hdone).
  fold RealAddr in X, Lpre.
  assert (Hhead : write_head row (FlashMake st) RealAddr c
                    (load_bytes (mem st) (w + 4) n) n =
                  select ++ [wren_xfer; frame] ++ flag).
  { unfold write_head, program_xfer. now rewrite addr3_masked_bytes. }
  exists st', added, pre, busy, r, post.
  repeat split; try assumption.
  - rewrite X, Hhead. rewrite <- !app_assoc. cbn [app].
    do 4 f_equal. cbn [repeat].
    rewrite (repeat_cons (length busy) status_xfer), <- app_assoc. reflexivity.
  - now rewrite Lpre, Hhead.
Qed.

(** ** Read: the arithmetic of one turn *)

Lemma land_BANKMASK (x : Z) :
  0 <= x < 2 ^ 28 -> Z.land x BANKMASK = x / SIXTEENMB * SIXTEENMB.
Proof.
  intros Hx. unfold BANKMASK, SIXTEENMB.
  change 0xF000000 with (Z.shiftl (Z.ones 4) 24).
  change 0x1000000 with (2 ^ 24).
  rewrite <- Z.shiftl_mul_pow2, <- Z.shiftr_div_pow2 by lia.
  apply Z.bits_inj'. intros n Hn.
  rewrite Z.land_spec.
  destruct (Z.ltb_spec n 24) as [Hlt|Hge].
  - rewrite !Z.shiftl_spec_low by lia. apply andb_false_r.
  - rewrite !Z.shiftl_spec, Z.shiftr_spec by lia.
    replace (n - 24 + 24) with n by lia.
    destruct (Z.ltb_spec (n - 24) 4) as [Hlo|Hhi].
    + rewrite Z.ones_spec_low by lia. apply andb_true_r.
    + rewrite Z.ones_spec_high by lia. rewrite andb_false_r.
      symmetry. apply Z.bits_above_log2; [lia|].
      destruct (Z.eq_dec x 0) as [->|Hnz]; [simpl; lia|].
      apply Z.log2_lt_pow2; [lia|].
      apply Z.lt_le_trans with (2 ^ 28); [lia|].
      apply Z.pow_le_mono_r; lia.
Qed.

Lemma next_bank_bounds (a : Z) :
  0 <= a -> a < next_bank a <= a + SIXTEENMB /\ next_bank a / SIXTEENMB = a / SIXTEENMB + 1.
Proof.
  intros Ha. unfold next_bank, SIXTEENMB.
  pose proof (Z.div_mod a 0x1000000 ltac:(lia)) as Hdm.
  pose proof (Z.mod_pos_bound a 0x1000000 ltac:(lia)) as Hm.
  split; [lia|]. now rewrite Z.div_mul by lia.
Qed.

(** The payload the source computes is the smaller of what remains and of
    what is left of the current bank. *)
Lemma read_RealByteCnt_min (a b : Z) :
  0 <= a -> 0 < b -> a + b < 2 ^ 28 ->
  read_RealByteCnt a b = Z.min b (next_bank a - a).
Proof.
  intros Ha Hb Hab. unfold read_RealByteCnt.
  rewrite (u32_small (a + b)) by lia.
  rewrite !land_BANKMASK by lia.
  pose proof (next_bank_bounds a Ha) as (Hnb & _).
  unfold next_bank in *. unfold SIXTEENMB in *.
  pose proof (Z.div_mod a 0x1000000 ltac:(lia)) as Hdm.
  pose proof (Z.mod_pos_bound a 0x1000000 ltac:(lia)) as Hm.
  pose proof (Z.div_mod (a + b) 0x1000000 ltac:(lia)) as Hdm'.
  pose proof (Z.mod_pos_bound (a + b) 0x1000000 ltac:(lia)) as Hm'.
  assert (Hle : a / 0x1000000 <= (a + b) / 0x1000000)
    by (apply Z.div_le_mono; lia).
  destruct (Z.eqb_spec (a / 0x1000000 * 0x1000000) ((a + b) / 0x1000000 * 0x1000000))
    as [E|E]; cbn [negb].
  - assert (a / 0x1000000 = (a + b) / 0x1000000) by lia. lia.
  - assert (a / 0x1000000 + 1 <= (a + b) / 0x1000000) by lia.
    rewrite u32_small by lia. lia.
Qed.

Lemma signed_long_pos (b : Z) :
  0 <= b < 2 ^ 31 -> (signed_long b >? 0) = (0 <? b).
Proof.
  intros Hb. unfold signed_long. rewrite u32_small by lia.
  destruct (Z.ltb_spec b (2 ^ 31)); [|lia].
  now rewrite Z.gtb_ltb.
Qed.

Lemma shift_loop_spec (n : nat) (R s : Z) :
  forall (i : Z) (st : State),
  exists m, shift_loop n R i s st = Done tt (set_mem m st).
Proof.
  induction n as [|n IH]; intros i st.
  - exists (mem st). now destruct st.
  - cbn [shift_loop]. unfold load. rewrite bind_get, bind_store.
    destruct (IH (u32 (i + 1))
                 (set_mem (store_byte (mem st) (R + i) (mem st (R + u32 (i + s)))) st))
      as (m & E).
    exists m. exact E.
Qed.

(** ** Read: the loop *)

Lemma select_bank_if_big_spec (w bank : Z) (row : FlashInfo) (st : State) :
  (2 <= ready_count (bus st))%nat ->
  exists st',
    advances 2 st st'
      (if FlashDeviceSize row >? SIXTEENMB
       then bank_select_xfers (FlashMake st) bank else []) /\
    (forall x, w + 4 <= x -> mem st' x = mem st x) /\
    forall B (k : M B),
      (when (FlashDeviceSize row >? SIXTEENMB)
         (SendBankSelect w bank ;;; ret tt) ;;; k) st = k st'.
Proof.
  intros Hr.
  destruct (FlashDeviceSize row >? SIXTEENMB); cbn [when].
  - destruct (SendBankSelect_spec w bank st Hr) as (st2 & E2 & A2 & _ & Hm2).
    exists st2. split; [exact A2|]. split.
    + intros x Hx. apply Hm2; lia.
    + intros B k.
      now rewrite (bind_Done _ (fun _ => k) st st2 tt)
        by (now rewrite (bind_Done _ _ _ _ _ E2)).
  - exists st. split; [|split].
    + eapply advances_weaken; [|apply advances_refl]. lia.
    + reflexivity.
    + intros B k. now rewrite bind_ret.
Qed.

Lemma bank_select_xfers_received (make bank : Z) :
  filter xf_rx (bank_select_xfers make bank) = [].
Proof.
  unfold bank_select_xfers.
  destruct (make =? MICRON_ID_BYTE0), (make =? SPANSION_ID_BYTE0); reflexivity.
Qed.

Lemma bank_select_xfers_bank_selects (make bank : Z) :
  filter is_bank_select (bank_select_xfers make bank) = bank_register_writes make bank.
Proof.
  unfold bank_select_xfers, bank_register_writes.
  destruct (make =? MICRON_ID_BYTE0), (make =? SPANSION_ID_BYTE0); reflexivity.
Qed.

Lemma received_not_bank_select (x : Xfer) : xf_rx x = true -> is_bank_select x = false.
Proof. intros H. unfold is_bank_select. rewrite H. apply andb_false_r. Qed.

Lemma received_not_page_program (x : Xfer) : xf_rx x = true -> is_page_program x = false.
Proof. intros H. unfold is_page_program. rewrite H. apply andb_false_r. Qed.

Lemma FlashRead_loop_spec (Q : XQspiPs) (c W R T : Z) (row : FlashInfo) (k : nat) :
  forall (A B : Z) (turns : nat) (st : State),
  wired Q = true -> active_row st = Some row ->
  0 <= A -> 0 <= B < 2 ^ 31 -> (0 < B -> A + B < 2 ^ 28) ->
  A + B <= (A / SIXTEENMB + Z.of_nat k) * SIXTEENMB ->
  0 <= c < 256 ->
  (3 * k <= ready_count (bus st))%nat -> (k <= turns)%nat ->
  exists st' xs,
    FlashRead_loop turns Q A B c W R T st = Done tt st' /\
    advances (3 * k) st st' xs /\
    map frame_header (filter xf_rx xs) = map (read_header Q row c) (read_plan k A B) /\
    filter is_bank_select xs =
      (if FlashDeviceSize row >? SIXTEENMB
       then flat_map (fun ch => bank_register_writes (FlashMake st) (bank_of Q row (fst ch)))
                     (read_plan k A B)
       else []) /\
    filter is_page_program xs = [].
Proof.
  induction k as [|k IH]; intros A B turns st Hw Hrow HA HB HAB Hk Hc Hr Ht.
  - assert (B = 0).
    { pose proof (Z.div_mod A SIXTEENMB ltac:(unfold SIXTEENMB; lia)) as Hdm.
      pose proof (Z.mod_pos_bound A SIXTEENMB ltac:(unfold SIXTEENMB; lia)) as Hm.
      cbn [Z.of_nat] in Hk. lia. }
    subst B. exists st, []. split.
    + now destruct turns.
    + split; [apply advances_refl|]. cbn.
      now destruct (FlashDeviceSize row >? SIXTEENMB).
  - destruct (Z.ltb_spec 0 B) as [Hpos|Hzero].
    2:{ assert (B = 0) by lia. subst B. exists st, []. split.
        - now destruct turns.
        - split; [eapply advances_weaken; [|apply advances_refl]; lia|].
          cbn. now destruct (FlashDeviceSize row >? SIXTEENMB). }
    destruct turns as [|turns]; [lia|].
    specialize (HAB Hpos).
    pose proof (read_RealByteCnt_min A B HA Hpos HAB) as Hp.
    pose proof (next_bank_bounds A HA) as (Hnb & Hnbdiv).
    set (p := Z.min B (next_bank A - A)) in *.
    assert (Hprange : 0 < p <= B) by (subst p; lia).
    (* one turn *)
    destruct (GetRealAddr_spec Q A st row Hw Hrow ltac:(lia)) as (st1 & E1 & A1 & B1 & M1).
    assert (Hrow1 : active_row st1 = Some row)
      by (now rewrite (active_row_advances _ _ _ _ A1)).
    assert (Hmk1 : FlashMake st1 = FlashMake st) by (destruct A1 as (H & _); exact H).
    set (RealAddr := real_addr Q row A).
    destruct (select_bank_if_big_spec W (RealAddr / SIXTEENMB) row st1)
      as (st2 & A2 & _ & Hk2).
    { rewrite B1. lia. }
    rewrite Hmk1 in A2.
    pose proof (advances_trans _ _ _ _ _ _ _ A1 A2) as A12.
    set (d := if has_dummy c then DUMMY_SIZE else 0).
    assert (Hd : 0 <= d <= 1) by (subst d; unfold DUMMY_SIZE; destruct (has_dummy c); lia).
    set (m2 := store_byte (store_byte (store_byte (store_byte (mem st2)
                 (W + COMMAND_OFFSET) c)
                 (W + ADDRESS_1_OFFSET) (Z.shiftr (Z.land RealAddr 0xFF0000) 16))
                 (W + ADDRESS_2_OFFSET) (Z.shiftr (Z.land RealAddr 0xFF00) 8))
                 (W + ADDRESS_3_OFFSET) (Z.land RealAddr 0xFF)).
    destruct (PolledTransfer_recv_spec W (R + u32 (T - B)) (p + d + OVERHEAD_SIZE)
                (set_mem m2 st2))
      as (s & st3 & E3 & A3 & _).
    { destruct A12 as (_ & _ & _ & _ & R12). simpl in R12. simpl. lia. }
    assert (A3' : advances 1 st2 st3
                    [mkXfer (load_bytes m2 W (p + d + OVERHEAD_SIZE))
                            (p + d + OVERHEAD_SIZE) true]) by exact A3.
    pose proof (advances_trans _ _ _ _ _ _ _ A12 A3') as A123.
    destruct (shift_loop_spec
                (Z.to_nat (u32 (u32 (T - B) + (p + d)) - u32 (T - B)))
                R (if has_dummy c then OVERHEAD_SIZE + DUMMY_SIZE else OVERHEAD_SIZE)
                (u32 (T - B)) st3) as (m4 & E4).
    assert (Hrow4 : active_row (set_mem m4 st3) = Some row)
      by (now rewrite <- (active_row_advances _ _ _ _ A123) in Hrow).
    assert (Hcases : (B <= next_bank A - A /\ p = B) \/
                     (next_bank A - A < B /\ p = next_bank A - A))
      by (subst p; lia).
    assert (H1 : 0 <= next_bank A) by lia.
    assert (H2 : 0 <= B - p < 2 ^ 31) by lia.
    assert (H3 : 0 < B - p -> next_bank A + (B - p) < 2 ^ 28).
    { destruct Hcases as [(_ & ->)|(_ & ->)]; lia. }
    assert (H4 : next_bank A + (B - p) <=
                 (next_bank A / SIXTEENMB + Z.of_nat k) * SIXTEENMB).
    { rewrite Hnbdiv. destruct Hcases as [(_ & ->)|(_ & ->)].
      - replace (B - B) with 0 by lia.
        unfold next_bank. unfold SIXTEENMB. lia.
      - replace (next_bank A + (B - (next_bank A - A))) with (A + B) by lia. lia. }
    assert (H5 : (3 * k <= ready_count (bus (set_mem m4 st3)))%nat).
    { destruct A123 as (_ & _ & _ & _ & R123). simpl in R123. simpl. lia. }
    destruct (IH (next_bank A) (B - p) turns (set_mem m4 st3) Hw Hrow4 H1 H2 H3 H4 Hc H5
                 ltac:(lia))
      as (st5 & xs & E5 & A5 & Rd5 & Bk5 & Pp5).
    assert (A4 : advances 3 st (set_mem m4 st3)
                   ((if FlashDeviceSize row >? SIXTEENMB
                     then bank_select_xfers (FlashMake st) (RealAddr / SIXTEENMB) else []) ++
                    [mkXfer (load_bytes m2 W (p + d + OVERHEAD_SIZE))
                            (p + d + OVERHEAD_SIZE) true])) by exact A123.
    assert (Hmk4 : FlashMake (set_mem m4 st3) = FlashMake st)
      by (destruct A4 as (H & _); exact H).
    rewrite Hmk4 in Bk5.
    pose proof (advances_trans _ _ _ _ _ _ _ A4 A5) as Aall.
    eexists st5, _. split; [|split; [|split; [|split]]].
    + cbn [FlashRead_loop]. rewrite signed_long_pos by lia.
      destruct (Z.ltb_spec 0 B) as [_|]; [|lia].
      rewrite (bind_Done _ _ _ _ _ E1). cbn [assigned]. rewrite bind_ret.
      rewrite (bind_Done _ _ _ _ _ (Flash_Config_row_spec _ _ Hrow1)).
      fold RealAddr. rewrite Hk2. rewrite !bind_store. fold m2.
      rewrite Hp.
      replace (if has_dummy c then u32 (p + DUMMY_SIZE) else p) with (p + d)
        by (subst d; destruct (has_dummy c);
            [rewrite u32_small; unfold DUMMY_SIZE; lia | lia]).
      rewrite (u32_small (p + d + OVERHEAD_SIZE)) by (unfold OVERHEAD_SIZE; lia).
      rewrite (bind_Done _ _ _ _ _ E3).
      rewrite (bind_Done _ _ _ _ _ E4).
      rewrite land_BANKMASK by lia. fold (next_bank A).
      replace (u32 (A / SIXTEENMB * SIXTEENMB + SIXTEENMB)) with (next_bank A)
        by (unfold next_bank in *; rewrite u32_small; unfold SIXTEENMB in *; lia).
      replace (if has_dummy c then u32 (B - u32 (p + d - DUMMY_SIZE)) else u32 (B - (p + d)))
        with (B - p)
        by (subst d; unfold DUMMY_SIZE; destruct (has_dummy c);
            [replace (p + 1 - 1) with p by lia; rewrite (u32_small p) by lia;
             rewrite u32_small by lia; reflexivity
            | rewrite Z.add_0_r, u32_small by lia; reflexivity]).
      exact E5.
    + replace (3 * S k)%nat with (3 + 3 * k)%nat by lia. exact Aall.
    + rewrite !filter_app, !map_app, Rd5.
      cbn [read_plan]. destruct (Z.ltb_spec 0 B) as [_|]; [|lia]. fold p.
      change (map (read_header Q row c) ((A, p) :: ?l))
        with ([read_header Q row c (A, p)] ++ map (read_header Q row c) l).
      f_equal.
      assert (Hrx : filter xf_rx
                (if FlashDeviceSize row >? SIXTEENMB
                 then bank_select_xfers (FlashMake st) (RealAddr / SIXTEENMB) else []) = [])
        by (destruct (FlashDeviceSize row >? SIXTEENMB);
            [apply bank_select_xfers_received|reflexivity]).
      rewrite Hrx. cbn [filter xf_rx app map].
      unfold frame_header, read_header. cbn [xf_tx xf_count fst snd].
      subst m2. rewrite load_bytes_header by (unfold OVERHEAD_SIZE; lia).
      cbn [firstn]. rewrite (u8_small c Hc). fold RealAddr.
      unfold addr3_masked. do 2 f_equal. subst d. lia.
    + rewrite !filter_app, Bk5.
      cbn [read_plan]. destruct (Z.ltb_spec 0 B) as [_|]; [|lia]. fold p.
      cbn [filter]. rewrite received_not_bank_select by reflexivity.
      rewrite app_nil_r.
      destruct (FlashDeviceSize row >? SIXTEENMB); [|reflexivity].
      cbn [flat_map fst]. now rewrite bank_select_xfers_bank_selects.
    + rewrite !filter_app, Pp5.
      cbn [filter]. rewrite received_not_page_program by reflexivity.
      destruct (FlashDeviceSize row >? SIXTEENMB);
        [rewrite bank_select_xfers_page_programs|]; reflexivity.
Qed.

(** ** Read: the chunks *)

Lemma read_plan_nothing (k : nat) (A : Z) : read_plan k A 0 = [].
Proof. now destruct k. Qed.

Lemma read_plan_chunked (k : nat) :
  forall A B, 0 <= A -> 0 <= B ->
  A + B <= (A / SIXTEENMB + Z.of_nat k) * SIXTEENMB ->
  chunked A B (read_plan k A B) /\
  sum_payloads (read_plan k A B) = B /\
  Forall within_bank (read_plan k A B).
Proof.
  induction k as [|k IH]; intros A B HA HB Hk.
  - assert (B = 0).
    { pose proof (Z.div_mod A SIXTEENMB ltac:(unfold SIXTEENMB; lia)) as Hdm.
      pose proof (Z.mod_pos_bound A SIXTEENMB ltac:(unfold SIXTEENMB; lia)) as Hm.
      cbn [Z.of_nat] in Hk. lia. }
    subst B. repeat split; constructor.
  - cbn [read_plan].
    destruct (Z.ltb_spec 0 B) as [Hpos|Hzero].
    2:{ assert (B = 0) by lia. subst B. repeat split; constructor. }
    pose proof (next_bank_bounds A HA) as (Hnb & Hnbdiv).
    destruct (Z.le_gt_cases B (next_bank A - A)) as [Hle|Hgt].
    + rewrite Z.min_l by lia. replace (B - B) with 0 by lia.
      rewrite read_plan_nothing. split; [|split].
      * now apply chunked_last.
      * cbn. lia.
      * constructor; [|constructor]. unfold within_bank. cbn. lia.
    + rewrite Z.min_r by lia.
      assert (Hk' : next_bank A + (B - (next_bank A - A)) <=
                    (next_bank A / SIXTEENMB + Z.of_nat k) * SIXTEENMB)
        by (rewrite Hnbdiv; lia).
      destruct (IH (next_bank A) (B - (next_bank A - A)) ltac:(lia) ltac:(lia) Hk')
        as (C & S & W).
      split; [|split].
      * now apply chunked_cross.
      * cbn [sum_payloads fold_right snd]. fold (sum_payloads (read_plan k (next_bank A)
                                                  (B - (next_bank A - A)))).
        rewrite S. lia.
      * constructor; [|exact W]. unfold within_bank. cbn. lia.
Qed.

Lemma read_turns_enough (A B : Z) :
  0 <= A -> 0 < B ->
  A + B <= (A / SIXTEENMB + Z.of_nat (read_turns A B)) * SIXTEENMB.
Proof.
  intros HA HB. unfold read_turns.
  assert (A / SIXTEENMB <= (A + B - 1) / SIXTEENMB)
    by (apply Z.div_le_mono; unfold SIXTEENMB; lia).
  rewrite Z2Nat.id by lia.
  pose proof (Z.div_mod (A + B - 1) SIXTEENMB ltac:(unfold SIXTEENMB; lia)) as Hdm.
  pose proof (Z.mod_pos_bound (A + B - 1) SIXTEENMB ltac:(unfold SIXTEENMB; lia)) as Hm.
  unfold SIXTEENMB in *. lia.
Qed.



(** ** Bank selection across an operation *)

Lemma FlashErase_partial_spec (Q : XQspiPs) (w a n : Z) (st : State) (row : FlashInfo) :
  wired Q = true -> active_row st = Some row ->
  0 <= a < 2 ^ 32 ->
  n <> u32 (NumSect row * SectSize row) ->
  (7 * Z.to_nat (erase_NumSect row a n) <= ready_count (bus st))%nat ->
  exists st' xs,
    FlashErase Q a n w st = Done tt st' /\
    advances (7 * Z.to_nat (erase_NumSect row a n)) st st' xs /\
    filter is_bank_select xs =
      (if FlashDeviceSize row >? SIXTEENMB
       then flat_map (bank_register_writes (FlashMake st))
              (bank_changes None
                 (map (bank_of Q row)
                      (erase_addresses (Z.to_nat (erase_NumSect row a n)) row a)))
       else []) /\
    filter is_page_program xs = [].
Proof.
  intros Hw Hrow Ha Hpart Hr.
  destruct (FlashErase_loop_spec Q w row (Z.to_nat (erase_NumSect row a n))
              a true None st Hw Hrow Ha Hr eq_refl)
    as (st' & xs & E & Adv & _ & Bk & Pp).
  { intros H. now contradiction H. }
  exists st', xs. split; [|now split].
  unfold FlashErase.
  rewrite (bind_Done _ _ _ _ _ (Flash_Config_row_spec _ _ Hrow)).
  destruct (Z.eqb_spec n (u32 (NumSect row * SectSize row))); [contradiction|].
  exact E.
Qed.

(** C3, as amended. On a device larger than 16 MB a partial erase selects
    a bank for its first sector and then only for a sector whose bank
    differs from the bank selected last, so that consecutive sectors of one
    bank share one selection; a read selects the bank of every chunk,
    whatever bank was selected before. *)
Theorem bank_selection_per_operation (Q : XQspiPs) (st : State) (row : FlashInfo) :
  wired Q = true -> active_row st = Some row ->
  (FlashDeviceSize row >? SIXTEENMB) = true ->
  (forall a n w,
     0 <= a < 2 ^ 32 -> n <> u32 (NumSect row * SectSize row) ->
     (7 * Z.to_nat (erase_NumSect row a n) <= ready_count (bus st))%nat ->
     exists st' added,
       FlashErase Q a n w st = Done tt st' /\
       trace st' = trace st ++ added /\
       bank_selects added =
         flat_map (bank_register_writes (FlashMake st))
           (bank_changes None
              (map (bank_of Q row)
                   (erase_addresses (Z.to_nat (erase_NumSect row a n)) row a)))) /\
  (forall b rest, bank_changes (Some b) (b :: rest) = bank_changes (Some b) rest) /\
  (forall A B c W R,
     0 <= A -> 0 < B < 2 ^ 31 -> A + B < 2 ^ 28 -> 0 <= c < 256 ->
     (3 * read_turns A B <= ready_count (bus st))%nat ->
     exists st' added plan,
       FlashRead Q A B c W R st = Done tt st' /\
       trace st' = trace st ++ added /\
       chunked A B plan /\
       bank_selects added =
         flat_map (fun chunk => bank_register_writes (FlashMake st)
                                  (bank_of Q row (fst chunk))) plan).
Proof.
  intros Hw Hrow Hbig. split; [|split].
  - intros a n w Ha Hpart Hr.
    destruct (FlashErase_partial_spec Q w a n st row Hw Hrow Ha Hpart Hr)
      as (st' & xs & E & (_ & _ & (added & T & X) & _) & Bk & _).
    exists st', added. split; [exact E|]. split; [exact T|].
    unfold bank_selects. rewrite X, Bk, Hbig. reflexivity.
  - intros b rest. cbn [bank_changes]. now rewrite Z.eqb_refl.
  - intros A B c W R HA HB HAB Hc Hr.
    pose proof (read_turns_enough A B HA ltac:(lia)) as Hk.
    pose proof (ready_count_length (bus st)) as Hlen.
    destruct (FlashRead_loop_spec Q c W R B row (read_turns A B) A B (length (bus st)) st
                Hw Hrow HA ltac:(lia) ltac:(lia) Hk Hc Hr ltac:(lia))
      as (st' & xs & E & (_ & _ & (added & T & X) & _) & _ & Bk & _).
    destruct (read_plan_chunked (read_turns A B) A B HA ltac:(lia) Hk) as (C & _).
    exists st', added, (read_plan (read_turns A B) A B).
    split; [exact E|]. split; [exact T|]. split; [exact C|].
    unfold bank_selects. rewrite X, Bk, Hbig. reflexivity.
Qed.

(** ** Image update *)

Lemma update_flash_pages_spec (row : FlashInfo) (write_buffer : Z) (n : nat) :
  forall (Page : Z) (st : State),
  wired QspiInstance = true -> active_row st = Some row ->
  0 <= Page -> Page + Z.of_nat n <= 2 ^ 21 ->
  (7 * n <= ready_count (bus st))%nat ->
  exists st' xs,
    update_flash_pages n write_buffer Page st = Done tt st' /\
    advances (7 * n) st st' xs /\
    map frame_header (filter is_page_program xs) =
      map (page_header QspiInstance row) (page_numbers n Page).
Proof.
  induction n as [|n IH]; intros Page st Hw Hrow HP Hn Hr.
  - exists st, []. split; [reflexivity|]. split; [apply advances_refl|reflexivity].
  - pose proof (table_row_PageSize _ _ Hrow) as Hps.
    assert (Haddr : u32 (u32 (Page * PageSize row) + BIN_START_ADDRESS) =
                    Page * PageSize row + BIN_START_ADDRESS).
    { unfold BIN_START_ADDRESS. rewrite !Z.add_0_r.
      assert (0 <= Page * PageSize row < 2 ^ 32) by nia.
      rewrite (u32_small (Page * PageSize row)) by lia.
      now rewrite u32_small by lia. }
    destruct (FlashWrite_spec QspiInstance
                (Page * PageSize row + BIN_START_ADDRESS) (PageSize row) WRITE_CMD
                (write_buffer + u32 (Page * PageSize row)) st row Hw Hrow)
      as (st1 & pre & busy & r & post & E1 & A1 & _).
    { unfold BIN_START_ADDRESS. nia. }
    { lia. }
    { unfold WRITE_CMD. lia. }
    { lia. }
    assert (Hrow1 : active_row st1 = Some row)
      by (now rewrite (active_row_advances _ _ _ _ A1)).
    destruct (IH (Page + 1) st1 Hw Hrow1) as (st2 & xs & E2 & A2 & P2); try lia.
    { destruct A1 as (_ & _ & _ & _ & R). lia. }
    pose proof (advances_trans _ _ _ _ _ _ _ A1 A2) as Aall.
    eexists st2, _. split; [|split].
    + cbn [update_flash_pages].
      rewrite (bind_Done _ _ _ _ _ (Flash_Config_row_spec _ _ Hrow)).
      rewrite Haddr. rewrite (bind_Done _ _ _ _ _ E1). exact E2.
    + replace (7 * S n)%nat with (7 + 7 * n)%nat by lia. exact Aall.
    + rewrite !filter_app, !map_app, P2.
      cbn [page_numbers map].
      change (page_header QspiInstance row Page :: ?l)
        with ([page_header QspiInstance row Page] ++ l). f_equal.
      unfold write_head. rewrite !filter_app.
      rewrite (filter_repeat_none _ status_xfer) by reflexivity.
      rewrite flag_xfers_page_programs.
      assert (Hb : filter is_page_program
                (if FlashDeviceSize row >? SIXTEENMB
                 then bank_select_xfers (FlashMake st)
                        (real_addr QspiInstance row
                           (Page * PageSize row + BIN_START_ADDRESS) / SIXTEENMB)
                 else []) = [])
        by (destruct (FlashDeviceSize row >? SIXTEENMB);
            [apply bank_select_xfers_page_programs|reflexivity]).
      rewrite Hb. reflexivity.
Qed.

Lemma FlashErase_any_spec (Q : XQspiPs) (w a n : Z) (st : State) (row : FlashInfo) :
  wired Q = true -> active_row st = Some row -> 0 <= a < 2 ^ 32 ->
  (erase_budget row a n <= ready_count (bus st))%nat ->
  exists st' xs,
    FlashErase Q a n w st = Done tt st' /\
    advances (erase_budget row a n) st st' xs /\
    filter is_page_program xs = [].
Proof.
  intros Hw Hrow Ha Hr. unfold erase_budget in *.
  destruct (Z.eqb_spec n (u32 (NumSect row * SectSize row))) as [Hfull|Hpart].
  - now apply FlashErase_full_spec.
  - destruct (FlashErase_partial_spec Q w a n st row Hw Hrow Ha Hpart Hr)
      as (st' & xs & E & Adv & _ & Pp).
    now exists st', xs.
Qed.

Lemma to_int_small (x : Z) : 0 <= x < 2 ^ 31 -> to_int x = x.
Proof.
  intros H. unfold to_int, signed_long. rewrite u32_small by lia.
  destruct (Z.ltb_spec x (2 ^ 31)); [reflexivity|lia].
Qed.

(** C8, as amended. [update_flash] copies the source behind the four
    header bytes of the write buffer, runs the erase for the [length] bytes
    from the image base, and then issues exactly [length / PageSize + 1] page
    programs, for the consecutive pages of the image from its base on and
    with the page size of the active row; the number is the ceiling of
    [length / PageSize] whenever [length] is not a multiple of the page
    size. *)
Theorem update_flash_page_programs (buffer read_buffer write_buffer len : Z)
    (st : State) (row : FlashInfo) :
  wired QspiInstance = true -> active_row st = Some row ->
  0 <= len < 2 ^ 28 ->
  (update_flash_budget row len <= ready_count (bus st))%nat ->
  exists st0 st1 st' erased rest,
    memcpy (write_buffer + 4) buffer len st = Done tt st0 /\
    (forall i, 0 <= i < len -> mem st0 (write_buffer + 4 + i) = mem st (buffer + i)) /\
    FlashErase QspiInstance BIN_START_ADDRESS len WriteBuffer st0 = Done tt st1 /\
    trace st1 = trace st ++ erased /\
    page_programs erased = [] /\
    update_flash buffer read_buffer write_buffer len st = Done tt st' /\
    trace st' = trace st1 ++ rest /\
    map frame_header (page_programs rest) =
      map (page_header QspiInstance row)
          (page_numbers (Z.to_nat (len / PageSize row + 1)) 0) /\
    (len mod PageSize row <> 0 -> len / PageSize row + 1 = ceil_div len (PageSize row)).
Proof.
  intros Hw Hrow Hlen Hr.
  pose proof (table_row_PageSize _ _ Hrow) as Hps.
  unfold update_flash_budget in Hr.
  set (pages := len / PageSize row + 1) in *.
  assert (Hpages : 0 < pages <= 2 ^ 20 + 1).
  { subst pages. assert (0 <= len / PageSize row) by (apply Z.div_pos; lia).
    assert (len / PageSize row < 2 ^ 20 + 1)
      by (apply Z.div_lt_upper_bound; lia).
    lia. }
  set (st0 := set_mem (fun a => if (write_buffer + 4 <=? a) && (a <? write_buffer + 4 + len)
                                then mem st (buffer + (a - (write_buffer + 4)))
                                else mem st a) st).
  assert (E0 : memcpy (write_buffer + 4) buffer len st = Done tt st0) by reflexivity.
  assert (Hrow0 : active_row st0 = Some row) by exact Hrow.
  destruct (FlashErase_any_spec QspiInstance WriteBuffer BIN_START_ADDRESS len st0 row
              Hw Hrow0 ltac:(unfold BIN_START_ADDRESS; lia))
    as (st1 & xs1 & E1 & A1 & P1).
  { subst st0. cbn [bus set_mem]. lia. }
  assert (Hrow1 : active_row st1 = Some row)
    by (now rewrite (active_row_advances _ _ _ _ A1)).
  destruct (update_flash_pages_spec row write_buffer (Z.to_nat pages) 0 st1 Hw Hrow1)
    as (st2 & xs2 & E2 & A2 & P2); try lia.
  { destruct A1 as (_ & _ & _ & _ & R). subst st0. cbn [bus set_mem] in R. lia. }
  pose proof (advances_trans _ _ _ _ _ _ _ A1 A2) as A12.
  assert (Hrow2 : active_row st2 = Some row)
    by (now rewrite (active_row_advances _ _ _ _ A2)).
  assert (Hk : BIN_START_ADDRESS + len <=
               (BIN_START_ADDRESS / SIXTEENMB + Z.of_nat (read_turns BIN_START_ADDRESS len))
               * SIXTEENMB).
  { destruct (Z.eq_dec len 0) as [->|Hnz]; [reflexivity|].
    apply read_turns_enough; unfold BIN_START_ADDRESS; lia. }
  pose proof (ready_count_length (bus st2)) as Hlen2.
  destruct (FlashRead_loop_spec QspiInstance QUAD_READ_CMD WriteBuffer read_buffer len row
              (read_turns BIN_START_ADDRESS len) BIN_START_ADDRESS len
              (length (bus st2)) st2 Hw Hrow2)
    as (st3 & xs3 & E3 & A3 & _ & _ & P3);
    try (unfold BIN_START_ADDRESS, QUAD_READ_CMD; lia); try exact Hk.
  { destruct A12 as (_ & _ & _ & _ & R). subst st0. cbn [bus set_mem] in R. lia. }
  { destruct A12 as (_ & _ & _ & _ & R). subst st0. cbn [bus set_mem] in R. lia. }
  destruct A1 as (_ & _ & (erased & T1 & X1) & _ & _).
  destruct A2 as (_ & _ & (ad2 & T2 & X2) & _ & _).
  destruct A3 as (_ & _ & (ad3 & T3 & X3) & _ & _).
  exists st0, st1, st3, erased, (ad2 ++ ad3).
  split; [exact E0|]. split; [|split; [exact E1|split; [exact T1|split;
    [|split; [|split; [|split]]]]]].
  - intros i Hi. subst st0. cbn [mem set_mem].
    destruct (Z.leb_spec (write_buffer + 4) (write_buffer + 4 + i)); [|lia].
    destruct (Z.ltb_spec (write_buffer + 4 + i) (write_buffer + 4 + len)); [|lia].
    cbn [andb]. f_equal. lia.
  - unfold page_programs. now rewrite X1.
  - unfold update_flash.
    rewrite (bind_Done _ _ _ _ _ E0).
    rewrite (bind_Done _ _ _ _ _ (Flash_Config_row_spec _ _ Hrow0)).
    rewrite (bind_Done _ _ _ _ _ E1).
    fold pages. rewrite (u32_small pages) by lia. rewrite to_int_small by lia.
    rewrite (bind_Done _ _ _ _ _ E2).
    unfold FlashRead. exact E3.
  - rewrite T3, T2. now rewrite app_assoc.
  - unfold page_programs. rewrite transfers_app, filter_app, X2, X3, P3, app_nil_r.
    exact P2.
  - intros Hm. apply ceil_div_not_multiple; lia.
Qed.


(** ** The geometry the table records *)

Lemma table_row_index (i : Z) (row : FlashInfo) :
  table_row i = Some row ->
  exists n, (n < 33)%nat /\ i = Z.of_nat n /\ nth_error Flash_Config_Table n = Some row.
Proof.
  unfold table_row. destruct (Z.ltb_spec i 0) as [|Hi]; [discriminate|].
  intros H. exists (Z.to_nat i). split; [|split; [lia|exact H]].
  change 33%nat with (length Flash_Config_Table).
  apply nth_error_Some. rewrite H. discriminate.
Qed.

(** Every row of the table is consistent with itself: sectors and pages
    cover the same number of bytes, which is the capacity of one chip for
    the single rows and of two chips for the stacked and parallel rows and
    fits 32 bits; a sector is a whole number of pages; and the sector mask
    clears the bits below the sector size, except in the three Macronix 1 Gb
    rows, whose mask is that of 64 KB sectors although their sectors have
    8 KB (16 KB in parallel). *)
Theorem Flash_Config_Table_geometry (i : Z) (row : FlashInfo) :
  table_row i = Some row ->
  NumSect row * SectSize row = NumPage row * PageSize row /\
  NumSect row * SectSize row = chips_of_index i * FlashDeviceSize row /\
  u32 (NumSect row * SectSize row) = NumSect row * SectSize row /\
  SectSize row mod PageSize row = 0 /\
  (SectMask row = not32 (SectSize row - 1) \/
   (ManufacturerID row = MACRONIX_ID_BYTE0 /\
    DeviceIDMemSize row = MACRONIX_ID_BYTE2_1G /\
    SectMask row <> not32 (SectSize row - 1))).
Proof.
  intros H. destruct (table_row_index _ _ H) as (n & Hn & -> & Hrow). clear H.
  do 33 (destruct n as [|n];
         [injection Hrow as <-; vm_compute;
          repeat split; first [left; reflexivity | right; repeat split; discriminate] |]).
  exfalso. simpl in Hn. lia.
Qed.

(** ** Identification of every catalogued part *)

Ltac unfold_id_bytes :=
  cbv [MICRON_ID_BYTE0 SPANSION_ID_BYTE0 WINBOND_ID_BYTE0 MACRONIX_ID_BYTE0
       MICRON_ID_BYTE2_128 MICRON_ID_BYTE2_256 MICRON_ID_BYTE2_512 MICRON_ID_BYTE2_1G
       SPANSION_ID_BYTE2_128 SPANSION_ID_BYTE2_256 SPANSION_ID_BYTE2_512
       WINBOND_ID_BYTE2_128 MACRONIX_ID_BYTE2_256 MACRONIX_ID_BYTE2_512
       MACRONIX_ID_BYTE2_1G] in *.

(** The decoding of manufacturer byte and size code, from any state. *)
Lemma identification_decoded (Q : XQspiPs) (id0 id2 : Z) (st1 : State) :
  wired Q = true ->
  in_catalog id0 id2 = true ->
  exists st',
    (StartIndex <- deduce_make id0 ;;
     assign_index Q StartIndex id2 ;;;
     ret XST_SUCCESS) st1 = Done XST_SUCCESS st' /\
    FlashMake st' = id0 /\
    bus st' = bus st1 /\ trace st' = trace st1 /\ mem st' = mem st1 /\
    LqspiCr st' = LqspiCr st1 /\
    if (id0 =? MACRONIX_ID_BYTE0) && (id2 =? MACRONIX_ID_BYTE2_1G)
    then FCTIndex st' =
           FLASH_CFG_TBL_SINGLE_1GB_MC + topology_offset (Config_ConnectionMode Q)
    else exists row,
           active_row st' = Some row /\
           ManufacturerID row = id0 /\ DeviceIDMemSize row = id2 /\
           FCTIndex st' mod 3 = topology_offset (Config_ConnectionMode Q).
Proof.
  intros Hw Hcat. destruct Q as [mode].
  unfold in_catalog in Hcat. cbn in Hcat.
  unfold bind at 1. unfold deduce_make, assign_index.
  unfold_id_bytes.
  destruct (Z.eqb_spec id0 32) as [->|N1];
    [|destruct (Z.eqb_spec id0 1) as [->|N2];
      [|destruct (Z.eqb_spec id0 239) as [->|N3];
        [|destruct (Z.eqb_spec id0 194) as [->|N4]]]];
    cbn in Hcat |- *.
  5:{ repeat match goal with
             | H : ?a <> ?b |- _ => apply Z.eqb_neq in H; rewrite H in Hcat
             end.
      cbn in Hcat. discriminate Hcat. }
  all: repeat match goal with
              | |- context [?v =? ?c] => is_var v; destruct (Z.eqb_spec v c); [subst v|]
              end; cbn in Hcat; try discriminate Hcat;
       destruct mode; try discriminate Hw;
       cbn; eexists; repeat split;
       try (eexists; repeat split).
Qed.

(** For every identification answer whose manufacturer byte and size code
    are in the catalog, other than the Macronix 1 Gb code, and every wired
    topology, [FlashReadID] succeeds, records the manufacturer and selects a
    row that carries this manufacturer and this size code and is the row of
    the topology. *)
Theorem FlashReadID_selects_matching_row (Q : XQspiPs) (W R : Z) (st : State)
    (data : list Z) (rest : list Response) :
  bus st = (XST_SUCCESS, data) :: rest ->
  wired Q = true ->
  in_catalog (u8 (nth 1 data 0)) (u8 (nth 3 data 0)) = true ->
  (u8 (nth 1 data 0) =? MACRONIX_ID_BYTE0) &&
    (u8 (nth 3 data 0) =? MACRONIX_ID_BYTE2_1G) = false ->
  exists st' row,
    FlashReadID Q W R st = Done XST_SUCCESS st' /\
    FlashMake st' = u8 (nth 1 data 0) /\
    active_row st' = Some row /\
    ManufacturerID row = u8 (nth 1 data 0) /\
    DeviceIDMemSize row = u8 (nth 3 data 0) /\
    FCTIndex st' mod 3 = topology_offset (Config_ConnectionMode Q) /\
    bus st' = rest.
Proof.
  intros Hbus Hw Hcat Hmx.
  rewrite (FlashReadID_answered _ W R st _ _ _ Hbus). cbn [XStatus_eqb negb].
  destruct (identification_decoded Q _ _ (after_read_id W R data rest st) Hw Hcat)
    as (st' & E & Hmake & Hb & _ & _ & _ & Hsel).
  rewrite Hmx in Hsel. destruct Hsel as (row & Hrow & H0 & H2 & Hmod).
  exists st', row. repeat split; try assumption.
Qed.

(** A Macronix part with the 1 Gb size code is given the rows of the Micron
    1 Gb parts: the row selected carries the Micron manufacturer byte and
    size code and four dies, while [FlashMake] records Macronix.  The three
    Macronix 1 Gb rows of the table are not selected. *)
Theorem FlashReadID_macronix_1G_takes_micron_row (Q : XQspiPs) (W R : Z) (st : State)
    (data : list Z) (rest : list Response) :
  bus st = (XST_SUCCESS, data) :: rest ->
  wired Q = true ->
  u8 (nth 1 data 0) = MACRONIX_ID_BYTE0 ->
  u8 (nth 3 data 0) = MACRONIX_ID_BYTE2_1G ->
  exists st' row,
    FlashReadID Q W R st = Done XST_SUCCESS st' /\
    FlashMake st' = MACRONIX_ID_BYTE0 /\
    FCTIndex st' = FLASH_CFG_TBL_SINGLE_1GB_MC + topology_offset (Config_ConnectionMode Q) /\
    active_row st' = Some row /\
    ManufacturerID row = MICRON_ID_BYTE0 /\
    DeviceIDMemSize row = MICRON_ID_BYTE2_1G /\
    NumDie row = 4 /\ SectSize row = (if topology_offset (Config_ConnectionMode Q) =? 2
                                      then 0x20000 else 0x10000).
Proof.
  intros Hbus Hw H0 H2.
  rewrite (FlashReadID_answered _ W R st _ _ _ Hbus). cbn [XStatus_eqb negb].
  assert (Hcat : in_catalog (u8 (nth 1 data 0)) (u8 (nth 3 data 0)) = true)
    by (rewrite H0, H2; reflexivity).
  destruct (identification_decoded Q _ _ (after_read_id W R data rest st) Hw Hcat)
    as (st' & E & Hmake & _ & _ & _ & _ & Hsel).
  rewrite H0 in Hmake. rewrite H0, H2 in Hsel. rewrite H0, H2 in E.
  cbn in Hsel.
  rewrite H0, H2, E.
  destruct Q as [mode]. destruct mode; try discriminate Hw;
    cbn in Hsel; exists st'; eexists;
    (split; [reflexivity|]); (split; [exact Hmake|]); (split; [exact Hsel|]);
    unfold active_row; rewrite Hsel; repeat split.
Qed.

(** When the transport reports anything but success for the read-ID
    transfer, [FlashReadID] returns [XST_FAILURE] and the identification
    stays as it was, whatever bytes came in: the answer is not decoded. *)
Theorem FlashReadID_transport_failure (Q : XQspiPs) (W R : Z) (st : State)
    (status : XStatus) (data : list Z) (rest : list Response) :
  bus st = (status, data) :: rest ->
  XStatus_eqb status XST_SUCCESS = false ->
  exists st',
    FlashReadID Q W R st = Done XST_FAILURE st' /\
    FlashMake st' = FlashMake st /\
    FCTIndex st' = FCTIndex st /\
    bus st' = rest.
Proof.
  intros Hbus Hs.
  rewrite (FlashReadID_answered _ W R st _ _ _ Hbus), Hs. cbn [negb].
  eexists. split; [reflexivity|]. repeat split.
Qed.


(** ** Bank selection for the other manufacturers *)

Lemma SendBankSelect_other_make (w b : Z) (st : State) :
  (FlashMake st =? MICRON_ID_BYTE0) = false ->
  (FlashMake st =? SPANSION_ID_BYTE0) = false ->
  SendBankSelect w b st = Done XST_SUCCESS st.
Proof.
  intros Hm Hs. unfold SendBankSelect, bind, get. rewrite Hm, Hs. reflexivity.
Qed.

Lemma select_bank_silent {B} (c : bool) (w b : Z) (k : unit -> M B) (st : State) :
  (FlashMake st =? MICRON_ID_BYTE0) = false ->
  (FlashMake st =? SPANSION_ID_BYTE0) = false ->
  bind (when c (SendBankSelect w b ;;; ret tt)) k st = k tt st.
Proof.
  intros Hm Hs. destruct c; [|reflexivity].
  unfold when, bind. rewrite (SendBankSelect_other_make w b st Hm Hs). reflexivity.
Qed.

Lemma land_low24 (a a' m : Z) :
  a mod 2 ^ 24 = a' mod 2 ^ 24 -> Z.land m (Z.ones 24) = m ->
  Z.land a m = Z.land a' m.
Proof.
  intros H Hm. rewrite <- Hm.
  rewrite (Z.land_comm m), !Z.land_assoc, !Z.land_ones by lia.
  now rewrite H.
Qed.

(** On a part whose manufacturer is neither Micron nor Spansion (Winbond,
    Macronix, or none identified), [SendBankSelect] sends nothing, so in
    Single topology a page program sees only the low 24 bits of its address:
    two addresses that agree on them, 16 MB or a multiple apart, make the
    same run of [FlashWrite], transfer for transfer. *)
Theorem FlashWrite_without_bank_register (a a' n c w : Z) (st : State) :
  (FlashMake st =? MICRON_ID_BYTE0) = false ->
  (FlashMake st =? SPANSION_ID_BYTE0) = false ->
  a mod 2 ^ 24 = a' mod 2 ^ 24 ->
  SendBankSelect w (a / SIXTEENMB) st = Done XST_SUCCESS st /\
  FlashWrite (mkXQspiPs XQSPIPS_CONNECTION_MODE_SINGLE) a n c w st =
  FlashWrite (mkXQspiPs XQSPIPS_CONNECTION_MODE_SINGLE) a' n c w st.
Proof.
  intros Hm Hs Ha.
  split; [now apply SendBankSelect_other_make|].
  unfold FlashWrite, GetRealAddr. cbn [Config_ConnectionMode].
  rewrite !bind_ret. cbn [assigned]. rewrite !bind_ret.
  destruct (Flash_Config_row st) as [row st1| |] eqn:E.
  - assert (st1 = st) as ->.
    { unfold Flash_Config_row, bind, get, assigned in E.
      destruct (table_row (FCTIndex st)); now inversion E. }
    rewrite !(bind_Done _ _ _ _ _ E).
    rewrite !select_bank_silent by assumption.
    rewrite (land_low24 a a' 0xFF0000 Ha), (land_low24 a a' 0xFF00 Ha),
      (land_low24 a a' 0xFF Ha) by reflexivity.
    reflexivity.
  - unfold bind. now rewrite E.
  - unfold bind. now rewrite E.
Qed.

(** ** Reads of nothing *)

(** A read of zero bytes, and a read of 2^31 bytes or more (which the loop
    condition takes for a negative count), returns at once: no transfer is
    made and nothing is stored. *)
Theorem FlashRead_reads_nothing (Q : XQspiPs) (A B c W R : Z) (st : State) :
  B = 0 \/ 2 ^ 31 <= B < 2 ^ 32 ->
  FlashRead Q A B c W R st = Done tt st.
Proof.
  intros HB. unfold FlashRead.
  assert (E : (signed_long B >? 0) = false).
  { unfold signed_long. destruct HB as [->|HB]; [reflexivity|].
    rewrite u32_small by lia.
    destruct (Z.ltb_spec B (2 ^ 31)); lia. }
  destruct (length (bus st)); simpl; rewrite E; reflexivity.
Qed.


(** ** Polling has no time-out *)

Section Starving.

Variable row : FlashInfo.

Lemma passes_ret {A} (a : A) : passes row (ret a).
Proof. intros st H. right. now exists a, st. Qed.

Lemma passes_bind {A B} (m : M A) (k : A -> M B) :
  passes row m -> (forall a, passes row (k a)) -> passes row (bind m k).
Proof.
  intros Hm Hk st H. unfold bind.
  destruct (Hm st H) as [E | (a & st' & E & H')]; rewrite E; [now left|].
  apply Hk, H'.
Qed.

Lemma stalls_bind {A B} (m : M A) (k : A -> M B) :
  passes row m -> (forall a, stalls row (k a)) -> stalls row (bind m k).
Proof.
  intros Hm Hk st H. unfold bind.
  destruct (Hm st H) as [E | (a & st' & E & H')]; rewrite E; [reflexivity|].
  apply Hk, H'.
Qed.

Lemma stalls_first {A B} (m : M A) (k : A -> M B) :
  stalls row m -> stalls row (bind m k).
Proof. intros Hm st H. unfold bind. now rewrite (Hm st H). Qed.

Lemma passes_when (c : bool) (m : M unit) : passes row m -> passes row (when c m).
Proof. destruct c; [trivial|]. intros _. apply passes_ret. Qed.

Lemma passes_get {A} (f : State -> A) : passes row (get f).
Proof. intros st H. right. now exists (f st), st. Qed.

Lemma passes_store (p v : Z) : passes row (store p v).
Proof. intros st H. right. eexists. eexists. split; [reflexivity|exact H]. Qed.

Lemma passes_exchange (x : Xfer) : passes row (exchange x).
Proof.
  intros st [Hb Hr]. unfold exchange.
  destruct (bus st) as [|r rest] eqn:E; [now left|].
  right. eexists. eexists. split; [reflexivity|].
  simpl in Hb. apply andb_prop in Hb. split; [apply Hb|exact Hr].
Qed.

Lemma passes_PolledTransfer_local (tx : list Z) (rx : bool) :
  passes row (XQspiPs_PolledTransfer_local tx rx).
Proof.
  apply passes_bind; [apply passes_exchange|]. intros r. apply passes_ret.
Qed.

Lemma passes_PolledTransfer (p : Z) (q : option Z) (n : Z) :
  passes row (XQspiPs_PolledTransfer p q n).
Proof.
  apply passes_bind; [apply passes_get|]. intros m.
  apply passes_bind; [apply passes_exchange|]. intros r.
  apply passes_bind; [|intros; apply passes_ret].
  destruct q; [|apply passes_ret].
  intros st H. right. eexists. eexists. split; [reflexivity|exact H].
Qed.

Lemma passes_SendBankSelect (w b : Z) : passes row (SendBankSelect w b).
Proof.
  apply passes_bind; [apply passes_get|]. intros make.
  apply passes_bind.
  - apply passes_when.
    apply passes_bind; [apply passes_PolledTransfer_local|]. intros _.
    apply passes_bind; [apply passes_store|]. intros _.
    apply passes_bind; [apply passes_store|]. intros _.
    apply passes_bind; [apply passes_PolledTransfer|]. intros _. apply passes_ret.
  - intros _. apply passes_bind; [|intros; apply passes_ret].
    apply passes_when.
    apply passes_bind; [apply passes_store|]. intros _.
    apply passes_bind; [apply passes_store|]. intros _.
    apply passes_bind; [apply passes_PolledTransfer|]. intros _. apply passes_ret.
Qed.

Lemma passes_read_flag_status : passes row (read_flag_status_if_multi_die row).
Proof.
  apply passes_bind; [apply passes_get|]. intros make.
  apply passes_when.
  apply passes_bind; [apply passes_PolledTransfer_local|]. intros; apply passes_ret.
Qed.

Lemma passes_select_page (v : Z -> Z) :
  passes row (LqspiCr <- XQspiPs_GetLqspiConfigReg ;;
              XQspiPs_SetLqspiConfigReg (v LqspiCr) ;;;
              XQspiPs_SetSlaveSelect).
Proof.
  intros st H. right. rewrite select_page_spec.
  eexists. eexists. split; [reflexivity|exact H].
Qed.

Lemma stalls_wait_status : stalls row wait_status.
Proof.
  intros st [Hb _]. unfold wait_status.
  remember (bus st) as b eqn:E. revert st E.
  induction b as [|r rest IH]; intros st E; [reflexivity|].
  simpl in Hb. apply andb_prop in Hb. destruct Hb as [Hr Hrest].
  cbn [length wait_status_loop].
  unfold XQspiPs_PolledTransfer_local, bind, exchange. rewrite <- E. cbn.
  unfold unready in Hr. apply andb_prop in Hr. destruct Hr as [Hr _].
  apply negb_true_iff in Hr. rewrite Hr.
  apply (IH Hrest). reflexivity.
Qed.

Lemma stalls_wait_flag : stalls row wait_flag.
Proof.
  intros st [Hb _]. unfold wait_flag.
  remember (bus st) as b eqn:E. revert st E.
  induction b as [|r rest IH]; intros st E; [reflexivity|].
  simpl in Hb. apply andb_prop in Hb. destruct Hb as [Hr Hrest].
  cbn [length wait_flag_loop].
  unfold XQspiPs_PolledTransfer_local, bind, exchange. rewrite <- E. cbn.
  unfold unready in Hr. apply andb_prop in Hr. destruct Hr as [_ Hr].
  apply negb_true_iff in Hr. rewrite Hr.
  apply (IH Hrest). reflexivity.
Qed.

Lemma GetRealAddr_starving (Q : XQspiPs) (a : Z) (st : State) :
  wired Q = true -> starving row st ->
  exists x st', GetRealAddr Q a st = Done (Some x) st' /\ starving row st'.
Proof.
  intros Hw H. destruct Q as [mode]. destruct mode; try discriminate Hw.
  - exists a, st. now split.
  - destruct H as [Hb Hr].
    unfold GetRealAddr. cbn [Config_ConnectionMode].
    unfold XQspiPs_GetLqspiConfigReg. rewrite bind_get.
    rewrite (bind_Done _ _ _ _ _ (Flash_Config_row_spec st row Hr)).
    destruct (negb (Z.land a (FlashDeviceSize row) =? 0));
      eexists; eexists; (split; [reflexivity|]); split; assumption.
  - exists (a / 2), st. now split.
Qed.

Lemma send_and_wait_stalls {B} (w c a1 a2 a3 count : Z) (k : M B) :
  stalls row
    (XQspiPs_PolledTransfer_local [WRITE_ENABLE_CMD] false ;;;
     store (w + COMMAND_OFFSET) c ;;;
     store (w + ADDRESS_1_OFFSET) a1 ;;;
     store (w + ADDRESS_2_OFFSET) a2 ;;;
     store (w + ADDRESS_3_OFFSET) a3 ;;;
     XQspiPs_PolledTransfer w None count ;;;
     read_flag_status_if_multi_die row ;;;
     wait_status ;;;
     k).
Proof.
  apply stalls_bind; [apply passes_PolledTransfer_local|]. intros _.
  apply stalls_bind; [apply passes_store|]. intros _.
  apply stalls_bind; [apply passes_store|]. intros _.
  apply stalls_bind; [apply passes_store|]. intros _.
  apply stalls_bind; [apply passes_store|]. intros _.
  apply stalls_bind; [apply passes_PolledTransfer|]. intros _.
  apply stalls_bind; [apply passes_read_flag_status|]. intros _.
  apply stalls_first, stalls_wait_status.
Qed.

Lemma stalls_FlashWrite (Q : XQspiPs) (a n c w : Z) :
  wired Q = true -> stalls row (FlashWrite Q a n c w).
Proof.
  intros Hw st H. unfold FlashWrite.
  destruct (GetRealAddr_starving Q a st Hw H) as (x & st1 & E & H1).
  rewrite (bind_Done _ _ _ _ _ E). cbn [assigned]. rewrite bind_ret.
  rewrite (bind_Done _ _ _ _ _ (Flash_Config_row_spec st1 row (proj2 H1))).
  clear E. revert st1 H1.
  apply stalls_bind.
  - apply passes_when. apply passes_bind; [apply passes_SendBankSelect|].
    intros; apply passes_ret.
  - intros _. apply send_and_wait_stalls.
Qed.

Lemma bind_assoc {A B C} (m : M A) (f : A -> M B) (k : B -> M C) (st : State) :
  bind (bind m f) k st = bind m (fun x => bind (f x) k) st.
Proof. unfold bind. destruct (m st); reflexivity. Qed.

Lemma bind_Stalled {A B} (m : M A) (k : A -> M B) (st : State) :
  m st = Stalled -> bind m k st = Stalled.
Proof. intros E. unfold bind. now rewrite E. Qed.

Lemma stalls_FlashErase_sector (Q : XQspiPs) (w a : Z) (bsel : option Z) :
  wired Q = true -> stalls row (FlashErase_sector Q w a true bsel).
Proof.
  intros Hw st H. unfold FlashErase_sector.
  destruct (GetRealAddr_starving Q a st Hw H) as (x & st1 & E & H1).
  rewrite (bind_Done _ _ _ _ _ E). cbn [assigned]. rewrite bind_ret.
  rewrite (bind_Done _ _ _ _ _ (Flash_Config_row_spec st1 row (proj2 H1))).
  clear E. cbn [andb].
  destruct (FlashDeviceSize row >? SIXTEENMB).
  - rewrite bind_assoc.
    destruct (passes_SendBankSelect w (x / SIXTEENMB) st1 H1) as [E | (s & st2 & E & H2)].
    + now apply bind_Stalled.
    + rewrite (bind_Done _ _ _ _ _ E). rewrite !bind_ret. cbn [snd assigned].
      rewrite bind_bind_ret. rewrite Z.eqb_refl. cbn [negb]. rewrite bind_ret.
      now apply send_and_wait_stalls.
  - rewrite !bind_ret. cbn [snd]. rewrite ?bind_ret.
    now apply send_and_wait_stalls.
Qed.

Lemma stalls_BulkErase (w : Z) : stalls row (BulkErase w).
Proof.
  apply stalls_bind; [apply passes_PolledTransfer_local|]. intros _.
  apply stalls_bind; [apply passes_store|]. intros _.
  apply stalls_bind; [apply passes_PolledTransfer|]. intros _.
  apply stalls_wait_status.
Qed.

Lemma stalls_DieErase (w : Z) : 1 <= NumDie row -> stalls row (DieErase w).
Proof.
  intros Hd st H. unfold DieErase.
  rewrite (bind_Done _ _ _ _ _ (Flash_Config_row_spec st row (proj2 H))).
  destruct (Z.to_nat (NumDie row)) as [|n] eqn:E; [lia|].
  cbn [DieErase_loop]. revert st H.
  apply stalls_bind; [apply passes_SendBankSelect|]. intros _.
  apply stalls_bind; [apply passes_PolledTransfer_local|]. intros _.
  apply stalls_bind; [apply passes_store|]. intros _.
  apply stalls_bind; [apply passes_store|]. intros _.
  apply stalls_bind; [apply passes_store|]. intros _.
  apply stalls_bind; [apply passes_store|]. intros _.
  apply stalls_bind; [apply passes_PolledTransfer|]. intros _.
  apply stalls_first, stalls_wait_flag.
Qed.

Lemma stalls_erase_selected_chip (w : Z) :
  1 <= NumDie row -> stalls row (erase_selected_chip row w).
Proof.
  intros Hd. unfold erase_selected_chip.
  destruct (Z.eqb_spec (NumDie row) 1) as [E|E].
  - apply stalls_first. apply stalls_BulkErase.
  - apply stalls_bind; [apply passes_ret|]. intros _.
    destruct (Z.gtb_spec (NumDie row) 1); [|lia].
    now apply stalls_DieErase.
Qed.

End Starving.

Lemma table_row_NumDie (i : Z) (row : FlashInfo) :
  table_row i = Some row -> 1 <= NumDie row <= 4.
Proof.
  intros H. destruct (table_row_index _ _ H) as (n & Hn & -> & Hrow). clear H.
  do 33 (destruct n as [|n]; [injection Hrow as <-; simpl; lia|]).
  exfalso. simpl in Hn. lia.
Qed.

(** A program or an erase returns only after the device has reported that
    it is ready: while every answer keeps the write-in-progress bit set and
    the completion flag clear, [FlashWrite] and [FlashErase] go on polling,
    however many answers that takes, and neither gives up with a result. *)
Theorem program_and_erase_have_no_time_out (Q : XQspiPs) (a n c w : Z) (st : State)
    (row : FlashInfo) :
  wired Q = true -> active_row st = Some row ->
  forallb unready (bus st) = true ->
  0 <= n < 2 ^ 32 ->
  FlashWrite Q a n c w st = Stalled /\ FlashErase Q a n w st = Stalled.
Proof.
  intros Hw Hrow Hb Hn.
  assert (H : starving row st) by (split; assumption).
  split; [exact (stalls_FlashWrite row Q a n c w Hw st H)|].
  pose proof (table_row_NumDie _ _ Hrow) as Hd.
  unfold FlashErase.
  rewrite (bind_Done _ _ _ _ _ (Flash_Config_row_spec st row Hrow)).
  destruct (n =? u32 (NumSect row * SectSize row)).
  - refine (stalls_bind row _ _ _ _ st H).
    + apply passes_when. apply passes_select_page.
    + intros _. apply stalls_first. apply stalls_erase_selected_chip. lia.
  - rewrite (erase_NumSect_value _ _ a n Hrow Hn).
    pose proof (table_row_SectSize _ _ Hrow) as Hs.
    assert (0 <= n / SectSize row) by (apply Z.div_pos; lia).
    destruct (Z.to_nat _) as [|k] eqn:E.
    + destruct (boundary_overlap row a n); lia.
    + cbn [FlashErase_loop].
      refine (stalls_first row _ _ _ st H).
      now apply stalls_FlashErase_sector.
Qed.


(** ** The transfers of a full-device erase *)






(** ** The addresses of the sectors erased *)

Lemma erase_addresses_nth (row : FlashInfo) (n : nat) :
  forall (a : Z) (k : nat), 0 <= a < 2 ^ 32 -> (k < n)%nat ->
  nth k (erase_addresses n row a) 0 = u32 (a + Z.of_nat k * SectSize row).
Proof.
  induction n as [|n IH]; intros a k Ha Hk; [lia|].
  destruct k as [|k]; cbn [erase_addresses nth].
  - rewrite Z.mul_0_l, Z.add_0_r. symmetry. now apply u32_small.
  - rewrite IH by (try apply u32_range; lia).
    unfold u32. rewrite Zplus_mod_idemp_l. f_equal. lia.
Qed.

(** A partial erase sends one sector erase per turn of its loop, and the
    frame of turn [k] carries the translation of [Address + k * SectSize]
    (modulo 2^32), its bits 23..0 in three bytes: the address is advanced by
    the sector size from the address given, which is not rounded down to the
    start of its sector. *)
Theorem FlashErase_sector_addresses (Q : XQspiPs) (w a n : Z) (st : State)
    (row : FlashInfo) :
  wired Q = true -> active_row st = Some row ->
  0 <= a < 2 ^ 32 ->
  n <> u32 (NumSect row * SectSize row) ->
  (7 * Z.to_nat (erase_NumSect row a n) <= ready_count (bus st))%nat ->
  exists st' added,
    FlashErase Q a n w st = Done tt st' /\
    trace st' = trace st ++ added /\
    length (sector_erases added) = Z.to_nat (erase_NumSect row a n) /\
    forall k, (k < Z.to_nat (erase_NumSect row a n))%nat ->
      nth k (sector_erases added) wren_xfer =
      mkXfer (SEC_ERASE_CMD ::
              addr3_cast (real_addr Q row (u32 (a + Z.of_nat k * SectSize row))))
             SEC_ERASE_SIZE false.
Proof.
  intros Hw Hrow Ha Hn Hr.
  destruct (FlashErase_loop_spec Q w row (Z.to_nat (erase_NumSect row a n))
              a true None st Hw Hrow Ha Hr eq_refl ltac:(congruence))
    as (st' & xs & E & A & Hse & _).
  destruct A as (_ & _ & (added & T & X) & _).
  exists st', added. split; [|split; [exact T|]].
  - unfold FlashErase.
    rewrite (bind_Done _ _ _ _ _ (Flash_Config_row_spec _ _ Hrow)).
    apply Z.eqb_neq in Hn. rewrite Hn. exact E.
  - unfold sector_erases. rewrite X, Hse. split.
    + now rewrite length_map, erase_addresses_length.
    + intros k Hk.
      rewrite (nth_indep _ wren_xfer (sector_erase_xfer (real_addr Q row 0)))
        by (now rewrite length_map, erase_addresses_length).
      rewrite (map_nth (fun s => sector_erase_xfer (real_addr Q row s))).
      now rewrite erase_addresses_nth.
Qed.


(** ** What the engines leave alone *)

Section Confined.

Variable W : Z -> Prop.
Variable fixcr : bool.

Lemma confined_refl (st : State) : confined W fixcr st st.
Proof. repeat split. Qed.

Lemma confined_trans (st1 st2 st3 : State) :
  confined W fixcr st1 st2 -> confined W fixcr st2 st3 -> confined W fixcr st1 st3.
Proof.
  intros (M1 & I1 & C1 & F1) (M2 & I2 & C2 & F2). split; [|split; [|split]].
  - congruence.
  - congruence.
  - intros H. rewrite (C2 H). exact (C1 H).
  - intros p Hp. rewrite (F2 p Hp). exact (F1 p Hp).
Qed.

Lemma keeps_ret {A} (a : A) : keeps W fixcr (ret a).
Proof. intros st x st' E. inversion E. apply confined_refl. Qed.

Lemma keeps_bind {A B} (m : M A) (k : A -> M B) :
  keeps W fixcr m -> (forall a, keeps W fixcr (k a)) -> keeps W fixcr (bind m k).
Proof.
  intros Hm Hk st b st' E. unfold bind in E.
  destruct (m st) as [a st1| |] eqn:E1; try discriminate E.
  eapply confined_trans; [exact (Hm _ _ _ E1)|exact (Hk _ _ _ _ E)].
Qed.

Lemma keeps_when (c : bool) (m : M unit) : keeps W fixcr m -> keeps W fixcr (when c m).
Proof. destruct c; [trivial|]. intros _. apply keeps_ret. Qed.

Lemma keeps_get {A} (f : State -> A) : keeps W fixcr (get f).
Proof. intros st x st' E. inversion E. apply confined_refl. Qed.

Lemma keeps_assigned {A} (v : option A) : keeps W fixcr (assigned v).
Proof. destruct v; [apply keeps_ret|]. intros st x st' E. discriminate E. Qed.

Lemma keeps_Flash_Config_row : keeps W fixcr Flash_Config_row.
Proof. apply keeps_bind; [apply keeps_get|]. intros i. apply keeps_assigned. Qed.

Lemma keeps_store (p v : Z) : W p -> keeps W fixcr (store p v).
Proof.
  intros Hp st x st' E. inversion E. repeat split.
  intros q Hq. cbn [mem set_mem]. apply store_byte_other. intros ->. now apply Hq.
Qed.

Lemma keeps_exchange (x : Xfer) : keeps W fixcr (exchange x).
Proof.
  intros st r st' E. unfold exchange in E.
  destruct (bus st); [discriminate E|]. inversion E. repeat split.
Qed.

Lemma keeps_PolledTransfer_local (tx : list Z) (rx : bool) :
  keeps W fixcr (XQspiPs_PolledTransfer_local tx rx).
Proof.
  apply keeps_bind; [apply keeps_exchange|]. intros r. apply keeps_ret.
Qed.

Lemma keeps_PolledTransfer_send (p n : Z) :
  keeps W fixcr (XQspiPs_PolledTransfer p None n).
Proof.
  apply keeps_bind; [apply keeps_get|]. intros m.
  apply keeps_bind; [apply keeps_exchange|]. intros r.
  apply keeps_bind; [apply keeps_ret|]. intros _. apply keeps_ret.
Qed.

Lemma keeps_wait_status : keeps W fixcr wait_status.
Proof.
  intros st x st' E. unfold wait_status in E.
  remember (length (bus st)) as n eqn:Hn. clear Hn. revert st E.
  induction n as [|n IH]; intros st E; [discriminate E|].
  cbn [wait_status_loop] in E. unfold bind in E.
  destruct (XQspiPs_PolledTransfer_local ReadStatusCmd true st) as [d st1| |] eqn:E1;
    try discriminate E.
  apply keeps_PolledTransfer_local in E1.
  destruct (Z.land (nth 1 d 0) 1 =? 0).
  - inversion E. subst. exact E1.
  - eapply confined_trans; [exact E1|]. now apply IH.
Qed.

Lemma keeps_wait_flag : keeps W fixcr wait_flag.
Proof.
  intros st x st' E. unfold wait_flag in E.
  remember (length (bus st)) as n eqn:Hn. clear Hn. revert st E.
  induction n as [|n IH]; intros st E; [discriminate E|].
  cbn [wait_flag_loop] in E. unfold bind in E.
  destruct (XQspiPs_PolledTransfer_local ReadFlagSRCmd true st) as [d st1| |] eqn:E1;
    try discriminate E.
  apply keeps_PolledTransfer_local in E1.
  destruct (Z.land (nth 1 d 0) 128 =? 128).
  - inversion E. subst. exact E1.
  - eapply confined_trans; [exact E1|]. now apply IH.
Qed.

Lemma keeps_read_flag_status (row : FlashInfo) :
  keeps W fixcr (read_flag_status_if_multi_die row).
Proof.
  apply keeps_bind; [apply keeps_get|]. intros make. apply keeps_when.
  apply keeps_bind; [apply keeps_PolledTransfer_local|]. intros; apply keeps_ret.
Qed.

Variable w : Z.
Hypothesis W_header : forall p, header_at w p -> W p.

Lemma W_offset (o : Z) : 0 <= o < 4 -> W (w + o).
Proof. intros Ho. apply W_header. unfold header_at. lia. Qed.

Lemma keeps_SendBankSelect (b : Z) : keeps W fixcr (SendBankSelect w b).
Proof.
  apply keeps_bind; [apply keeps_get|]. intros make.
  apply keeps_bind.
  - apply keeps_when.
    apply keeps_bind; [apply keeps_PolledTransfer_local|]. intros _.
    apply keeps_bind; [apply keeps_store, W_offset; unfold COMMAND_OFFSET; lia|]. intros _.
    apply keeps_bind; [apply keeps_store, W_offset; unfold ADDRESS_1_OFFSET; lia|]. intros _.
    apply keeps_bind; [apply keeps_PolledTransfer_send|]. intros _. apply keeps_ret.
  - intros _. apply keeps_bind; [|intros; apply keeps_ret].
    apply keeps_when.
    apply keeps_bind; [apply keeps_store, W_offset; unfold COMMAND_OFFSET; lia|]. intros _.
    apply keeps_bind; [apply keeps_store, W_offset; unfold ADDRESS_1_OFFSET; lia|]. intros _.
    apply keeps_bind; [apply keeps_PolledTransfer_send|]. intros _. apply keeps_ret.
Qed.

Lemma keeps_send_and_wait {B} (c a1 a2 a3 count : Z) (row : FlashInfo) (k : M B) :
  keeps W fixcr k ->
  keeps W fixcr
    (XQspiPs_PolledTransfer_local [WRITE_ENABLE_CMD] false ;;;
     store (w + COMMAND_OFFSET) c ;;;
     store (w + ADDRESS_1_OFFSET) a1 ;;;
     store (w + ADDRESS_2_OFFSET) a2 ;;;
     store (w + ADDRESS_3_OFFSET) a3 ;;;
     XQspiPs_PolledTransfer w None count ;;;
     read_flag_status_if_multi_die row ;;;
     wait_status ;;;
     k).
Proof.
  intros Hk.
  apply keeps_bind; [apply keeps_PolledTransfer_local|]. intros _.
  apply keeps_bind; [apply keeps_store, W_offset; unfold COMMAND_OFFSET; lia|]. intros _.
  apply keeps_bind; [apply keeps_store, W_offset; unfold ADDRESS_1_OFFSET; lia|]. intros _.
  apply keeps_bind; [apply keeps_store, W_offset; unfold ADDRESS_2_OFFSET; lia|]. intros _.
  apply keeps_bind; [apply keeps_store, W_offset; unfold ADDRESS_3_OFFSET; lia|]. intros _.
  apply keeps_bind; [apply keeps_PolledTransfer_send|]. intros _.
  apply keeps_bind; [apply keeps_read_flag_status|]. intros _.
  apply keeps_bind; [apply keeps_wait_status|]. intros _.
  exact Hk.
Qed.

Variable Q : XQspiPs.
Hypothesis fixcr_single : fixcr = true -> is_stacked Q = false.

Lemma keeps_GetRealAddr (a : Z) : keeps W fixcr (GetRealAddr Q a).
Proof.
  unfold GetRealAddr. unfold is_stacked in fixcr_single.
  destruct (Config_ConnectionMode Q); try apply keeps_ret.
  intros st x st' E.
  assert (Hcr : fixcr = true -> LqspiCr st' = LqspiCr st)
    by (intros H; specialize (fixcr_single H); discriminate).
  unfold bind, XQspiPs_GetLqspiConfigReg, get in E.
  destruct (Flash_Config_row st) as [row st1| |] eqn:E1; try discriminate E.
  apply keeps_Flash_Config_row in E1. destruct E1 as (M1 & I1 & _ & F1).
  destruct (negb (Z.land a (FlashDeviceSize row) =? 0)); inversion E; subst;
    repeat split; assumption.
Qed.

Lemma keeps_FlashWrite (a n c : Z) : keeps W fixcr (FlashWrite Q a n c w).
Proof.
  unfold FlashWrite.
  apply keeps_bind; [apply keeps_GetRealAddr|]. intros r.
  apply keeps_bind; [apply keeps_assigned|]. intros RealAddr.
  apply keeps_bind; [apply keeps_Flash_Config_row|]. intros row.
  apply keeps_bind.
  - apply keeps_when. apply keeps_bind; [apply keeps_SendBankSelect|].
    intros; apply keeps_ret.
  - intros _. apply keeps_send_and_wait. apply keeps_read_flag_status.
Qed.

Lemma keeps_FlashErase_sector (a : Z) (flag : bool) (bsel : option Z) :
  keeps W fixcr (FlashErase_sector Q w a flag bsel).
Proof.
  unfold FlashErase_sector.
  apply keeps_bind; [apply keeps_GetRealAddr|]. intros r.
  apply keeps_bind; [apply keeps_assigned|]. intros RealAddr.
  apply keeps_bind; [apply keeps_Flash_Config_row|]. intros row.
  apply keeps_bind.
  { destruct (flag && (FlashDeviceSize row >? SIXTEENMB)); [|apply keeps_ret].
    apply keeps_bind; [apply keeps_SendBankSelect|]. intros; apply keeps_ret. }
  intros init. apply keeps_bind.
  { destruct (FlashDeviceSize row >? SIXTEENMB); [|apply keeps_ret].
    apply keeps_bind; [apply keeps_assigned|]. intros b.
    destruct (negb (b =? RealAddr / SIXTEENMB)); [|apply keeps_ret].
    apply keeps_bind; [apply keeps_SendBankSelect|]. intros; apply keeps_ret. }
  intros BankSel'. apply keeps_send_and_wait.
  apply keeps_bind; [apply keeps_read_flag_status|]. intros; apply keeps_ret.
Qed.

Lemma keeps_FlashErase_loop (n : nat) :
  forall (a : Z) (flag : bool) (bsel : option Z),
  keeps W fixcr (FlashErase_loop n Q w a flag bsel).
Proof.
  induction n as [|n IH]; intros a flag bsel; cbn [FlashErase_loop]; [apply keeps_ret|].
  apply keeps_bind; [apply keeps_FlashErase_sector|]. intros s.
  apply keeps_bind; [apply keeps_Flash_Config_row|]. intros row. apply IH.
Qed.

Lemma keeps_BulkErase : keeps W fixcr (BulkErase w).
Proof.
  apply keeps_bind; [apply keeps_PolledTransfer_local|]. intros _.
  apply keeps_bind; [apply keeps_store, W_offset; unfold COMMAND_OFFSET; lia|]. intros _.
  apply keeps_bind; [apply keeps_PolledTransfer_send|]. intros _.
  apply keeps_wait_status.
Qed.

Lemma keeps_DieErase : keeps W fixcr (DieErase w).
Proof.
  apply keeps_bind; [apply keeps_Flash_Config_row|]. intros row.
  generalize 0 at 1. induction (Z.to_nat (NumDie row)) as [|n IH]; intros die;
    cbn [DieErase_loop]; [apply keeps_ret|].
  apply keeps_bind; [apply keeps_SendBankSelect|]. intros _.
  apply keeps_bind; [apply keeps_PolledTransfer_local|]. intros _.
  apply keeps_bind; [apply keeps_store, W_offset; unfold COMMAND_OFFSET; lia|]. intros _.
  apply keeps_bind; [apply keeps_store, W_offset; unfold ADDRESS_1_OFFSET; lia|]. intros _.
  apply keeps_bind; [apply keeps_store, W_offset; unfold ADDRESS_2_OFFSET; lia|]. intros _.
  apply keeps_bind; [apply keeps_store, W_offset; unfold ADDRESS_3_OFFSET; lia|]. intros _.
  apply keeps_bind; [apply keeps_PolledTransfer_send|]. intros _.
  apply keeps_bind; [apply keeps_wait_flag|]. intros _.
  apply IH.
Qed.

Lemma keeps_select_page (v : Z -> Z) :
  keeps W fixcr (when (is_stacked Q)
                   (LqspiCr <- XQspiPs_GetLqspiConfigReg ;;
                    XQspiPs_SetLqspiConfigReg (v LqspiCr) ;;;
                    XQspiPs_SetSlaveSelect)).
Proof.
  destruct (is_stacked Q) eqn:Es; [|apply keeps_ret].
  intros st x st' E. cbn [when] in E. rewrite select_page_spec in E. inversion E.
  repeat split. intros H. specialize (fixcr_single H). discriminate.
Qed.

Lemma keeps_FlashErase (a n : Z) : keeps W fixcr (FlashErase Q a n w).
Proof.
  unfold FlashErase.
  apply keeps_bind; [apply keeps_Flash_Config_row|]. intros row.
  destruct (n =? u32 (NumSect row * SectSize row)); [|apply keeps_FlashErase_loop].
  assert (Hchip : keeps W fixcr (erase_selected_chip row w)).
  { apply keeps_bind; [apply keeps_when, keeps_BulkErase|]. intros _.
    apply keeps_when, keeps_DieErase. }
  apply keeps_bind; [apply (keeps_select_page (fun cr => Z.land cr _))|]. intros _.
  apply keeps_bind; [exact Hchip|]. intros _.
  fold (is_stacked Q).
  destruct (is_stacked Q) eqn:Es; [|apply keeps_ret].
  intros st x st' E. cbn [when] in E.
  change ((LqspiCr <- XQspiPs_GetLqspiConfigReg ;;
           XQspiPs_SetLqspiConfigReg (Z.lor LqspiCr XQSPIPS_LQSPI_CR_U_PAGE_MASK) ;;;
           XQspiPs_SetSlaveSelect ;;;
           erase_selected_chip row w) st)
    with (erase_selected_chip row w
            (log (EvSlaveSelect (Z.lor (LqspiCr st) XQSPIPS_LQSPI_CR_U_PAGE_MASK))
               (set_LqspiCr (Z.lor (LqspiCr st) XQSPIPS_LQSPI_CR_U_PAGE_MASK) st))) in E.
  apply Hchip in E. destruct E as (M1 & I1 & C1 & F1).
  repeat split; try assumption.
  intros H. specialize (fixcr_single H). discriminate.
Qed.

End Confined.

Lemma stacked_or_fixed (Q : XQspiPs) : negb (is_stacked Q) = true -> is_stacked Q = false.
Proof. now destruct (is_stacked Q). Qed.

(** A page program returns once the device is ready and, besides the bus
    traffic, changes nothing but the four header bytes at the start of the
    buffer it is given: the payload behind them, the rest of RAM and the
    identification of the part stay as they were, and so does the LQSPI
    configuration register unless the topology is Stacked. *)
Theorem FlashWrite_footprint (Q : XQspiPs) (a n c w : Z) (st : State) (row : FlashInfo) :
  wired Q = true -> active_row st = Some row ->
  0 <= a < 2 ^ 32 -> 0 <= n < 2 ^ 32 - 4 -> 0 <= c < 256 ->
  (7 <= ready_count (bus st))%nat ->
  exists st',
    FlashWrite Q a n c w st = Done tt st' /\
    FlashMake st' = FlashMake st /\
    FCTIndex st' = FCTIndex st /\
    (is_stacked Q = false -> LqspiCr st' = LqspiCr st) /\
    (forall p, ~ (w <= p < w + 4) -> mem st' p = mem st p).
Proof.
  intros Hw Hrow Ha Hn Hc Hr.
  destruct (FlashWrite_spec Q a n c w st row Hw Hrow Ha Hn Hc Hr)
    as (st' & _ & _ & _ & _ & E & _).
  exists st'. split; [exact E|].
  destruct (keeps_FlashWrite (header_at w) (negb (is_stacked Q)) w
              (fun p H => H) Q (stacked_or_fixed Q) a n c _ _ _ E)
    as (M1 & I1 & C1 & F1).
  repeat split; try assumption.
  intros H. apply C1. now rewrite H.
Qed.

(** An erase, partial or full, returns once the device is ready and,
    besides the bus traffic, changes nothing but the four header bytes at the
    start of the buffer it is given, and the LQSPI configuration register in
    Stacked topology. *)
Theorem FlashErase_footprint (Q : XQspiPs) (a n w : Z) (st : State) (row : FlashInfo) :
  wired Q = true -> active_row st = Some row ->
  0 <= a < 2 ^ 32 ->
  (erase_budget row a n <= ready_count (bus st))%nat ->
  exists st',
    FlashErase Q a n w st = Done tt st' /\
    FlashMake st' = FlashMake st /\
    FCTIndex st' = FCTIndex st /\
    (is_stacked Q = false -> LqspiCr st' = LqspiCr st) /\
    (forall p, ~ (w <= p < w + 4) -> mem st' p = mem st p).
Proof.
  intros Hw Hrow Ha Hr.
  destruct (FlashErase_any_spec Q w a n st row Hw Hrow Ha Hr) as (st' & _ & E & _).
  exists st'. split; [exact E|].
  destruct (keeps_FlashErase (header_at w) (negb (is_stacked Q)) w
              (fun p H => H) Q (stacked_or_fixed Q) a n _ _ _ E)
    as (M1 & I1 & C1 & F1).
  repeat split; try assumption.
  intros H. apply C1. now rewrite H.
Qed.


(** ** The image that [update_flash] programs *)

Lemma load_bytes_shift (m m' : Z -> Z) (p p' n : Z) :
  (forall i, 0 <= i < n -> m (p + i) = m' (p' + i)) ->
  load_bytes m p n = load_bytes m' p' n.
Proof.
  intros H. unfold load_bytes. apply map_ext_in. intros i Hi.
  apply in_seq in Hi. apply H. lia.
Qed.

Lemma load_bytes_nth (m : Z -> Z) (p n i : Z) :
  0 <= i < n -> nth (Z.to_nat i) (load_bytes m p n) 0 = m (p + i).
Proof.
  intros Hi. unfold load_bytes.
  rewrite (nth_indep _ 0 ((fun i => m (p + Z.of_nat i)) 0%nat))
    by (rewrite length_map, length_seq; lia).
  rewrite (map_nth (fun i => m (p + Z.of_nat i))).
  rewrite seq_nth by lia. f_equal. lia.
Qed.

Lemma page_numbers_length (n : nat) (Page : Z) : length (page_numbers n Page) = n.
Proof. revert Page. induction n as [|n IH]; intros Page; simpl; [|rewrite IH]; reflexivity. Qed.

Lemma page_numbers_nth (n : nat) :
  forall (Page : Z) (k : nat), (k < n)%nat ->
  nth k (page_numbers n Page) 0 = Page + Z.of_nat k.
Proof.
  induction n as [|n IH]; intros Page k Hk; [lia|].
  destruct k as [|k]; cbn [page_numbers nth]; [lia|].
  rewrite IH by lia. lia.
Qed.

Lemma is_page_program_program_xfer (RealAddr : Z) (payload : list Z) (n : Z) :
  is_page_program (program_xfer WRITE_CMD RealAddr payload n) = true.
Proof. reflexivity. Qed.

(** The page programs of the page loop, with their payloads: [img] is the
    image as it lies behind the four header bytes of the write buffer. *)
Lemma update_flash_pages_payload (row : FlashInfo) (write_buffer : Z) (img : Z -> Z)
    (n : nat) :
  forall (Page : Z) (st : State),
  wired QspiInstance = true -> active_row st = Some row ->
  0 <= Page -> Page + Z.of_nat n <= 2 ^ 21 ->
  (7 * n <= ready_count (bus st))%nat ->
  (forall x, Page * PageSize row <= x < (Page + Z.of_nat n) * PageSize row ->
             mem st (write_buffer + 4 + x) = img x) ->
  exists st' xs,
    update_flash_pages n write_buffer Page st = Done tt st' /\
    advances (7 * n) st st' xs /\
    filter is_page_program xs =
      map (fun P => program_xfer WRITE_CMD
                      (real_addr QspiInstance row (P * PageSize row + BIN_START_ADDRESS))
                      (load_bytes img (P * PageSize row) (PageSize row)) (PageSize row))
          (page_numbers n Page).
Proof.
  induction n as [|n IH]; intros Page st Hw Hrow HP Hn Hr Himg.
  - exists st, []. split; [reflexivity|]. split; [apply advances_refl|reflexivity].
  - pose proof (table_row_PageSize _ _ Hrow) as Hps.
    assert (Hpp : 0 <= Page * PageSize row < 2 ^ 32) by nia.
    assert (Haddr : u32 (u32 (Page * PageSize row) + BIN_START_ADDRESS) =
                    Page * PageSize row + BIN_START_ADDRESS).
    { unfold BIN_START_ADDRESS. rewrite !Z.add_0_r.
      rewrite (u32_small (Page * PageSize row)) by lia.
      now rewrite u32_small by lia. }
    set (w := write_buffer + u32 (Page * PageSize row)).
    destruct (FlashWrite_spec QspiInstance
                (Page * PageSize row + BIN_START_ADDRESS) (PageSize row) WRITE_CMD
                w st row Hw Hrow)
      as (st1 & pre & busy & r & post & E1 & A1 & _).
    { unfold BIN_START_ADDRESS. nia. }
    { lia. }
    { unfold WRITE_CMD. lia. }
    { lia. }
    assert (Hrow1 : active_row st1 = Some row)
      by (now rewrite (active_row_advances _ _ _ _ A1)).
    destruct (keeps_FlashWrite (header_at w) false w (fun p H => H) QspiInstance
                ltac:(discriminate) _ _ _ _ _ _ E1) as (_ & _ & _ & F1).
    destruct (IH (Page + 1) st1 Hw Hrow1) as (st2 & xs & E2 & A2 & P2); try lia.
    { destruct A1 as (_ & _ & _ & _ & R). lia. }
    { intros x Hx. rewrite F1.
      - apply Himg. nia.
      - unfold header_at. subst w. rewrite u32_small by lia. nia. }
    pose proof (advances_trans _ _ _ _ _ _ _ A1 A2) as Aall.
    eexists st2, _. split; [|split].
    + cbn [update_flash_pages].
      rewrite (bind_Done _ _ _ _ _ (Flash_Config_row_spec _ _ Hrow)).
      rewrite Haddr. fold w. rewrite (bind_Done _ _ _ _ _ E1). exact E2.
    + replace (7 * S n)%nat with (7 + 7 * n)%nat by lia. exact Aall.
    + rewrite !filter_app, P2.
      cbn [page_numbers map].
      match goal with |- _ = ?h :: ?l => change (h :: l) with ([h] ++ l) end.
      f_equal.
      unfold write_head. rewrite !filter_app.
      rewrite (filter_repeat_none _ status_xfer) by reflexivity.
      rewrite flag_xfers_page_programs.
      assert (Hb : filter is_page_program
                (if FlashDeviceSize row >? SIXTEENMB
                 then bank_select_xfers (FlashMake st)
                        (real_addr QspiInstance row
                           (Page * PageSize row + BIN_START_ADDRESS) / SIXTEENMB)
                 else []) = [])
        by (destruct (FlashDeviceSize row >? SIXTEENMB);
            [apply bank_select_xfers_page_programs|reflexivity]).
      rewrite Hb. cbn [app filter].
      change (is_page_program wren_xfer) with false.
      rewrite is_page_program_program_xfer. cbn [app].
      do 2 f_equal.
      apply load_bytes_shift. intros i Hi.
      subst w. rewrite u32_small by lia.
      replace (write_buffer + Page * PageSize row + 4 + i)
        with (write_buffer + 4 + (Page * PageSize row + i)) by lia.
      apply Himg. nia.
Qed.

(** [update_flash] programs the image it was given: it returns, and page
    [P] of the image is sent as the payload of the [P]-th page program, byte
    for byte as the source buffer held it on entry (for the bytes of the
    last page that lie within [length]), provided the source does not
    overlap the copy and the command header of the erase does not lie inside
    the copy.  The header bytes that a page program stores in front of its
    payload fall on bytes of the page before, which has been sent by then. *)
Theorem update_flash_programs_image (buffer read_buffer write_buffer len : Z)
    (st : State) (row : FlashInfo) :
  wired QspiInstance = true -> active_row st = Some row ->
  0 <= len < 2 ^ 28 ->
  (update_flash_budget row len <= ready_count (bus st))%nat ->
  buffer + len <= write_buffer + 4 \/ write_buffer + 4 + len <= buffer ->
  WriteBuffer <= write_buffer \/ write_buffer + 4 + len <= WriteBuffer ->
  exists st' added,
    update_flash buffer read_buffer write_buffer len st = Done tt st' /\
    trace st' = trace st ++ added /\
    length (page_programs added) = Z.to_nat (len / PageSize row + 1) /\
    forall P i, 0 <= P <= len / PageSize row -> 0 <= i < PageSize row ->
      P * PageSize row + i < len ->
      nth (Z.to_nat (4 + i)) (xf_tx (nth (Z.to_nat P) (page_programs added) wren_xfer)) 0 =
      mem st (buffer + (P * PageSize row + i)).
Proof.
  intros Hw Hrow Hlen Hr _ Hwb.
  pose proof (table_row_PageSize _ _ Hrow) as Hps.
  unfold update_flash_budget in Hr.
  set (pages := len / PageSize row + 1) in *.
  assert (Hpages : 0 < pages <= 2 ^ 20 + 1).
  { subst pages. assert (0 <= len / PageSize row) by (apply Z.div_pos; lia).
    assert (len / PageSize row < 2 ^ 20 + 1)
      by (apply Z.div_lt_upper_bound; lia).
    lia. }
  set (st0 := set_mem (fun a => if (write_buffer + 4 <=? a) && (a <? write_buffer + 4 + len)
                                then mem st (buffer + (a - (write_buffer + 4)))
                                else mem st a) st).
  assert (E0 : memcpy (write_buffer + 4) buffer len st = Done tt st0) by reflexivity.
  assert (Hcopy : forall x, 0 <= x < len -> mem st0 (write_buffer + 4 + x) = mem st (buffer + x)).
  { intros x Hx. subst st0. cbn [mem set_mem].
    destruct (Z.leb_spec (write_buffer + 4) (write_buffer + 4 + x)); [|lia].
    destruct (Z.ltb_spec (write_buffer + 4 + x) (write_buffer + 4 + len)); [|lia].
    cbn [andb]. f_equal. lia. }
  assert (Hrow0 : active_row st0 = Some row) by exact Hrow.
  destruct (FlashErase_any_spec QspiInstance WriteBuffer BIN_START_ADDRESS len st0 row
              Hw Hrow0 ltac:(unfold BIN_START_ADDRESS; lia))
    as (st1 & xs1 & E1 & A1 & P1).
  { subst st0. cbn [bus set_mem]. lia. }
  destruct (keeps_FlashErase (header_at WriteBuffer) false WriteBuffer (fun p H => H)
              QspiInstance ltac:(discriminate) _ _ _ _ _ E1) as (_ & _ & _ & F1).
  assert (Hrow1 : active_row st1 = Some row)
    by (now rewrite (active_row_advances _ _ _ _ A1)).
  destruct (update_flash_pages_payload row write_buffer
              (fun x => mem st1 (write_buffer + 4 + x)) (Z.to_nat pages) 0 st1 Hw Hrow1)
    as (st2 & xs2 & E2 & A2 & P2); try lia.
  { destruct A1 as (_ & _ & _ & _ & R). subst st0. cbn [bus set_mem] in R. lia. }
  pose proof (advances_trans _ _ _ _ _ _ _ A1 A2) as A12.
  assert (Hrow2 : active_row st2 = Some row)
    by (now rewrite (active_row_advances _ _ _ _ A2)).
  assert (Hk : BIN_START_ADDRESS + len <=
               (BIN_START_ADDRESS / SIXTEENMB + Z.of_nat (read_turns BIN_START_ADDRESS len))
               * SIXTEENMB).
  { destruct (Z.eq_dec len 0) as [->|Hnz]; [reflexivity|].
    apply read_turns_enough; unfold BIN_START_ADDRESS; lia. }
  pose proof (ready_count_length (bus st2)) as Hlen2.
  destruct (FlashRead_loop_spec QspiInstance QUAD_READ_CMD WriteBuffer read_buffer len row
              (read_turns BIN_START_ADDRESS len) BIN_START_ADDRESS len
              (length (bus st2)) st2 Hw Hrow2)
    as (st3 & xs3 & E3 & A3 & _ & _ & P3);
    try (unfold BIN_START_ADDRESS, QUAD_READ_CMD; lia); try exact Hk.
  { destruct A12 as (_ & _ & _ & _ & R). subst st0. cbn [bus set_mem] in R. lia. }
  { destruct A12 as (_ & _ & _ & _ & R). subst st0. cbn [bus set_mem] in R. lia. }
  destruct A1 as (_ & _ & (erased & T1 & X1) & _ & _).
  destruct A2 as (_ & _ & (ad2 & T2 & X2) & _ & _).
  destruct A3 as (_ & _ & (ad3 & T3 & X3) & _ & _).
  assert (Hpp : page_programs (erased ++ ad2 ++ ad3) =
                map (fun P => program_xfer WRITE_CMD
                       (real_addr QspiInstance row (P * PageSize row + BIN_START_ADDRESS))
                       (load_bytes (fun x => mem st1 (write_buffer + 4 + x))
                                   (P * PageSize row) (PageSize row)) (PageSize row))
                    (page_numbers (Z.to_nat pages) 0)).
  { unfold page_programs. rewrite !transfers_app, !filter_app, X1, X2, X3, P1, P3, app_nil_r.
    exact P2. }
  exists st3, (erased ++ ad2 ++ ad3).
  split; [|split; [|split]].
  - unfold update_flash.
    rewrite (bind_Done _ _ _ _ _ E0).
    rewrite (bind_Done _ _ _ _ _ (Flash_Config_row_spec _ _ Hrow0)).
    rewrite (bind_Done _ _ _ _ _ E1).
    fold pages. rewrite (u32_small pages) by lia. rewrite to_int_small by lia.
    rewrite (bind_Done _ _ _ _ _ E2).
    unfold FlashRead. exact E3.
  - rewrite T3, T2, T1. subst st0. cbn [trace set_mem]. now rewrite <- !app_assoc.
  - rewrite Hpp. now rewrite length_map, page_numbers_length.
  - intros P i HP Hi Hin. rewrite Hpp.
    set (f := fun P => program_xfer _ _ _ _).
    rewrite (nth_indep _ wren_xfer (f 0))
      by (rewrite length_map, page_numbers_length; lia).
    rewrite (map_nth f), page_numbers_nth by lia.
    subst f. cbv beta. cbn [program_xfer xf_tx addr3_masked app].
    replace (Z.to_nat (4 + i)) with (S (S (S (S (Z.to_nat i))))) by lia.
    cbn [nth]. rewrite load_bytes_nth by lia.
    rewrite Z2Nat.id by lia. rewrite Z.add_0_l.
    rewrite F1 by (unfold header_at; lia).
    apply Hcopy. lia.
Qed.


(** ** Read: where the bytes end up *)

Lemma bank_select_xfers_length (make b b' : Z) :
  length (bank_select_xfers make b) = length (bank_select_xfers make b').
Proof.
  unfold bank_select_xfers.
  destruct (make =? MICRON_ID_BYTE0), (make =? SPANSION_ID_BYTE0); reflexivity.
Qed.

Lemma SendBankSelect_exact (w b : Z) (st : State) :
  (length (bank_select_xfers (FlashMake st) b) <= length (bus st))%nat ->
  exists st',
    SendBankSelect w b st = Done XST_SUCCESS st' /\
    bus st' = skipn (length (bank_select_xfers (FlashMake st) b)) (bus st) /\
    confined (header_at w) true st st'.
Proof.
  intros Hlen.
  assert (Hdone : exists st', SendBankSelect w b st = Done XST_SUCCESS st' /\
            bus st' = skipn (length (bank_select_xfers (FlashMake st) b)) (bus st)).
  { unfold SendBankSelect, bank_select_xfers in *. rewrite bind_get.
    destruct (Z.eqb_spec (FlashMake st) MICRON_ID_BYTE0) as [Em|Em];
      destruct (Z.eqb_spec (FlashMake st) SPANSION_ID_BYTE0) as [Es|Es];
      try (rewrite Em in Es; discriminate Es); cbn [when app length] in *.
    - destruct (bus st) as [|r1 [|r2 rest]] eqn:Eb; cbn [length] in Hlen; try lia.
      unfold XQspiPs_PolledTransfer_local, XQspiPs_PolledTransfer, exchange, store,
        modify, bind, get. rewrite Eb. cbn.
      eexists. split; reflexivity.
    - destruct (bus st) as [|r1 rest] eqn:Eb; cbn [length] in Hlen; try lia.
      unfold XQspiPs_PolledTransfer_local, XQspiPs_PolledTransfer, exchange, store,
        modify, bind, get, ret. cbn. rewrite Eb. cbn.
      eexists. split; reflexivity.
    - exists st. split; reflexivity. }
  destruct Hdone as (st' & E & Hb). exists st'. split; [exact E|]. split; [exact Hb|].
  exact (keeps_SendBankSelect (header_at w) true w (fun p H => H) b _ _ _ E).
Qed.

Lemma select_bank_if_big_exact (w bank : Z) (row : FlashInfo) (st : State) :
  (select_transfers row (FlashMake st) <= length (bus st))%nat ->
  exists st',
    bus st' = skipn (select_transfers row (FlashMake st)) (bus st) /\
    confined (header_at w) true st st' /\
    forall B (k : M B),
      (when (FlashDeviceSize row >? SIXTEENMB)
         (SendBankSelect w bank ;;; ret tt) ;;; k) st = k st'.
Proof.
  unfold select_transfers. intros Hlen.
  destruct (FlashDeviceSize row >? SIXTEENMB); cbn [when].
  - rewrite (bank_select_xfers_length _ 0 bank) in *.
    destruct (SendBankSelect_exact w bank st Hlen) as (st' & E & Hb & Hc).
    exists st'. split; [exact Hb|]. split; [exact Hc|].
    intros B k.
    now rewrite (bind_Done _ (fun _ => k) st st' tt)
      by (now rewrite (bind_Done _ _ _ _ _ E)).
  - exists st. split; [reflexivity|]. split; [apply confined_refl|].
    intros B k. now rewrite bind_ret.
Qed.

Lemma PolledTransfer_recv_exact (p q n : Z) (st : State) (r : Response)
    (rest : list Response) :
  bus st = r :: rest ->
  XQspiPs_PolledTransfer p (Some q) n st =
  Done (fst r)
       (set_mem (store_bytes (mem st) q n (snd r))
          (log (EvTransfer (mkXfer (load_bytes (mem st) p n) n true)) (set_bus rest st))).
Proof.
  intros E. unfold XQspiPs_PolledTransfer, exchange, bind, get, modify. now rewrite E.
Qed.

(** The shift of the received frame: the [n] bytes from index [i] on are
    replaced by the bytes [s] places further on. *)
Lemma shift_loop_mem (n : nat) (R s : Z) :
  forall (i : Z) (st : State),
  0 < s -> 0 <= i -> i + Z.of_nat n + s < 2 ^ 32 ->
  exists m,
    shift_loop n R i s st = Done tt (set_mem m st) /\
    (forall x, R + i <= x < R + i + Z.of_nat n -> m x = u8 (mem st (x + s))) /\
    (forall x, ~ (R + i <= x < R + i + Z.of_nat n) -> m x = mem st x).
Proof.
  induction n as [|n IH]; intros i st Hs Hi Hn.
  - exists (mem st). split; [now destruct st|]. split; [intros x Hx; lia|reflexivity].
  - cbn [shift_loop]. unfold load. rewrite bind_get, bind_store.
    rewrite (u32_small (i + s)), (u32_small (i + 1)) by lia.
    set (st1 := set_mem (store_byte (mem st) (R + i) (mem st (R + (i + s)))) st).
    destruct (IH (i + 1) st1 Hs ltac:(lia) ltac:(lia)) as (m & E & Hin & Hout).
    exists m. split; [exact E|]. split.
    + intros x Hx. destruct (Z.eq_dec x (R + i)) as [->|Hne].
      * rewrite Hout by lia. subst st1. cbn [mem set_mem].
        rewrite store_byte_same by reflexivity. f_equal. f_equal. lia.
      * rewrite Hin by lia. subst st1. cbn [mem set_mem].
        rewrite store_byte_other by lia. reflexivity.
    + intros x Hx. rewrite Hout by lia. subst st1. cbn [mem set_mem].
      apply store_byte_other. lia.
Qed.

Lemma u8_u8 (x : Z) : u8 (u8 x) = u8 x.
Proof. unfold u8. apply Z.mod_mod. lia. Qed.

Lemma shift_size_bounds (c : Z) : 4 <= shift_size c <= 5.
Proof. unfold shift_size, OVERHEAD_SIZE, DUMMY_SIZE. destruct (has_dummy c); lia. Qed.


Lemma FlashRead_loop_data (Q : XQspiPs) (c W R T : Z) (row : FlashInfo) (make : Z)
    (k : nat) :
  forall (A B : Z) (turns : nat) (st : State),
  wired Q = true -> active_row st = Some row -> FlashMake st = make ->
  0 <= A -> 0 <= B < 2 ^ 31 -> (0 < B -> A + B < 2 ^ 28) ->
  A + B <= (A / SIXTEENMB + Z.of_nat k) * SIXTEENMB ->
  0 <= c < 256 -> B <= T < 2 ^ 31 ->
  (k * S (select_transfers row make) <= length (bus st))%nat -> (k <= turns)%nat ->
  W + 4 <= R \/ R + T + shift_size c <= W ->
  exists st',
    FlashRead_loop turns Q A B c W R T st = Done tt st' /\
    FlashMake st' = make /\ FCTIndex st' = FCTIndex st /\
    (forall x, ~ header_at W x -> ~ (R + (T - B) <= x < R + T + shift_size c) ->
               mem st' x = mem st x) /\
    (forall j a p i,
       nth_error (read_plan k A B) j = Some (a, p) -> 0 <= i < p ->
       mem st' (R + (T - B) + chunk_offset (read_plan k A B) j + i) =
       u8 (nth (Z.to_nat (shift_size c + i))
               (snd (nth j (read_answers k (select_transfers row make) (bus st))
                           (XST_SUCCESS, []))) 0)).
Proof.
  induction k as [|k IH]; intros A B turns st Hw Hrow Hmk HA HB HAB Hk Hc HT Hbus Ht Hdis.
  - assert (B = 0).
    { pose proof (Z.div_mod A SIXTEENMB ltac:(unfold SIXTEENMB; lia)) as Hdm.
      pose proof (Z.mod_pos_bound A SIXTEENMB ltac:(unfold SIXTEENMB; lia)) as Hm.
      cbn [Z.of_nat] in Hk. lia. }
    subst B. exists st. split; [now destruct turns|].
    repeat split; try assumption.
    intros j a p i Hj. destruct j; discriminate Hj.
  - destruct (Z.ltb_spec 0 B) as [Hpos|Hzero].
    2:{ assert (B = 0) by lia. subst B. exists st. split; [now destruct turns|].
        repeat split; try assumption.
        intros j a p i Hj. cbn in Hj. destruct j; discriminate Hj. }
    destruct turns as [|turns]; [lia|].
    specialize (HAB Hpos).
    pose proof (read_RealByteCnt_min A B HA Hpos HAB) as Hp.
    pose proof (next_bank_bounds A HA) as (Hnb & Hnbdiv).
    set (p := Z.min B (next_bank A - A)) in *.
    assert (Hprange : 0 < p <= B) by (subst p; lia).
    set (sel := select_transfers row make) in *.
    set (start := T - B).
    assert (Hstart : u32 (T - B) = start) by (apply u32_small; subst start; lia).
    (* one turn *)
    destruct (GetRealAddr_spec Q A st row Hw Hrow ltac:(lia)) as (st1 & E1 & A1 & B1 & M1).
    assert (Hrow1 : active_row st1 = Some row)
      by (now rewrite (active_row_advances _ _ _ _ A1)).
    assert (Hmk1 : FlashMake st1 = make) by (destruct A1 as (H & _); congruence).
    assert (Hix1 : FCTIndex st1 = FCTIndex st) by (destruct A1 as (_ & H & _); exact H).
    set (RealAddr := real_addr Q row A).
    destruct (select_bank_if_big_exact W (RealAddr / SIXTEENMB) row st1)
      as (st2 & B2 & (Mk2 & Ix2 & _ & F2) & Hk2).
    { rewrite Hmk1, B1. fold sel. lia. }
    rewrite Hmk1, B1 in B2. fold sel in B2.
    assert (Hlen2 : length (bus st2) = (length (bus st) - sel)%nat)
      by (rewrite B2; apply length_skipn).
    destruct (bus st2) as [|r rest] eqn:Eb2; [cbn [length] in Hlen2; lia|].
    cbn [length] in Hlen2.
    set (d := if has_dummy c then DUMMY_SIZE else 0).
    assert (Hd : 0 <= d <= 1) by (subst d; unfold DUMMY_SIZE; destruct (has_dummy c); lia).
    assert (Hshift : shift_size c = 4 + d)
      by (unfold shift_size; subst d; unfold OVERHEAD_SIZE, DUMMY_SIZE;
          destruct (has_dummy c); lia).
    set (m2 := store_byte (store_byte (store_byte (store_byte (mem st2)
                 (W + COMMAND_OFFSET) c)
                 (W + ADDRESS_1_OFFSET) (Z.shiftr (Z.land RealAddr 0xFF0000) 16))
                 (W + ADDRESS_2_OFFSET) (Z.shiftr (Z.land RealAddr 0xFF00) 8))
                 (W + ADDRESS_3_OFFSET) (Z.land RealAddr 0xFF)).
    assert (Fm2 : forall x, ~ header_at W x -> m2 x = mem st2 x).
    { intros x Hx. unfold header_at in Hx. subst m2.
      unfold COMMAND_OFFSET, ADDRESS_1_OFFSET, ADDRESS_2_OFFSET, ADDRESS_3_OFFSET.
      rewrite !store_byte_other by lia. reflexivity. }
    set (count := p + d + OVERHEAD_SIZE).
    pose proof (PolledTransfer_recv_exact W (R + start) count (set_mem m2 st2) r rest Eb2)
      as E3.
    cbn [mem set_mem] in E3.
    set (st3 := set_mem (store_bytes m2 (R + start) count (snd r)) _) in E3.
    destruct (shift_loop_mem
                (Z.to_nat (u32 (start + (p + d)) - start))
                R (if has_dummy c then OVERHEAD_SIZE + DUMMY_SIZE else OVERHEAD_SIZE)
                start st3) as (m4 & E4 & Hin4 & Hout4).
    { unfold OVERHEAD_SIZE, DUMMY_SIZE. destruct (has_dummy c); lia. }
    { subst start. lia. }
    { rewrite u32_small by (subst start; lia).
      unfold OVERHEAD_SIZE, DUMMY_SIZE. subst start. destruct (has_dummy c); lia. }
    fold (shift_size c) in E4, Hin4.
    assert (Hn4 : Z.of_nat (Z.to_nat (u32 (start + (p + d)) - start)) = p + d)
      by (rewrite u32_small by (subst start; lia); lia).
    rewrite Hn4 in Hin4, Hout4.
    set (st4 := set_mem m4 st3) in *.
    assert (Hrow4 : active_row st4 = Some row).
    { unfold active_row. subst st4 st3. cbn [FCTIndex set_mem log set_bus].
      rewrite Ix2. exact Hrow1. }
    assert (Hmk4 : FlashMake st4 = make).
    { subst st4 st3. cbn [FlashMake set_mem log set_bus]. congruence. }
    assert (Hcases : (B <= next_bank A - A /\ p = B) \/
                     (next_bank A - A < B /\ p = next_bank A - A))
      by (subst p; lia).
    assert (H1 : 0 <= next_bank A) by lia.
    assert (H2 : 0 <= B - p < 2 ^ 31) by lia.
    assert (H3 : 0 < B - p -> next_bank A + (B - p) < 2 ^ 28).
    { destruct Hcases as [(_ & ->)|(_ & ->)]; lia. }
    assert (H4 : next_bank A + (B - p) <=
                 (next_bank A / SIXTEENMB + Z.of_nat k) * SIXTEENMB).
    { rewrite Hnbdiv. destruct Hcases as [(_ & ->)|(_ & ->)].
      - replace (B - B) with 0 by lia.
        unfold next_bank. unfold SIXTEENMB. lia.
      - replace (next_bank A + (B - (next_bank A - A))) with (A + B) by lia. lia. }
    assert (H5 : (k * S sel <= length (bus st4))%nat).
    { subst st4 st3. cbn [bus set_mem log set_bus]. cbn [Nat.mul] in Hbus. lia. }
    destruct (IH (next_bank A) (B - p) turns st4 Hw Hrow4 Hmk4 H1 H2 H3 H4 Hc
                 ltac:(lia) H5 ltac:(lia) Hdis)
      as (st5 & E5 & Mk5 & Ix5 & F5 & D5).
    replace (T - (B - p)) with (start + p) in F5, D5 by (subst start; lia).
    assert (Hbus4 : bus st4 = rest) by reflexivity.
    rewrite Hbus4 in D5.
    assert (Hra : read_answers (S k) sel (bus st) = r :: read_answers k sel rest).
    { cbn [read_answers]. now rewrite <- B2. }
    assert (Hplan : read_plan (S k) A B = (A, p) :: read_plan k (next_bank A) (B - p)).
    { cbn [read_plan]. destruct (Z.ltb_spec 0 B) as [_|]; [|lia]. reflexivity. }
    exists st5. split; [|split; [exact Mk5|split; [|split]]].
    + cbn [FlashRead_loop]. rewrite signed_long_pos by lia.
      destruct (Z.ltb_spec 0 B) as [_|]; [|lia].
      rewrite (bind_Done _ _ _ _ _ E1). cbn [assigned]. rewrite bind_ret.
      rewrite (bind_Done _ _ _ _ _ (Flash_Config_row_spec _ _ Hrow1)).
      fold RealAddr. rewrite Hk2. rewrite !bind_store. fold m2.
      rewrite Hp.
      replace (if has_dummy c then u32 (p + DUMMY_SIZE) else p) with (p + d)
        by (subst d; destruct (has_dummy c);
            [rewrite u32_small; unfold DUMMY_SIZE; lia | lia]).
      rewrite (u32_small (p + d + OVERHEAD_SIZE)) by (unfold OVERHEAD_SIZE; lia).
      rewrite Hstart. fold count.
      rewrite (bind_Done _ _ _ _ _ E3).
      rewrite (bind_Done _ _ _ _ _ E4).
      rewrite land_BANKMASK by lia. fold (next_bank A).
      replace (u32 (A / SIXTEENMB * SIXTEENMB + SIXTEENMB)) with (next_bank A)
        by (unfold next_bank in *; rewrite u32_small; unfold SIXTEENMB in *; lia).
      replace (if has_dummy c then u32 (B - u32 (p + d - DUMMY_SIZE)) else u32 (B - (p + d)))
        with (B - p)
        by (subst d; unfold DUMMY_SIZE; destruct (has_dummy c);
            [replace (p + 1 - 1) with p by lia; rewrite (u32_small p) by lia;
             rewrite u32_small by lia; reflexivity
            | rewrite Z.add_0_r, u32_small by lia; reflexivity]).
      exact E5.
    + rewrite Ix5. subst st4 st3. cbn [FCTIndex set_mem log set_bus]. congruence.
    + intros x HxW HxR. fold start in HxR.
      rewrite F5 by (try assumption; lia).
      subst st4. cbn [mem set_mem]. rewrite Hout4 by lia.
      subst st3. cbn [mem set_mem]. unfold store_bytes.
      destruct (Z.leb_spec (R + start) x); destruct (Z.ltb_spec x (R + start + count));
        cbn [andb]; try (subst count; unfold OVERHEAD_SIZE in *; exfalso; lia).
      all: rewrite Fm2 by assumption; rewrite F2 by assumption; now rewrite M1.
    + intros j a q i Hj Hi. fold start. rewrite Hplan in Hj |- *. rewrite Hra.
      destruct j as [|j].
      * cbn [nth_error] in Hj. injection Hj as <- <-.
        unfold chunk_offset. cbn [firstn sum_payloads fold_right nth snd].
        rewrite Z.add_0_r.
        assert (HnotW : ~ header_at W (R + start + i))
          by (unfold header_at; subst start; lia).
        rewrite F5 by (try assumption; lia).
        subst st4. cbn [mem set_mem]. rewrite Hin4 by lia.
        subst st3. cbn [mem set_mem].
        replace (R + start + i + shift_size c) with (R + start + (shift_size c + i)) by lia.
        rewrite store_bytes_at by (subst count; unfold OVERHEAD_SIZE; lia).
        apply u8_u8.
      * cbn [nth_error] in Hj. cbn [nth].
        specialize (D5 j a q i Hj Hi).
        unfold chunk_offset in *. cbn [firstn sum_payloads fold_right snd].
        fold (sum_payloads (firstn j (read_plan k (next_bank A) (B - p)))).
        rewrite <- D5. f_equal. lia.
Qed.

(** A read puts the payload where the caller expects it.  With as many
    answers on the bus as the read makes transfers, whatever their status
    and their readiness, [FlashRead] returns; the payload of chunk [j] lies
    in the read buffer from the offset that the payloads of the chunks
    before it add up to, byte [i] of it being byte [shift_size + i] of the
    answer to the read transaction of that chunk, after the echoed
    instruction, address and dummy bytes.  Besides the header of the write
    buffer, RAM is changed only in the [ByteCount + shift_size] bytes from
    the start of the read buffer.  The write buffer header must not lie
    inside that part of the read buffer. *)
Theorem FlashRead_delivers_payload (Q : XQspiPs) (A B c W R : Z) (st : State)
    (row : FlashInfo) :
  wired Q = true -> active_row st = Some row ->
  0 <= A -> 0 < B < 2 ^ 31 -> A + B < 2 ^ 28 -> 0 <= c < 256 ->
  (read_turns A B * S (select_transfers row (FlashMake st)) <= length (bus st))%nat ->
  W + 4 <= R \/ R + B + shift_size c <= W ->
  let plan := read_plan (read_turns A B) A B in
  let answers :=
    read_answers (read_turns A B) (select_transfers row (FlashMake st)) (bus st) in
  exists st',
    FlashRead Q A B c W R st = Done tt st' /\
    chunked A B plan /\
    (forall x, ~ header_at W x -> ~ (R <= x < R + B + shift_size c) ->
               mem st' x = mem st x) /\
    (forall j a p i,
       nth_error plan j = Some (a, p) -> 0 <= i < p ->
       mem st' (R + chunk_offset plan j + i) =
       u8 (nth (Z.to_nat (shift_size c + i)) (snd (nth j answers (XST_SUCCESS, []))) 0)).
Proof.
  intros Hw Hrow HA HB HAB Hc Hbus Hdis plan answers.
  pose proof (read_turns_enough A B HA ltac:(lia)) as Hk.
  destruct (FlashRead_loop_data Q c W R B row (FlashMake st) (read_turns A B)
              A B (length (bus st)) st Hw Hrow eq_refl HA ltac:(lia) ltac:(lia) Hk Hc
              ltac:(lia) Hbus ltac:(nia) Hdis)
    as (st' & E & _ & _ & F & D).
  exists st'. split; [exact E|]. split; [|split].
  - apply read_plan_chunked; [lia|lia|exact Hk].
  - intros x HxW HxR. apply F; [exact HxW|]. lia.
  - intros j a p i Hj Hi. specialize (D j a p i Hj Hi).
    replace (R + (B - B)) with R in D by lia. exact D.
Qed.


(** ** Translated addresses stay inside a chip *)

(** For every address below the capacity of the array (one
    [FlashDeviceSize] in Single topology, two in Stacked and Parallel),
    [GetRealAddr] yields an address below [FlashDeviceSize]: the address
    sent to a chip is always one of that chip. *)
Theorem GetRealAddr_inside_chip (Q : XQspiPs) (a : Z) (st : State) (row : FlashInfo) :
  wired Q = true -> active_row st = Some row ->
  0 <= a < chips_of_topology (Config_ConnectionMode Q) * FlashDeviceSize row ->
  exists x st',
    GetRealAddr Q a st = Done (Some x) st' /\
    0 <= x < FlashDeviceSize row.
Proof.
  intros Hw Hrow Ha.
  destruct (table_row_FlashDeviceSize _ _ Hrow) as (k & Hk & Hsize).
  assert (Hpow : 0 < 2 ^ k <= 2 ^ 27).
  { split; [apply Z.pow_pos_nonneg; lia|apply Z.pow_le_mono_r; lia]. }
  assert (Ha32 : 0 <= a < 2 ^ 32).
  { rewrite Hsize in Ha. destruct Q as [mode].
    destruct mode; cbn [Config_ConnectionMode chips_of_topology] in Ha; lia. }
  destruct (GetRealAddr_spec Q a st row Hw Hrow Ha32) as (st' & E & _).
  exists (real_addr Q row a), st'. split; [exact E|].
  unfold real_addr. destruct Q as [mode]. cbn [Config_ConnectionMode] in *.
  rewrite Hsize in *.
  destruct mode; try discriminate Hw; cbn [translate chips_of_topology] in *.
  - lia.
  - rewrite !Hsize. rewrite land_pow2_testbit by lia.
    rewrite Z.testbit_odd, Z.shiftr_div_pow2 by lia.
    pose proof (Z.div_mod a (2 ^ k) ltac:(lia)) as Hdm.
    pose proof (Z.mod_pos_bound a (2 ^ k) ltac:(lia)) as Hm.
    assert (Hq : 0 <= a / 2 ^ k < 2).
    { split; [apply Z.div_pos; lia|apply Z.div_lt_upper_bound; lia]. }
    assert (Hq' : a / 2 ^ k = 0 \/ a / 2 ^ k = 1) by lia.
    destruct Hq' as [Hq'|Hq']; rewrite Hq' in *; cbn [Z.odd].
    + rewrite Z.eqb_refl. lia.
    + destruct (Z.eqb_spec (2 ^ k) 0); lia.
  - split; [apply Z.div_pos; lia|apply Z.div_lt_upper_bound; lia].
Qed.


(** ** Initialisation *)



(** ** Identifying again *)

(** [StartIndex] is assigned only when the manufacturer byte of the answer
    is a known one, but the size tests go by [FlashMake], which keeps the
    manufacturer of an earlier identification.  So when a part was
    identified before and the answer now has an unknown manufacturer byte
    with a size code that the table lists for the earlier manufacturer
    (other than a 1 Gb code), [FCTIndex] is computed from a [StartIndex]
    that was never assigned. *)
Theorem FlashReadID_stale_make_reads_unassigned_index (Q : XQspiPs) (W R : Z)
    (st : State) (data : list Z) (rest : list Response) :
  bus st = (XST_SUCCESS, data) :: rest ->
  wired Q = true ->
  known_make (u8 (nth 1 data 0)) = false ->
  in_catalog (FlashMake st) (u8 (nth 3 data 0)) = true ->
  (u8 (nth 3 data 0) =? MICRON_ID_BYTE2_1G) ||
    (u8 (nth 3 data 0) =? MACRONIX_ID_BYTE2_1G) = false ->
  FlashReadID Q W R st = Undefined.
Proof.
  intros Hbus Hw Hunk Hcat H1G.
  rewrite (FlashReadID_answered _ W R st _ _ _ Hbus). cbn [XStatus_eqb negb].
  set (id0 := u8 (nth 1 data 0)) in *. set (id2 := u8 (nth 3 data 0)) in *.
  set (st1 := after_read_id W R data rest st).
  assert (Hm : FlashMake st1 = FlashMake st) by reflexivity.
  rewrite <- Hm in Hcat. clearbody st1. clear Hm Hbus. clearbody id0 id2.
  unfold known_make in Hunk. unfold in_catalog in Hcat. cbn in Hcat.
  unfold bind at 1. unfold deduce_make, assign_index.
  unfold_id_bytes.
  repeat (apply orb_false_elim in Hunk; destruct Hunk as [Hunk ?]).
  apply orb_false_elim in H1G. destruct H1G as [G1 G2].
  repeat match goal with H : (id0 =? _) = false |- _ => rewrite H; clear H end.
  cbn [ret]. unfold bind, get.
  destruct Q as [mode].
  destruct (Z.eqb_spec (FlashMake st1) 32) as [E|N1];
    [|destruct (Z.eqb_spec (FlashMake st1) 1) as [E|N2];
      [|destruct (Z.eqb_spec (FlashMake st1) 239) as [E|N3];
        [|destruct (Z.eqb_spec (FlashMake st1) 194) as [E|N4]]]];
    try rewrite E in *; cbn in Hcat |- *.
  5:{ repeat match goal with
             | H : ?a <> ?b |- _ => apply Z.eqb_neq in H; rewrite H in Hcat
             end.
      cbn in Hcat. discriminate Hcat. }
  all: rewrite ?G1, ?G2 in *;
       repeat match goal with
              | |- context [?v =? ?c] => is_var v; destruct (Z.eqb_spec v c); [subst v|]
              end; cbn in Hcat, G1, G2 |- *; try discriminate;
       destruct mode; try discriminate Hw; reflexivity.
Qed.

End Driver.

(** * The statements at concrete inputs

    The U_PAGE bit is bit 28 of the LQSPI configuration register on the
    Zynq-7000. *)

Lemma GetRealAddr_translation_witness :
  0 <= 0x2000010 < 2 ^ 32 /\
  active_row (set_FCTIndex 4 (power_on [])) = Some stacked_256_row /\
  GetRealAddr 0x10000000 (mkXQspiPs XQSPIPS_CONNECTION_MODE_STACKED) 0x2000010
              (set_FCTIndex 4 (power_on [])) =
    Done (Some 0x10)
         (log (EvSlaveSelect 0x10000000)
              (set_LqspiCr 0x10000000 (set_FCTIndex 4 (power_on [])))) /\
  Z.land 0x10000000 0x10000000 = 0x10000000.
Proof.
  assert (Ha : 0 <= 0x2000010 < 2 ^ 32) by lia.
  assert (Hrow : active_row (set_FCTIndex 4 (power_on [])) = Some stacked_256_row)
    by reflexivity.
  split; [exact Ha|]. split; [exact Hrow|].
  exact (proj2 (proj2 (GetRealAddr_translation 0x10000000 0x2000010
                         (set_FCTIndex 4 (power_on []))))
               stacked_256_row Ha Hrow).
Defined.

Lemma FlashReadID_micron_256_single_witness :
  bus (power_on [(XST_SUCCESS, [0xFF; 0x20; 0xBA; 0x19])]) =
    [(XST_SUCCESS, [0xFF; 0x20; 0xBA; 0x19])] /\
  exists st',
    FlashReadID (mkXQspiPs XQSPIPS_CONNECTION_MODE_SINGLE) 0 16
                (power_on [(XST_SUCCESS, [0xFF; 0x20; 0xBA; 0x19])]) =
      Done XST_SUCCESS st' /\
    FlashMake st' = MICRON_ID_BYTE0 /\
    FCTIndex st' = MICRON_INDEX_START + 3 /\
    active_row st' =
      Some (mkFlashInfo 0x10000 0x200 256 0x20000 0x2000000
                        MICRON_ID_BYTE0 MICRON_ID_BYTE2_256 0xFFFF0000 1).
Proof.
  split; [reflexivity|].
  apply (FlashReadID_micron_256_single
           (power_on [(XST_SUCCESS, [0xFF; 0x20; 0xBA; 0x19])]) 0 16 0xFF [] []).
  reflexivity.
Defined.

(** C7 as stated fails on the answer 0x20, 0xBA, 0x17 at power-on: no row of
    the catalog pairs the Micron byte with the size code 0x17, the row index
    stays 0 and success is returned, but the manufacturer does not stay
    unchanged: [FlashMake] goes from 0 to 0x20. *)
Lemma FlashReadID_unknown_size_records_make :
  in_catalog 0x20 0x17 = false /\
  FlashMake (power_on [(XST_SUCCESS, [0xFF; 0x20; 0xBA; 0x17])]) = 0 /\
  exists st',
    FlashReadID (mkXQspiPs XQSPIPS_CONNECTION_MODE_SINGLE) 0 16
                (power_on [(XST_SUCCESS, [0xFF; 0x20; 0xBA; 0x17])]) =
      Done XST_SUCCESS st' /\
    FCTIndex st' = 0 /\
    FlashMake st' = 0x20 /\
    FlashMake st' <> FlashMake (power_on [(XST_SUCCESS, [0xFF; 0x20; 0xBA; 0x17])]).
Proof.
  split; [reflexivity|]. split; [reflexivity|].
  eexists. split; [reflexivity|].
  split; [reflexivity|]. split; [reflexivity|].
  simpl. discriminate.
Qed.

Lemma FlashReadID_unrecognised_witness :
  bus (power_on [(XST_SUCCESS, [0xFF; 0xFF; 0xFF; 0xFF])]) =
    [(XST_SUCCESS, [0xFF; 0xFF; 0xFF; 0xFF])] /\
  known_make (FlashMake (power_on [(XST_SUCCESS, [0xFF; 0xFF; 0xFF; 0xFF])])) = false /\
  in_catalog (u8 0xFF) (u8 0xFF) = false /\
  exists st',
    FlashReadID (mkXQspiPs XQSPIPS_CONNECTION_MODE_STACKED) 0 16
                (power_on [(XST_SUCCESS, [0xFF; 0xFF; 0xFF; 0xFF])]) =
      Done XST_SUCCESS st' /\
    FCTIndex st' = 0 /\
    FlashMake st' = 0.
Proof.
  split; [reflexivity|]. split; [reflexivity|]. split; [reflexivity|].
  exact (FlashReadID_unrecognised
           (mkXQspiPs XQSPIPS_CONNECTION_MODE_STACKED) 0 16
           (power_on [(XST_SUCCESS, [0xFF; 0xFF; 0xFF; 0xFF])])
           XST_SUCCESS [0xFF; 0xFF; 0xFF; 0xFF] []
           eq_refl eq_refl eq_refl).
Defined.

(** C2 as stated fails when [ByteCount] is a whole number of sectors: one
    sector of 0x10000 bytes erased from address 0 takes two sector-erase
    transactions, although the ceiling of [ByteCount / SectSize] is 1 and
    the boundary-overlap condition does not hold. *)
Lemma FlashErase_whole_sector_erases_two :
  active_row (power_on (repeat ready_answer 6)) = Some single_128_row /\
  ceil_div 0x10000 (SectSize single_128_row) = 1 /\
  boundary_overlap single_128_row 0 0x10000 = false /\
  exists st',
    FlashErase 0x10000000 (mkXQspiPs XQSPIPS_CONNECTION_MODE_SINGLE) 0 0x10000 0
               (power_on (repeat ready_answer 6)) = Done tt st' /\
    length (sector_erases (trace st')) = 2%nat.
Proof.
  split; [reflexivity|]. split; [reflexivity|]. split; [reflexivity|].
  set (r := FlashErase _ _ _ _ _ _).
  exists (match r with Done _ s => s | _ => power_on [] end).
  split; vm_compute; reflexivity.
Qed.

(** The instance of the specification: sectors of 0x10000 bytes, address 0
    and 0x10001 bytes make exactly two sector-erase transactions. *)
Lemma FlashErase_partial_sector_count_witness :
  wired (mkXQspiPs XQSPIPS_CONNECTION_MODE_SINGLE) = true /\
  active_row (power_on (repeat ready_answer 14)) = Some single_128_row /\
  0 <= 0 < 2 ^ 32 /\ 0 <= 0x10001 < 2 ^ 32 /\
  0x10001 <> u32 (NumSect single_128_row * SectSize single_128_row) /\
  (7 * Z.to_nat (erase_NumSect single_128_row 0 0x10001) <=
   ready_count (bus (power_on (repeat ready_answer 14))))%nat /\
  exists st' added,
    FlashErase 0x10000000 (mkXQspiPs XQSPIPS_CONNECTION_MODE_SINGLE) 0 0x10001 0
               (power_on (repeat ready_answer 14)) = Done tt st' /\
    trace st' = trace (power_on (repeat ready_answer 14)) ++ added /\
    Z.of_nat (length (sector_erases added)) = 2 /\
    ceil_div 0x10001 0x10000 = 2.
Proof.
  assert (H1 : wired (mkXQspiPs XQSPIPS_CONNECTION_MODE_SINGLE) = true) by reflexivity.
  assert (H2 : active_row (power_on (repeat ready_answer 14)) = Some single_128_row)
    by reflexivity.
  assert (H3 : 0 <= 0 < 2 ^ 32) by lia.
  assert (H4 : 0 <= 0x10001 < 2 ^ 32) by lia.
  assert (H5 : 0x10001 <> u32 (NumSect single_128_row * SectSize single_128_row))
    by (vm_compute; lia).
  assert (H6 : (7 * Z.to_nat (erase_NumSect single_128_row 0 0x10001) <=
                ready_count (bus (power_on (repeat ready_answer 14))))%nat)
    by (vm_compute; lia).
  repeat (split; [assumption|]).
  destruct (FlashErase_partial_sector_count 0x10000000
              (mkXQspiPs XQSPIPS_CONNECTION_MODE_SINGLE) 0 0 0x10001
              (power_on (repeat ready_answer 14)) single_128_row
              H1 H2 H3 H4 H5 H6) as (st' & added & E & T & C & _).
  exists st', added.
  split; [exact E|]. split; [exact T|]. split; [exact C|reflexivity].
Defined.

(** C3 as stated fails for reads: two Micron 256 Mb chips in Parallel
    topology, two bytes read across logical address 0x1000000.  Both chunks
    translate into bank 0, and the extended address register is written
    twice, with 0 each time. *)
Lemma FlashRead_reselects_same_bank :
  bank_of (mkXQspiPs XQSPIPS_CONNECTION_MODE_PARALLEL) (row_at 14) 0xFFFFFF = 0 /\
  bank_of (mkXQspiPs XQSPIPS_CONNECTION_MODE_PARALLEL) (row_at 14) 0x1000000 = 0 /\
  match FlashRead 0x10000000 (mkXQspiPs XQSPIPS_CONNECTION_MODE_PARALLEL)
                  0xFFFFFF 2 READ_CMD 0 0x1000
                  (identified MICRON_ID_BYTE0 14 (repeat ready_answer 6)) with
  | Done _ st' =>
      bank_selects (trace st') =
      [mkXfer [EXTADD_REG_WR; 0] BANK_SEL_SIZE false;
       mkXfer [EXTADD_REG_WR; 0] BANK_SEL_SIZE false]
  | _ => False
  end.
Proof. split; [reflexivity|]. split; [reflexivity|]. vm_compute. reflexivity. Qed.

Lemma bank_selection_per_operation_witness :
  wired (mkXQspiPs XQSPIPS_CONNECTION_MODE_SINGLE) = true /\
  active_row (identified MICRON_ID_BYTE0 12 (repeat ready_answer 21)) = Some (row_at 12) /\
  (FlashDeviceSize (row_at 12) >? SIXTEENMB) = true /\
  (exists st' added,
     FlashErase 0x10000000 (mkXQspiPs XQSPIPS_CONNECTION_MODE_SINGLE) 0 0x20000 0
                (identified MICRON_ID_BYTE0 12 (repeat ready_answer 21)) = Done tt st' /\
     trace st' = added /\
     bank_selects added = [mkXfer [EXTADD_REG_WR; 0] BANK_SEL_SIZE false]) /\
  (exists st' added plan,
     FlashRead 0x10000000 (mkXQspiPs XQSPIPS_CONNECTION_MODE_SINGLE)
               0xFFFFFE 5 QUAD_READ_CMD 0 0x1000
               (identified MICRON_ID_BYTE0 12 (repeat ready_answer 21)) = Done tt st' /\
     trace st' = added /\
     chunked 0xFFFFFE 5 plan /\
     bank_selects added =
       flat_map (fun chunk =>
                   bank_register_writes MICRON_ID_BYTE0
                     (bank_of (mkXQspiPs XQSPIPS_CONNECTION_MODE_SINGLE) (row_at 12)
                              (fst chunk))) plan).
Proof.
  assert (H1 : wired (mkXQspiPs XQSPIPS_CONNECTION_MODE_SINGLE) = true) by reflexivity.
  assert (H2 : active_row (identified MICRON_ID_BYTE0 12 (repeat ready_answer 21)) =
               Some (row_at 12)) by reflexivity.
  assert (H3 : (FlashDeviceSize (row_at 12) >? SIXTEENMB) = true) by reflexivity.
  destruct (bank_selection_per_operation 0x10000000
              (mkXQspiPs XQSPIPS_CONNECTION_MODE_SINGLE)
              (identified MICRON_ID_BYTE0 12 (repeat ready_answer 21)) (row_at 12)
              H1 H2 H3) as (Herase & _ & Hread).
  repeat (split; [assumption|]). split.
  - apply (Herase 0 0x20000 0); [lia | vm_compute; lia | vm_compute; lia].
  - apply (Hread 0xFFFFFE 5 QUAD_READ_CMD 0 0x1000);
      [lia | lia | lia | unfold QUAD_READ_CMD; lia | vm_compute; lia].
Defined.

Lemma FlashWrite_transaction_sequence_witness :
  let Q := mkXQspiPs XQSPIPS_CONNECTION_MODE_SINGLE in
  let st := identified MICRON_ID_BYTE0 15
              (repeat ready_answer 5 ++ [busy_answer; busy_answer] ++
               [ready_answer; ready_answer]) in
  wired Q = true /\ active_row st = Some (row_at 15) /\
  0 <= 0x1234567 < 2 ^ 32 /\ 0 <= 2 <= PageSize (row_at 15) /\
  0 <= WRITE_CMD < 256 /\ (7 <= ready_count (bus st))%nat /\
  exists st' added pre busy r post,
    FlashWrite 0x10000000 Q 0x1234567 2 WRITE_CMD 0 st = Done tt st' /\
    trace st' = trace st ++ added /\
    transfers added =
      [wren_xfer; mkXfer [EXTADD_REG_WR; 1] BANK_SEL_SIZE false;
       wren_xfer; mkXfer [WRITE_CMD; 0x23; 0x45; 0x67; 0; 0] 6 false; flag_xfer] ++
      repeat status_xfer (length busy) ++ [status_xfer; flag_xfer] /\
    bus st = pre ++ busy ++ r :: post ++ bus st' /\
    length pre = 5%nat /\ length post = 1%nat /\
    forallb status_busy busy = true /\ status_busy r = false.
Proof.
  intros Q st.
  assert (H1 : wired Q = true) by reflexivity.
  assert (H2 : active_row st = Some (row_at 15)) by reflexivity.
  assert (H3 : 0 <= 0x1234567 < 2 ^ 32) by lia.
  assert (H4 : 0 <= 2 <= PageSize (row_at 15)) by (simpl; lia).
  assert (H5 : 0 <= WRITE_CMD < 256) by (unfold WRITE_CMD; lia).
  assert (H6 : (7 <= ready_count (bus st))%nat) by (vm_compute; lia).
  repeat (split; [assumption|]).
  exact (FlashWrite_transaction_sequence 0x10000000 Q 0x1234567 2 WRITE_CMD 0 st
           (row_at 15) H1 H2 H3 H4 H5 H6).
Defined.



(** C8 as stated fails when [length] is a whole number of pages: an image
    of one page of 256 bytes is programmed with two page programs, although
    the ceiling of [length / PageSize] is 1. *)
Lemma update_flash_whole_page_programs_two :
  active_row (power_on (repeat ready_answer 24)) = Some single_128_row /\
  ceil_div 256 (PageSize single_128_row) = 1 /\
  match update_flash 0x10000000 (mkXQspiPs XQSPIPS_CONNECTION_MODE_SINGLE) 0
                     0x100000 0x200000 0 256 (power_on (repeat ready_answer 24)) with
  | Done _ st' =>
      map frame_header (page_programs (trace st')) =
      [([WRITE_CMD; 0; 0; 0], 260); ([WRITE_CMD; 0; 1; 0], 260)]
  | _ => False
  end.
Proof. split; [reflexivity|]. split; [reflexivity|]. vm_compute. reflexivity. Qed.

Lemma update_flash_page_programs_witness :
  let Q := mkXQspiPs XQSPIPS_CONNECTION_MODE_SINGLE in
  let st := power_on (repeat ready_answer 24) in
  wired Q = true /\ active_row st = Some single_128_row /\
  0 <= 300 < 2 ^ 28 /\
  (update_flash_budget single_128_row 300 <= ready_count (bus st))%nat /\
  exists st0 st1 st' erased rest,
    memcpy (0 + 4) 0x100000 300 st = Done tt st0 /\
    (forall i, 0 <= i < 300 -> mem st0 (0 + 4 + i) = mem st (0x100000 + i)) /\
    FlashErase 0x10000000 Q BIN_START_ADDRESS 300 0 st0 = Done tt st1 /\
    trace st1 = trace st ++ erased /\
    page_programs erased = [] /\
    update_flash 0x10000000 Q 0 0x100000 0x200000 0 300 st = Done tt st' /\
    trace st' = trace st1 ++ rest /\
    map frame_header (page_programs rest) =
      [([WRITE_CMD; 0; 0; 0], 260); ([WRITE_CMD; 0; 1; 0], 260)] /\
    (300 mod 256 <> 0 -> 300 / 256 + 1 = ceil_div 300 256).
Proof.
  intros Q st.
  assert (H1 : wired Q = true) by reflexivity.
  assert (H2 : active_row st = Some single_128_row) by reflexivity.
  assert (H3 : 0 <= 300 < 2 ^ 28) by lia.
  assert (H4 : (update_flash_budget single_128_row 300 <= ready_count (bus st))%nat)
    by (vm_compute; lia).
  repeat (split; [assumption|]).
  exact (update_flash_page_programs 0x10000000 Q 0 0x100000 0x200000 0 300 st
           single_128_row H1 H2 H3 H4).
Defined.

Lemma FlashErase_full_stacked_leaves_upper_page_witness :
  let st := identified SPANSION_ID_BYTE0 4 (repeat ready_answer 10) in
  active_row st = Some stacked_256_row /\
  0x4000000 = u32 (NumSect stacked_256_row * SectSize stacked_256_row) /\
  (10 * Z.to_nat (NumDie stacked_256_row) <= ready_count (bus st))%nat /\
  exists st' added,
    FlashErase 0x10000000 (mkXQspiPs XQSPIPS_CONNECTION_MODE_STACKED) 0 0x4000000 0 st =
      Done tt st' /\
    trace st' = trace st ++ EvSlaveSelect 0 :: added /\
    In (EvSlaveSelect 0x10000000) added /\
    Z.land 0 0x10000000 = 0 /\
    LqspiCr st' = 0x10000000 /\
    Z.land (LqspiCr st') 0x10000000 = 0x10000000.
Proof.
  intros st.
  assert (H1 : active_row st = Some stacked_256_row) by reflexivity.
  assert (H2 : 0x4000000 = u32 (NumSect stacked_256_row * SectSize stacked_256_row))
    by reflexivity.
  assert (H3 : (10 * Z.to_nat (NumDie stacked_256_row) <= ready_count (bus st))%nat)
    by (vm_compute; lia).
  repeat (split; [assumption|]).
  exact (FlashErase_full_stacked_leaves_upper_page 0x10000000 0 0 0x4000000 st
           stacked_256_row H1 H2 H3).
Defined.

Lemma Flash_Config_Table_geometry_witness :
  table_row 17 = Some (row_at 17) /\
  NumSect (row_at 17) * SectSize (row_at 17) = NumPage (row_at 17) * PageSize (row_at 17) /\
  NumSect (row_at 17) * SectSize (row_at 17) = 2 * FlashDeviceSize (row_at 17).
Proof.
  assert (H : table_row 17 = Some (row_at 17)) by reflexivity.
  split; [exact H|].
  destruct (Flash_Config_Table_geometry 17 (row_at 17) H) as (H1 & H2 & _).
  split; [exact H1 | exact H2].
Defined.

Lemma FlashReadID_selects_matching_row_witness :
  let Q := mkXQspiPs XQSPIPS_CONNECTION_MODE_PARALLEL in
  let st := power_on [(XST_SUCCESS, [0xFF; 0xEF; 0x40; 0x18])] in
  bus st = [(XST_SUCCESS, [0xFF; 0xEF; 0x40; 0x18])] /\
  wired Q = true /\
  in_catalog (u8 0xEF) (u8 0x18) = true /\
  (u8 0xEF =? MACRONIX_ID_BYTE0) && (u8 0x18 =? MACRONIX_ID_BYTE2_1G) = false /\
  exists st' row,
    FlashReadID Q 0 0x100 st = Done XST_SUCCESS st' /\
    FlashMake st' = WINBOND_ID_BYTE0 /\
    active_row st' = Some row /\
    ManufacturerID row = WINBOND_ID_BYTE0 /\
    DeviceIDMemSize row = WINBOND_ID_BYTE2_128 /\
    FCTIndex st' mod 3 = 2 /\
    bus st' = [].
Proof.
  intros Q st.
  assert (H1 : bus st = [(XST_SUCCESS, [0xFF; 0xEF; 0x40; 0x18])]) by reflexivity.
  assert (H2 : wired Q = true) by reflexivity.
  assert (H3 : in_catalog (u8 0xEF) (u8 0x18) = true) by reflexivity.
  assert (H4 : (u8 0xEF =? MACRONIX_ID_BYTE0) && (u8 0x18 =? MACRONIX_ID_BYTE2_1G) = false)
    by reflexivity.
  repeat (split; [assumption|]).
  exact (FlashReadID_selects_matching_row Q 0 0x100 st _ _ H1 H2 H3 H4).
Defined.

Lemma FlashReadID_macronix_1G_takes_micron_row_witness :
  let Q := mkXQspiPs XQSPIPS_CONNECTION_MODE_SINGLE in
  let st := power_on [(XST_SUCCESS, [0xFF; 0xC2; 0x20; 0x1B])] in
  bus st = [(XST_SUCCESS, [0xFF; 0xC2; 0x20; 0x1B])] /\
  wired Q = true /\
  u8 0xC2 = MACRONIX_ID_BYTE0 /\ u8 0x1B = MACRONIX_ID_BYTE2_1G /\
  exists st' row,
    FlashReadID Q 0 0x100 st = Done XST_SUCCESS st' /\
    FlashMake st' = MACRONIX_ID_BYTE0 /\
    FCTIndex st' = 18 /\
    active_row st' = Some row /\
    ManufacturerID row = MICRON_ID_BYTE0 /\
    DeviceIDMemSize row = MICRON_ID_BYTE2_1G /\
    NumDie row = 4 /\ SectSize row = 0x10000.
Proof.
  intros Q st.
  assert (H1 : bus st = [(XST_SUCCESS, [0xFF; 0xC2; 0x20; 0x1B])]) by reflexivity.
  assert (H2 : wired Q = true) by reflexivity.
  assert (H3 : u8 0xC2 = MACRONIX_ID_BYTE0) by reflexivity.
  assert (H4 : u8 0x1B = MACRONIX_ID_BYTE2_1G) by reflexivity.
  repeat (split; [assumption|]).
  exact (FlashReadID_macronix_1G_takes_micron_row Q 0 0x100 st _ _ H1 H2 H3 H4).
Defined.

Lemma FlashReadID_transport_failure_witness :
  let st := power_on [(XST_FAILURE, [0xFF; 0x20; 0xBA; 0x19])] in
  bus st = [(XST_FAILURE, [0xFF; 0x20; 0xBA; 0x19])] /\
  XStatus_eqb XST_FAILURE XST_SUCCESS = false /\
  exists st',
    FlashReadID (mkXQspiPs XQSPIPS_CONNECTION_MODE_SINGLE) 0 0x100 st =
      Done XST_FAILURE st' /\
    FlashMake st' = 0 /\ FCTIndex st' = 0 /\ bus st' = [].
Proof.
  intros st.
  assert (H1 : bus st = [(XST_FAILURE, [0xFF; 0x20; 0xBA; 0x19])]) by reflexivity.
  assert (H2 : XStatus_eqb XST_FAILURE XST_SUCCESS = false) by reflexivity.
  repeat (split; [assumption|]).
  exact (FlashReadID_transport_failure (mkXQspiPs XQSPIPS_CONNECTION_MODE_SINGLE)
           0 0x100 st _ _ _ H1 H2).
Defined.

Lemma FlashWrite_without_bank_register_witness :
  let st := identified MACRONIX_ID_BYTE0 24 (repeat ready_answer 3) in
  (FlashMake st =? MICRON_ID_BYTE0) = false /\
  (FlashMake st =? SPANSION_ID_BYTE0) = false /\
  0x123456 mod 2 ^ 24 = 0x1123456 mod 2 ^ 24 /\
  SendBankSelect 0 (0x123456 / SIXTEENMB) st = Done XST_SUCCESS st /\
  FlashWrite 0x10000000 (mkXQspiPs XQSPIPS_CONNECTION_MODE_SINGLE) 0x123456 16 WRITE_CMD 0 st =
  FlashWrite 0x10000000 (mkXQspiPs XQSPIPS_CONNECTION_MODE_SINGLE) 0x1123456 16 WRITE_CMD 0 st.
Proof.
  intros st.
  assert (H1 : (FlashMake st =? MICRON_ID_BYTE0) = false) by reflexivity.
  assert (H2 : (FlashMake st =? SPANSION_ID_BYTE0) = false) by reflexivity.
  assert (H3 : 0x123456 mod 2 ^ 24 = 0x1123456 mod 2 ^ 24) by reflexivity.
  repeat (split; [assumption|]).
  exact (FlashWrite_without_bank_register 0x10000000 0x123456 0x1123456 16 WRITE_CMD 0 st
           H1 H2 H3).
Defined.

Lemma program_and_erase_have_no_time_out_witness :
  let Q := mkXQspiPs XQSPIPS_CONNECTION_MODE_SINGLE in
  let st := identified MICRON_ID_BYTE0 12 (repeat busy_answer 40) in
  wired Q = true /\ active_row st = Some (row_at 12) /\
  forallb unready (bus st) = true /\
  0 <= 256 < 2 ^ 32 /\
  FlashWrite 0x10000000 Q 0 256 WRITE_CMD 0 st = Stalled /\
  FlashErase 0x10000000 Q 0 256 0 st = Stalled.
Proof.
  intros Q st.
  assert (H1 : wired Q = true) by reflexivity.
  assert (H2 : active_row st = Some (row_at 12)) by reflexivity.
  assert (H3 : forallb unready (bus st) = true) by reflexivity.
  assert (H4 : 0 <= 256 < 2 ^ 32) by lia.
  repeat (split; [assumption|]).
  exact (program_and_erase_have_no_time_out 0x10000000 Q 0 256 WRITE_CMD 0 st (row_at 12)
           H1 H2 H3 H4).
Defined.

Lemma FlashRead_reads_nothing_witness :
  (0x80000000 = 0 \/ 2 ^ 31 <= 0x80000000 < 2 ^ 32) /\
  FlashRead 0x10000000 (mkXQspiPs XQSPIPS_CONNECTION_MODE_SINGLE)
            0 0x80000000 READ_CMD 0 0x1000 (power_on (repeat ready_answer 3)) =
    Done tt (power_on (repeat ready_answer 3)).
Proof.
  assert (H : 0x80000000 = 0 \/ 2 ^ 31 <= 0x80000000 < 2 ^ 32) by (right; lia).
  split; [exact H|].
  exact (FlashRead_reads_nothing 0x10000000 (mkXQspiPs XQSPIPS_CONNECTION_MODE_SINGLE)
           0 0x80000000 READ_CMD 0 0x1000 (power_on (repeat ready_answer 3)) H).
Defined.


Lemma FlashErase_sector_addresses_witness :
  let Q := mkXQspiPs XQSPIPS_CONNECTION_MODE_SINGLE in
  let st := power_on (repeat ready_answer 14) in
  wired Q = true /\ active_row st = Some single_128_row /\
  0 <= 0x1234 < 2 ^ 32 /\
  0x10000 <> u32 (NumSect single_128_row * SectSize single_128_row) /\
  (7 * Z.to_nat (erase_NumSect single_128_row 0x1234 0x10000) <=
   ready_count (bus st))%nat /\
  exists st' added,
    FlashErase 0x10000000 Q 0x1234 0x10000 0 st = Done tt st' /\
    trace st' = trace st ++ added /\
    length (sector_erases added) = 2%nat /\
    forall k, (k < 2)%nat ->
      nth k (sector_erases added) wren_xfer =
      mkXfer (SEC_ERASE_CMD ::
              addr3_cast (real_addr Q single_128_row
                            (u32 (0x1234 + Z.of_nat k * SectSize single_128_row))))
             SEC_ERASE_SIZE false.
Proof.
  intros Q st.
  assert (H1 : wired Q = true) by reflexivity.
  assert (H2 : active_row st = Some single_128_row) by reflexivity.
  assert (H3 : 0 <= 0x1234 < 2 ^ 32) by lia.
  assert (H4 : 0x10000 <> u32 (NumSect single_128_row * SectSize single_128_row))
    by (vm_compute; lia).
  assert (H5 : (7 * Z.to_nat (erase_NumSect single_128_row 0x1234 0x10000) <=
                ready_count (bus st))%nat) by (vm_compute; lia).
  repeat (split; [assumption|]).
  exact (FlashErase_sector_addresses 0x10000000 Q 0 0x1234 0x10000 st single_128_row
           H1 H2 H3 H4 H5).
Defined.

Lemma FlashWrite_footprint_witness :
  let Q := mkXQspiPs XQSPIPS_CONNECTION_MODE_PARALLEL in
  let st := identified MICRON_ID_BYTE0 14 (repeat ready_answer 7) in
  wired Q = true /\ active_row st = Some (row_at 14) /\
  0 <= 0x1000200 < 2 ^ 32 /\ 0 <= 512 < 2 ^ 32 - 4 /\ 0 <= WRITE_CMD < 256 /\
  (7 <= ready_count (bus st))%nat /\
  exists st',
    FlashWrite 0x10000000 Q 0x1000200 512 WRITE_CMD 0x4000 st = Done tt st' /\
    FlashMake st' = FlashMake st /\
    FCTIndex st' = FCTIndex st /\
    (is_stacked Q = false -> LqspiCr st' = LqspiCr st) /\
    (forall p, ~ (0x4000 <= p < 0x4000 + 4) -> mem st' p = mem st p).
Proof.
  intros Q st.
  assert (H1 : wired Q = true) by reflexivity.
  assert (H2 : active_row st = Some (row_at 14)) by reflexivity.
  assert (H3 : 0 <= 0x1000200 < 2 ^ 32) by lia.
  assert (H4 : 0 <= 512 < 2 ^ 32 - 4) by lia.
  assert (H5 : 0 <= WRITE_CMD < 256) by (unfold WRITE_CMD; lia).
  assert (H6 : (7 <= ready_count (bus st))%nat) by (vm_compute; lia).
  repeat (split; [assumption|]).
  exact (FlashWrite_footprint 0x10000000 Q 0x1000200 512 WRITE_CMD 0x4000 st (row_at 14)
           H1 H2 H3 H4 H5 H6).
Defined.

Lemma FlashErase_footprint_witness :
  let Q := mkXQspiPs XQSPIPS_CONNECTION_MODE_SINGLE in
  let st := identified MICRON_ID_BYTE0 12 (repeat ready_answer 21) in
  wired Q = true /\ active_row st = Some (row_at 12) /\
  0 <= 0 < 2 ^ 32 /\
  (erase_budget (row_at 12) 0 0x20000 <= ready_count (bus st))%nat /\
  exists st',
    FlashErase 0x10000000 Q 0 0x20000 0x4000 st = Done tt st' /\
    FlashMake st' = FlashMake st /\
    FCTIndex st' = FCTIndex st /\
    (is_stacked Q = false -> LqspiCr st' = LqspiCr st) /\
    (forall p, ~ (0x4000 <= p < 0x4000 + 4) -> mem st' p = mem st p).
Proof.
  intros Q st.
  assert (H1 : wired Q = true) by reflexivity.
  assert (H2 : active_row st = Some (row_at 12)) by reflexivity.
  assert (H3 : 0 <= 0 < 2 ^ 32) by lia.
  assert (H4 : (erase_budget (row_at 12) 0 0x20000 <= ready_count (bus st))%nat)
    by (vm_compute; lia).
  repeat (split; [assumption|]).
  exact (FlashErase_footprint 0x10000000 Q 0 0x20000 0x4000 st (row_at 12) H1 H2 H3 H4).
Defined.

Lemma update_flash_programs_image_witness :
  let Q := mkXQspiPs XQSPIPS_CONNECTION_MODE_SINGLE in
  let st := set_mem (fun a => a mod 251) (power_on (repeat ready_answer 24)) in
  wired Q = true /\ active_row st = Some single_128_row /\
  0 <= 300 < 2 ^ 28 /\
  (update_flash_budget single_128_row 300 <= ready_count (bus st))%nat /\
  (0x100000 + 300 <= 0 + 4 \/ 0 + 4 + 300 <= 0x100000) /\
  (0 <= 0 \/ 0 + 4 + 300 <= 0) /\
  exists st' added,
    update_flash 0x10000000 Q 0 0x100000 0x200000 0 300 st = Done tt st' /\
    trace st' = trace st ++ added /\
    length (page_programs added) = Z.to_nat (300 / PageSize single_128_row + 1) /\
    forall P i, 0 <= P <= 300 / PageSize single_128_row ->
      0 <= i < PageSize single_128_row ->
      P * PageSize single_128_row + i < 300 ->
      nth (Z.to_nat (4 + i)) (xf_tx (nth (Z.to_nat P) (page_programs added) wren_xfer)) 0 =
      mem st (0x100000 + (P * PageSize single_128_row + i)).
Proof.
  intros Q st.
  assert (H1 : wired Q = true) by reflexivity.
  assert (H2 : active_row st = Some single_128_row) by reflexivity.
  assert (H3 : 0 <= 300 < 2 ^ 28) by lia.
  assert (H4 : (update_flash_budget single_128_row 300 <= ready_count (bus st))%nat)
    by (vm_compute; lia).
  assert (H5 : 0x100000 + 300 <= 0 + 4 \/ 0 + 4 + 300 <= 0x100000) by lia.
  assert (H6 : 0 <= 0 \/ 0 + 4 + 300 <= 0) by lia.
  repeat (split; [assumption|]).
  exact (update_flash_programs_image 0x10000000 Q 0 0x100000 0x200000 0 300 st
           single_128_row H1 H2 H3 H4 H5 H6).
Defined.

Lemma FlashRead_delivers_payload_witness :
  let Q := mkXQspiPs XQSPIPS_CONNECTION_MODE_SINGLE in
  let st := identified MICRON_ID_BYTE0 12
              [ready_answer; ready_answer;
               (XST_SUCCESS, [0; 0; 0; 0; 0; 0xA1; 0xA2]);
               ready_answer; ready_answer;
               (XST_DEVICE_BUSY, [0; 0; 0; 0; 0; 0xB1; 0xB2; 0xB3])] in
  let plan := read_plan (read_turns 0xFFFFFE 5) 0xFFFFFE 5 in
  let answers :=
    read_answers (read_turns 0xFFFFFE 5) (select_transfers (row_at 12) (FlashMake st))
                 (bus st) in
  wired Q = true /\ active_row st = Some (row_at 12) /\
  0 <= 0xFFFFFE /\ 0 < 5 < 2 ^ 31 /\ 0xFFFFFE + 5 < 2 ^ 28 /\ 0 <= QUAD_READ_CMD < 256 /\
  (read_turns 0xFFFFFE 5 * S (select_transfers (row_at 12) (FlashMake st)) <=
   length (bus st))%nat /\
  (0 + 4 <= 0x1000 \/ 0x1000 + 5 + shift_size QUAD_READ_CMD <= 0) /\
  plan = [(0xFFFFFE, 2); (0x1000000, 3)] /\
  exists st',
    FlashRead 0x10000000 Q 0xFFFFFE 5 QUAD_READ_CMD 0 0x1000 st = Done tt st' /\
    chunked 0xFFFFFE 5 plan /\
    (forall x, ~ header_at 0 x -> ~ (0x1000 <= x < 0x1000 + 5 + shift_size QUAD_READ_CMD) ->
               mem st' x = mem st x) /\
    (forall j a p i,
       nth_error plan j = Some (a, p) -> 0 <= i < p ->
       mem st' (0x1000 + chunk_offset plan j + i) =
       u8 (nth (Z.to_nat (shift_size QUAD_READ_CMD + i))
               (snd (nth j answers (XST_SUCCESS, []))) 0)).
Proof.
  intros Q st plan answers.
  assert (H1 : wired Q = true) by reflexivity.
  assert (H2 : active_row st = Some (row_at 12)) by reflexivity.
  assert (H3 : 0 <= 0xFFFFFE) by lia.
  assert (H4 : 0 < 5 < 2 ^ 31) by lia.
  assert (H5 : 0xFFFFFE + 5 < 2 ^ 28) by lia.
  assert (H6 : 0 <= QUAD_READ_CMD < 256) by (unfold QUAD_READ_CMD; lia).
  assert (H7 : (read_turns 0xFFFFFE 5 * S (select_transfers (row_at 12) (FlashMake st)) <=
                length (bus st))%nat) by (vm_compute; lia).
  assert (H8 : 0 + 4 <= 0x1000 \/ 0x1000 + 5 + shift_size QUAD_READ_CMD <= 0)
    by (left; lia).
  assert (H9 : plan = [(0xFFFFFE, 2); (0x1000000, 3)]) by reflexivity.
  repeat (split; [assumption|]).
  exact (FlashRead_delivers_payload 0x10000000 Q 0xFFFFFE 5 QUAD_READ_CMD 0 0x1000 st
           (row_at 12) H1 H2 H3 H4 H5 H6 H7 H8).
Defined.

Lemma GetRealAddr_inside_chip_witness :
  let Q := mkXQspiPs XQSPIPS_CONNECTION_MODE_STACKED in
  let st := identified SPANSION_ID_BYTE0 4 [] in
  wired Q = true /\ active_row st = Some stacked_256_row /\
  0 <= 0x3FFFFFF < chips_of_topology (Config_ConnectionMode Q) *
                   FlashDeviceSize stacked_256_row /\
  exists x st',
    GetRealAddr 0x10000000 Q 0x3FFFFFF st = Done (Some x) st' /\
    0 <= x < FlashDeviceSize stacked_256_row.
Proof.
  intros Q st.
  assert (H1 : wired Q = true) by reflexivity.
  assert (H2 : active_row st = Some stacked_256_row) by reflexivity.
  assert (H3 : 0 <= 0x3FFFFFF < chips_of_topology (Config_ConnectionMode Q) *
                                FlashDeviceSize stacked_256_row) by (simpl; lia).
  repeat (split; [assumption|]).
  exact (GetRealAddr_inside_chip 0x10000000 Q 0x3FFFFFF st stacked_256_row H1 H2 H3).
Defined.


Lemma FlashReadID_stale_make_reads_unassigned_index_witness :
  let Q := mkXQspiPs XQSPIPS_CONNECTION_MODE_SINGLE in
  let st := identified MICRON_ID_BYTE0 12 [(XST_SUCCESS, [0xFF; 0x00; 0x00; 0x18])] in
  bus st = [(XST_SUCCESS, [0xFF; 0x00; 0x00; 0x18])] /\
  wired Q = true /\
  known_make (u8 0x00) = false /\
  in_catalog (FlashMake st) (u8 0x18) = true /\
  (u8 0x18 =? MICRON_ID_BYTE2_1G) || (u8 0x18 =? MACRONIX_ID_BYTE2_1G) = false /\
  FlashReadID Q 0 0x100 st = Undefined.
Proof.
  intros Q st.
  assert (H1 : bus st = [(XST_SUCCESS, [0xFF; 0x00; 0x00; 0x18])]) by reflexivity.
  assert (H2 : wired Q = true) by reflexivity.
  assert (H3 : known_make (u8 0x00) = false) by reflexivity.
  assert (H4 : in_catalog (FlashMake st) (u8 0x18) = true) by reflexivity.
  assert (H5 : (u8 0x18 =? MICRON_ID_BYTE2_1G) || (u8 0x18 =? MACRONIX_ID_BYTE2_1G) = false)
    by reflexivity.
  repeat (split; [assumption|]).
  exact (FlashReadID_stale_make_reads_unassigned_index Q 0 0x100 st _ _ H1 H2 H3 H4 H5).
Defined.

(** * The ADC capture *)

Lemma ADC_data_copy_loop_spec (n : nat) (tp : Z) :
  forall (i : Z) (st : ADC.State),
  (forall j, i <= j < i + Z.of_nat n ->
             0 <= j - ADC.trigger_position st + tp < 8192) ->
  exists f,
    ADC.ADC_data_copy_loop n i tp st = Some (ADC.set_ADC_Data f st) /\
    (forall j, i <= j < i + Z.of_nat n -> f j = ADC.window st tp j) /\
    (forall j, ~ (i <= j < i + Z.of_nat n) -> f j = ADC.ADC_Data st j).
Proof.
  induction n as [|n IH]; intros i st Hin.
  - exists (ADC.ADC_Data st). split; [now destruct st|].
    split; [intros j Hj; lia|reflexivity].
  - cbn [ADC.ADC_data_copy_loop]. unfold ADC.read_OriginalData.
    specialize (Hin i ltac:(lia)) as Hi.
    destruct (Z.leb_spec 0 (i - ADC.trigger_position st + tp)); [|lia].
    destruct (Z.ltb_spec (i - ADC.trigger_position st + tp) 8192); [|lia].
    cbn [andb].
    set (st1 := ADC.set_ADC_Data _ st).
    destruct (IH (i + 1) st1) as (f & E & Hf & Hout).
    { intros j Hj. apply Hin. lia. }
    exists f. split; [exact E|]. split.
    + intros j Hj. destruct (Z.eq_dec j i) as [->|Hne].
      * rewrite Hout by lia. subst st1. cbn. unfold ADC.update.
        now rewrite Z.eqb_refl.
      * rewrite Hf by lia. reflexivity.
    + intros j Hj. rewrite Hout by lia. subst st1. cbn. unfold ADC.update.
      destruct (Z.eqb_spec j i); [lia|reflexivity].
Qed.

Lemma ADC_data_copy_spec (tp : Z) (st : ADC.State) :
  exists f,
    ADC.ADC_data_copy tp st = Some (ADC.fits st tp, ADC.set_ADC_Data f st) /\
    (forall i, 0 <= i < 4096 ->
       f i = if ADC.fits st tp then ADC.window st tp i else ADC.ADC_Data st i) /\
    (forall i, ~ (0 <= i < 4096) -> f i = ADC.ADC_Data st i) /\
    (ADC.fits st tp = true ->
       forall i, 0 <= i < 4096 -> 0 <= i - ADC.trigger_position st + tp < 8192).
Proof.
  unfold ADC.ADC_data_copy, ADC.fits.
  destruct (Z.geb_spec tp (ADC.trigger_position st)) as [H1|H1];
    destruct (Z.ltb_spec tp (4096 + ADC.trigger_position st)) as [H2|H2]; cbn [andb].
  2-4: exists (ADC.ADC_Data st); (split; [now destruct st|]);
       (split; [reflexivity|]); (split; [reflexivity|discriminate]).
  destruct (ADC_data_copy_loop_spec (Z.to_nat 4096) tp 0 st) as (f & E & Hf & Hout).
  { intros j Hj. lia. }
  rewrite E. exists f. split; [reflexivity|]. split; [|split].
  - intros i Hi. apply Hf. lia.
  - intros i Hi. apply Hout. lia.
  - intros _ i Hi. lia.
Qed.

(** [ADC_data_copy] copies exactly when the window around [trigger_pos]
    fits, that is when [trigger_position <= trigger_pos < 4096 +
    trigger_position]; it then fills [ADC_Data] with the 4096 samples that
    put sample [trigger_pos] at index [trigger_position], converted to
    millivolts, and every sample it reads lies inside the 8192 entries of
    [ADC_OriginalData].  When the window does not fit, nothing is changed.
    Nothing but [ADC_Data] is ever changed. *)
Theorem ADC_data_copy_window (tp : Z) (st : ADC.State) :
  exists st',
    ADC.ADC_data_copy tp st = Some (ADC.fits st tp, st') /\
    (ADC.fits st tp = true ->
       forall i, 0 <= i < 4096 ->
         0 <= i - ADC.trigger_position st + tp < 8192 /\
         ADC.ADC_Data st' i =
           ADC.int16 (ADC.ADC_RawToVoltage_mV
                        (ADC.ADC_OriginalData st (i - ADC.trigger_position st + tp)))) /\
    (ADC.fits st tp = false -> forall i, ADC.ADC_Data st' i = ADC.ADC_Data st i) /\
    ADC.trigger_num st' = ADC.trigger_num st /\
    ADC.writes st' = ADC.writes st /\
    ADC.trigger_position st' = ADC.trigger_position st.
Proof.
  destruct (ADC_data_copy_spec tp st) as (f & E & Hf & Hout & Hb).
  exists (ADC.set_ADC_Data f st). split; [exact E|].
  split; [|split; [|repeat split]].
  - intros Hfit i Hi. split; [now apply Hb|].
    cbn. rewrite Hf by exact Hi. now rewrite Hfit.
  - intros Hfit i. cbn.
    destruct (Z_le_dec 0 i); [destruct (Z_lt_dec i 4096)|].
    + rewrite Hf by lia. now rewrite Hfit.
    + apply Hout. lia.
    + apply Hout. lia.
Qed.

Lemma find_in_app {A} (f : A -> bool) (l l' : list A) :
  find f (l ++ l') = match find f l with Some x => Some x | None => find f l' end.
Proof.
  induction l as [|x l IH]; [reflexivity|]. cbn [app find]. now destruct (f x).
Qed.

Lemma existsb_find {A} (f : A -> bool) (l : list A) :
  existsb f l = match find f l with Some _ => true | None => false end.
Proof.
  induction l as [|x l IH]; [reflexivity|]. cbn [existsb find]. now destruct (f x).
Qed.

Lemma int16_small (x : Z) : - 2 ^ 15 <= x < 2 ^ 15 -> ADC.int16 x = x.
Proof. intros H. unfold ADC.int16. rewrite Z.mod_small by lia. lia. Qed.

(** The locations recorded after one more was stored. *)
Lemma recorded_snoc (st : ADC.State) (L : Z) :
  0 <= ADC.trigger_num st < 2 ^ 15 - 1 ->
  ADC.recorded
    (ADC.set_trigger_num (ADC.int16 (ADC.trigger_num st + 1))
       (ADC.set_trigger_locate (ADC.update (ADC.trigger_locate st) (ADC.trigger_num st) L) st))
  = ADC.recorded st ++ [L].
Proof.
  intros Hn. unfold ADC.recorded. cbn [ADC.trigger_num ADC.trigger_locate
    ADC.set_trigger_num ADC.set_trigger_locate].
  rewrite int16_small by lia.
  replace (Z.to_nat (ADC.trigger_num st + 1)) with (S (Z.to_nat (ADC.trigger_num st))) by lia.
  rewrite seq_S, map_app. cbn [map Nat.add]. f_equal.
  - apply map_ext_in. intros k Hk. apply in_seq in Hk. unfold ADC.update.
    destruct (Z.eqb_spec (Z.of_nat k) (ADC.trigger_num st)); [lia|reflexivity].
  - unfold ADC.update. rewrite Z2Nat.id by lia. now rewrite Z.eqb_refl.
Qed.

Lemma fits_same (st0 st : ADC.State) (L : Z) :
  ADC.trigger_position st = ADC.trigger_position st0 -> ADC.fits st L = ADC.fits st0 L.
Proof. intros H. unfold ADC.fits. now rewrite H. Qed.

Ltac adc_simpl :=
  cbn [ADC.trigger_num ADC.trigger_locate ADC.ADC_Data ADC.ADC_OriginalData
       ADC.trigger_level ADC.trigger_hysteresis ADC.trigger_condition
       ADC.trigger_position ADC.writes
       ADC.set_trigger_num ADC.set_trigger_locate ADC.set_ADC_Data ADC.AXI4_IO_mWriteReg
       ADC.t ADC.trigger_status ADC.trigger_pos1];
  unfold ADC.TRIGGER_NUM_MAX.

(** A trigger found at [L], after every location recorded so far. *)
Lemma trigger_found_spec (st0 : ADC.State) (i L : Z) (s : ADC.Search) (st : ADC.State) :
  ADC.searching st0 i s st ->
  0 <= L < 8192 ->
  (forall k, 0 <= k < ADC.trigger_num st -> ADC.trigger_locate st k < L) ->
  exists s' st',
    ADC.trigger_found L s st = Some (s', st') /\
    ADC.trigger_status s' = 0 /\
    ADC.trigger_num st <= ADC.trigger_num st' /\
    forall i', L < i' -> ADC.searching st0 i' s' st'.
Proof.
  intros (Hsame & Hnum & Hloc & Hsorted & _ & Hdisp) HL Hbefore.
  destruct Hsame as (HO & Hlv & Hhy & Hco & Hpos & Hwr).
  unfold ADC.trigger_found. unfold ADC.TRIGGER_NUM_MAX in *.
  rewrite (int16_small L) by lia.
  (* the copy, if any *)
  assert (Hcopy : exists t' f,
            (if negb (ADC.t s) then ADC.ADC_data_copy L st else Some (ADC.t s, st)) =
              Some (t', ADC.set_ADC_Data f st) /\
            t' = (ADC.t s || ADC.fits st0 L) /\
            forall j, 0 <= j < 4096 ->
              f j = if negb (ADC.t s) && ADC.fits st0 L
                    then ADC.window st0 L j else ADC.ADC_Data st j).
  { destruct (ADC.t s) eqn:Et; cbn [negb andb orb].
    - exists true, (ADC.ADC_Data st). split; [now destruct st|]. now split.
    - destruct (ADC_data_copy_spec L st) as (f & E & Hf & _).
      exists (ADC.fits st0 L), f. rewrite (fits_same st0 st L Hpos) in E, Hf.
      split; [exact E|]. split; [reflexivity|].
      intros j Hj. rewrite (Hf j Hj).
      destruct (ADC.fits st0 L); [|reflexivity].
      unfold ADC.window. now rewrite HO, Hpos. }
  destruct Hcopy as (t' & f & -> & Ht' & Hf).
  cbn [ADC.trigger_num ADC.trigger_locate ADC.set_ADC_Data].
  destruct (Z.ltb_spec (ADC.trigger_num st) 128) as [Hlt|Hge].
  - (* recorded *)
    destruct (Z.leb_spec 0 (ADC.trigger_num st)); [|lia]. cbn [andb].
    eexists. eexists. split; [reflexivity|]. split; [reflexivity|].
    cbn [ADC.trigger_num ADC.set_trigger_num ADC.set_trigger_locate].
    rewrite int16_small by lia. split; [lia|].
    intros i' Hi'.
    assert (Hrec : ADC.recorded
              (ADC.set_trigger_num (ADC.trigger_num st + 1)
                 (ADC.set_trigger_locate
                    (ADC.update (ADC.trigger_locate st) (ADC.trigger_num st) L)
                    (ADC.set_ADC_Data f st))) =
              ADC.recorded st ++ [L]).
    { rewrite <- (recorded_snoc st L) by lia.
      rewrite (int16_small (ADC.trigger_num st + 1)) by lia. reflexivity. }
    split; [|split; [|split; [|split; [|split]]]].
    + repeat split; assumption.
    + adc_simpl. lia.
    + adc_simpl. intros k Hk. unfold ADC.update.
      destruct (Z.eqb_spec k (ADC.trigger_num st)); [lia|].
      specialize (Hloc k ltac:(lia)). specialize (Hbefore k ltac:(lia)). lia.
    + adc_simpl. intros k Hk0 Hk. unfold ADC.update.
      destruct (Z.eqb_spec k (ADC.trigger_num st)); [lia|].
      destruct (Z.eqb_spec (k + 1) (ADC.trigger_num st)).
      * apply Hbefore. lia.
      * apply Hsorted; lia.
    + adc_simpl. discriminate.
    + set (big := ADC.set_trigger_num _ _) in *.
      assert (Hfb : ADC.fits big = ADC.fits st) by reflexivity.
      assert (Hpb : ADC.trigger_position big = ADC.trigger_position st) by reflexivity.
      assert (Hdb : ADC.ADC_Data big = f) by reflexivity.
      assert (Hfs : ADC.fits st = ADC.fits st0) by (unfold ADC.fits; now rewrite Hpos).
      intros _. destruct (Hdisp Hlt) as (Ht & Hdata).
      unfold ADC.anchor in *. rewrite Hrec, Hfb, Hpb, Hdb. rewrite Hfs in *.
      rewrite existsb_app, find_in_app. cbn [existsb find orb ADC.t]. rewrite orb_false_r.
      rewrite <- Ht. split; [exact Ht'|].
      intros j Hj. rewrite (Hf j Hj), (Hdata j Hj), Ht'.
      rewrite existsb_find in Ht.
      destruct (ADC.t s) eqn:Et; cbn [negb andb orb].
      * destruct (find (ADC.fits st0) (ADC.recorded st)); [reflexivity|discriminate Ht].
      * destruct (find (ADC.fits st0) (ADC.recorded st)); [discriminate Ht|].
        destruct (ADC.fits st0 L); reflexivity.
  - (* dropped *)
    eexists. eexists. split; [reflexivity|]. split; [reflexivity|].
    split; [adc_simpl; lia|].
    intros i' Hi'.
    split; [|split; [|split; [|split; [|split]]]].
    + repeat split; assumption.
    + adc_simpl. lia.
    + adc_simpl. intros k Hk. specialize (Hloc k Hk). specialize (Hbefore k Hk). lia.
    + adc_simpl. exact Hsorted.
    + adc_simpl. discriminate.
    + adc_simpl. intros Hlt'. lia.
Qed.

Lemma searching_mono (st0 : ADC.State) (i i' : Z) (s : ADC.Search) (st : ADC.State) :
  ADC.searching st0 i s st -> i <= i' -> ADC.searching st0 i' s st.
Proof.
  intros (Hsame & Hnum & Hloc & Hsorted & H2 & Hdisp) Hi.
  split; [exact Hsame|]. split; [exact Hnum|]. split; [|split; [exact Hsorted|split]].
  - intros k Hk. specialize (Hloc k Hk). lia.
  - intros E. destruct (H2 E) as (Hp & Hb). split; [lia|exact Hb].
  - exact Hdisp.
Qed.

(** The locals may change as long as [t] stays and state 2 is not
    entered. *)
Lemma searching_status (st0 : ADC.State) (i v p : Z) (s : ADC.Search) (st : ADC.State) :
  ADC.searching st0 i s st -> v <> 2 ->
  ADC.searching st0 i (ADC.mkSearch (ADC.t s) v p) st.
Proof.
  intros (Hsame & Hnum & Hloc & Hsorted & H2 & Hdisp) Hv.
  repeat (split; [assumption|]). split; [|exact Hdisp].
  intros E. cbn in E. contradiction.
Qed.

(** One sample of the search. *)
Lemma search_step_spec (st0 : ADC.State) (up lo i : Z) (s : ADC.Search) (st : ADC.State) :
  ADC.searching st0 i s st -> 0 <= i < 8192 ->
  exists s' st',
    ADC.search_step up lo i s st = Some (s', st') /\
    ADC.searching st0 (i + 1) s' st' /\
    ADC.trigger_num st <= ADC.trigger_num st'.
Proof.
  intros Inv Hi.
  assert (Inv1 : ADC.searching st0 (i + 1) s st) by (apply (searching_mono _ i); [exact Inv|lia]).
  unfold ADC.search_step, ADC.read_OriginalData.
  destruct (Z.leb_spec 0 i); [|lia]. destruct (Z.ltb_spec i 8192); [|lia]. cbn [andb].
  set (v0 := ADC.int16 (ADC.ADC_RawToVoltage_mV (ADC.ADC_OriginalData st i))).
  assert (Hgen : forall v,
    exists s' st',
      (if ADC.trigger_status s =? 0 then
         if v <? lo then Some (ADC.mkSearch (ADC.t s) 1 (ADC.trigger_pos1 s), st)
         else Some (s, st)
       else if ADC.trigger_status s =? 1 then
         match (if v >? up then ADC.trigger_found i s st else Some (s, st)) with
         | None => None
         | Some (s1, st1) =>
             if (v >? lo) && (v <? up) then Some (ADC.mkSearch (ADC.t s1) 2 i, st1)
             else Some (s1, st1)
         end
       else if ADC.trigger_status s =? 2 then
         if v <? lo then Some (ADC.mkSearch (ADC.t s) 1 (ADC.trigger_pos1 s), st)
         else if v >? up then ADC.trigger_found (Z.quot (ADC.trigger_pos1 s + i) 2) s st
              else Some (s, st)
       else Some (s, st)) = Some (s', st') /\
      ADC.searching st0 (i + 1) s' st' /\
      ADC.trigger_num st <= ADC.trigger_num st').
  { intros v.
    destruct (Z.eqb_spec (ADC.trigger_status s) 0) as [E0|N0].
    { destruct (v <? lo).
      - eexists. eexists. split; [reflexivity|]. split; [|lia].
        apply searching_status; [exact Inv1|discriminate].
      - exists s, st. split; [reflexivity|]. split; [exact Inv1|lia]. }
    destruct (Z.eqb_spec (ADC.trigger_status s) 1) as [E1|N1].
    { destruct (Z.gtb_spec v up) as [Hup|Hup].
      - destruct (trigger_found_spec st0 i i s st Inv Hi) as (s1 & st1 & E & Hs1 & Hn1 & Inv').
        { intros k Hk. apply Inv. exact Hk. }
        rewrite E.
        destruct (Z.gtb_spec v lo); destruct (Z.ltb_spec v up); cbn [andb]; try lia.
        all: exists s1, st1; split; [reflexivity|]; split; [apply Inv'; lia|exact Hn1].
      - destruct ((v >? lo) && (v <? up)).
        + eexists. eexists. split; [reflexivity|]. split; [|lia].
          destruct Inv as (Hsame & Hnum & Hloc & Hsorted & H2 & Hdisp).
          repeat (split; [first [assumption | intros k Hk; specialize (Hloc k Hk); lia]|]).
          split; [|exact Hdisp].
          intros _. cbn [ADC.trigger_pos1]. split; [lia|].
          intros k Hk. apply Hloc. exact Hk.
        + exists s, st. split; [reflexivity|]. split; [exact Inv1|lia]. }
    destruct (Z.eqb_spec (ADC.trigger_status s) 2) as [E2|N2].
    { destruct (v <? lo).
      - eexists. eexists. split; [reflexivity|]. split; [|lia].
        apply searching_status; [exact Inv1|discriminate].
      - destruct (v >? up).
        + pose proof Inv as (_ & _ & _ & _ & H2 & _).
          destruct (H2 E2) as (Hp & Hb).
          assert (HL : ADC.trigger_pos1 s <= Z.quot (ADC.trigger_pos1 s + i) 2 < i).
          { rewrite Z.quot_div_nonneg by lia.
            split; [apply Z.div_le_lower_bound; lia|apply Z.div_lt_upper_bound; lia]. }
          destruct (trigger_found_spec st0 i (Z.quot (ADC.trigger_pos1 s + i) 2) s st Inv)
            as (s1 & st1 & E & Hs1 & Hn1 & Inv'); [lia| |].
          { intros k Hk. specialize (Hb k Hk). lia. }
          exists s1, st1. split; [exact E|]. split; [apply Inv'; lia|exact Hn1].
        + exists s, st. split; [reflexivity|]. split; [exact Inv1|lia]. }
    exists s, st. split; [reflexivity|]. split; [exact Inv1|lia]. }
  destruct (ADC.trigger_condition st).
  - apply Hgen.
  - apply Hgen.
  - exists s, st. split; [reflexivity|]. split; [exact Inv1|lia].
Qed.

Lemma search_loop_spec (st0 : ADC.State) (up lo : Z) (n : nat) :
  forall (i : Z) (s : ADC.Search) (st : ADC.State),
  ADC.searching st0 i s st -> 0 <= i -> i + Z.of_nat n <= 8192 ->
  exists s' st',
    ADC.search_loop n up lo i s st = Some (s', st') /\
    ADC.searching st0 (i + Z.of_nat n) s' st'.
Proof.
  induction n as [|n IH]; intros i s st Inv Hi Hn.
  - exists s, st. split; [reflexivity|]. now rewrite Z.add_0_r.
  - cbn [ADC.search_loop].
    destruct (search_step_spec st0 up lo i s st Inv ltac:(lia)) as (s1 & st1 & E & Inv1 & _).
    rewrite E.
    destruct (IH (i + 1) s1 st1 Inv1 ltac:(lia) ltac:(lia)) as (s' & st' & E' & Inv').
    exists s', st'. split; [exact E'|].
    replace (i + Z.of_nat (S n)) with (i + 1 + Z.of_nat n) by lia. exact Inv'.
Qed.

Lemma searching_start (st : ADC.State) :
  ADC.searching (ADC.set_trigger_num 0 st) 0 (ADC.mkSearch false 0 0)
                (ADC.set_trigger_num 0 st).
Proof.
  split; [repeat split|]. adc_simpl.
  split; [lia|]. split; [intros k Hk; lia|]. split; [intros k Hk0 Hk; lia|].
  split; [discriminate|]. intros _. split; reflexivity.
Qed.

Lemma fits_own_position (st : ADC.State) : ADC.fits st (ADC.trigger_position st) = true.
Proof.
  unfold ADC.fits.
  destruct (Z.geb_spec (ADC.trigger_position st) (ADC.trigger_position st)); [|lia].
  destruct (Z.ltb_spec (ADC.trigger_position st) (4096 + ADC.trigger_position st)); [|lia].
  reflexivity.
Qed.

(** A run of [ADC_get_data] on a complete buffer: the search, then the
    window of the first 4096 samples if nothing was shown, then the start
    pulse. *)
Lemma ADC_get_data_run (triggered : bool) (st : ADC.State) :
  exists s st1 f,
    ADC.searching (ADC.set_trigger_num 0 st) 8192 s st1 /\
    ADC.ADC_get_data triggered 8192 st =
      Some (ADC.XST_SUCCESS, (if triggered then Some (ADC.t s) else None),
            ADC.AXI4_IO_mWriteReg ADC.SLV_REG3 0
              (ADC.AXI4_IO_mWriteReg ADC.SLV_REG3 2 (ADC.set_ADC_Data f st1))) /\
    (forall j, 0 <= j < 4096 ->
       f j = if ADC.t s then ADC.ADC_Data st1 j
             else ADC.window st1 (ADC.trigger_position st1) j) /\
    (forall j, ~ (0 <= j < 4096) -> f j = ADC.ADC_Data st1 j).
Proof.
  destruct (search_loop_spec (ADC.set_trigger_num 0 st)
              (ADC.int16 (ADC.trigger_level (ADC.set_trigger_num 0 st) +
                          Z.quot (ADC.trigger_hysteresis (ADC.set_trigger_num 0 st)) 2))
              (ADC.int16 (ADC.trigger_level (ADC.set_trigger_num 0 st) -
                          Z.quot (ADC.trigger_hysteresis (ADC.set_trigger_num 0 st)) 2))
              (Z.to_nat 8192) 0 (ADC.mkSearch false 0 0) (ADC.set_trigger_num 0 st)
              (searching_start st) ltac:(lia) ltac:(lia))
    as (s & st1 & E & Inv).
  change (0 + Z.of_nat (Z.to_nat 8192)) with 8192 in Inv.
  unfold ADC.ADC_get_data. cbn [Z.eqb Pos.eqb]. cbv zeta. rewrite E.
  destruct (ADC.t s) eqn:Et; cbn [negb].
  - exists s, st1, (ADC.ADC_Data st1). split; [exact Inv|]. rewrite Et.
    split; [now destruct st1|]. split; reflexivity.
  - destruct (ADC_data_copy_spec (ADC.trigger_position st1) st1) as (f & Ec & Hf & Hout & _).
    rewrite Ec. rewrite fits_own_position in Hf.
    exists s, st1, f. split; [exact Inv|]. rewrite Et.
    split; [reflexivity|]. split; assumption.
Qed.

(** [ADC_get_data] makes no access outside its arrays, whatever the samples
    and the trigger settings are: it always returns, with [XST_SUCCESS]
    exactly when the DMA delivered 8192 bytes.  It records at most
    [TRIGGER_NUM_MAX] trigger locations, each the index of a sample of the
    buffer, in strictly increasing order; it pulses the start bit of the
    packager (2, then 0, to register 3) and leaves samples and settings as
    they were. *)
Theorem ADC_get_data_records_in_order (triggered : bool) (receive_len : Z)
    (st : ADC.State) :
  exists out st',
    ADC.ADC_get_data triggered receive_len st =
      Some ((if receive_len =? 8192 then ADC.XST_SUCCESS else ADC.XST_DATA_LOST),
            out, st') /\
    (out = None <-> triggered = false) /\
    0 <= ADC.trigger_num st' <= ADC.TRIGGER_NUM_MAX /\
    (forall k, 0 <= k < ADC.trigger_num st' -> 0 <= ADC.trigger_locate st' k < 8192) /\
    (forall k, 0 <= k -> k + 1 < ADC.trigger_num st' ->
               ADC.trigger_locate st' k < ADC.trigger_locate st' (k + 1)) /\
    ADC.writes st' = ADC.writes st ++ [(ADC.SLV_REG3, 2); (ADC.SLV_REG3, 0)] /\
    ADC.ADC_OriginalData st' = ADC.ADC_OriginalData st /\
    ADC.trigger_position st' = ADC.trigger_position st /\
    ADC.trigger_level st' = ADC.trigger_level st /\
    ADC.trigger_hysteresis st' = ADC.trigger_hysteresis st /\
    ADC.trigger_condition st' = ADC.trigger_condition st.
Proof.
  destruct (Z.eqb_spec receive_len 8192) as [->|Hne].
  - destruct (ADC_get_data_run triggered st) as (s & st1 & f & Inv & E & _).
    destruct Inv as ((HO & Hlv & Hhy & Hco & Hpos & Hwr) & Hnum & Hloc & Hsorted & _).
    eexists. eexists. split; [exact E|]. adc_simpl. unfold ADC.TRIGGER_NUM_MAX in Hnum.
    split; [destruct triggered; split; congruence|].
    split; [exact Hnum|]. split; [exact Hloc|]. split; [exact Hsorted|].
    split; [rewrite Hwr; cbn; now rewrite <- app_assoc|].
    repeat split; assumption.
  - unfold ADC.ADC_get_data. apply Z.eqb_neq in Hne. rewrite Hne. cbn [negb].
    destruct (ADC_data_copy_spec (ADC.trigger_position (ADC.set_trigger_num 0 st))
                (ADC.set_trigger_num 0 st)) as (f & Ec & _).
    rewrite Ec. eexists. eexists. split; [reflexivity|]. adc_simpl.
    split; [destruct triggered; split; congruence|].
    split; [lia|]. split; [intros k Hk; lia|]. split; [intros k Hk0 Hk; lia|].
    split; [now rewrite <- app_assoc|]. repeat split.
Qed.

(** What is displayed.  On a complete buffer, and as long as fewer than
    [TRIGGER_NUM_MAX] triggers were found (so that none was dropped), the
    flag stored through [triggered] tells whether the window of some
    recorded trigger fits the buffer, and [ADC_Data] is the window of the
    first recorded trigger that fits, which puts the trigger sample at index
    [trigger_position]; when no window fits it is the first 4096 samples. *)
Theorem ADC_get_data_shows_first_fitting_trigger (st : ADC.State) :
  exists shown st',
    ADC.ADC_get_data true 8192 st = Some (ADC.XST_SUCCESS, Some shown, st') /\
    (ADC.trigger_num st' < ADC.TRIGGER_NUM_MAX ->
     shown = existsb (ADC.fits st) (ADC.recorded st') /\
     forall j, 0 <= j < 4096 ->
       ADC.ADC_Data st' j =
       ADC.int16 (ADC.ADC_RawToVoltage_mV
                    (ADC.ADC_OriginalData st (j - ADC.trigger_position st + ADC.anchor st')))).
Proof.
  destruct (ADC_get_data_run true st) as (s & st1 & f & Inv & E & Hf & _).
  destruct Inv as ((HO & Hlv & Hhy & Hco & Hpos & Hwr) & _ & _ & _ & _ & Hdisp).
  eexists. eexists. split; [exact E|].
  adc_simpl. intros Hlt. destruct (Hdisp Hlt) as (Ht & Hdata).
  change (ADC.fits (ADC.set_trigger_num 0 st)) with (ADC.fits st) in Ht.
  split; [exact Ht|].
  intros j Hj. rewrite (Hf j Hj).
  set (st' := ADC.AXI4_IO_mWriteReg _ _ _).
  assert (Ha : ADC.anchor st' = match find (ADC.fits st) (ADC.recorded st1) with
                                | Some L => L
                                | None => ADC.trigger_position st
                                end).
  { unfold ADC.anchor. subst st'.
    change (ADC.recorded (ADC.AXI4_IO_mWriteReg _ _ _)) with (ADC.recorded st1).
    change (ADC.trigger_position (ADC.AXI4_IO_mWriteReg _ _ _))
      with (ADC.trigger_position st1).
    assert (Hfs : ADC.fits (ADC.AXI4_IO_mWriteReg ADC.SLV_REG3 0
                    (ADC.AXI4_IO_mWriteReg ADC.SLV_REG3 2 (ADC.set_ADC_Data f st1))) =
                  ADC.fits st).
    { unfold ADC.fits. adc_simpl. now rewrite Hpos. }
    rewrite Hfs. now rewrite Hpos. }
  rewrite Ha. rewrite existsb_find in Ht.
  destruct (ADC.t s) eqn:Et.
  - rewrite (Hdata j Hj). unfold ADC.window, ADC.anchor. adc_simpl.
    assert (Hfs : ADC.fits st1 = ADC.fits st) by (unfold ADC.fits; now rewrite Hpos).
    rewrite Hfs.
    destruct (find (ADC.fits st) (ADC.recorded st1)); [reflexivity|discriminate Ht].
  - destruct (find (ADC.fits st) (ADC.recorded st1)); [discriminate Ht|].
    unfold ADC.window. rewrite HO, Hpos. reflexivity.
Qed.

Lemma search_loop_idle (up lo : Z) (n : nat) :
  forall (i : Z) (s : ADC.Search) (st : ADC.State),
  ADC.trigger_status s = 0 -> 0 <= i -> i + Z.of_nat n <= 8192 ->
  ADC.trigger_condition st = ADC.TRIGGER_other \/
    (forall j, i <= j < i + Z.of_nat n -> lo <= ADC.voltage_at st j) ->
  ADC.search_loop n up lo i s st = Some (s, st).
Proof.
  induction n as [|n IH]; intros i s st Hs Hi Hn Hidle; [reflexivity|].
  cbn [ADC.search_loop].
  assert (E : ADC.search_step up lo i s st = Some (s, st)).
  { unfold ADC.search_step, ADC.read_OriginalData.
    destruct (Z.leb_spec 0 i); [|lia]. destruct (Z.ltb_spec i 8192); [|lia]. cbn [andb].
    destruct Hidle as [Hc|Hv].
    - now rewrite Hc.
    - specialize (Hv i ltac:(lia)). unfold ADC.voltage_at in Hv. rewrite Hs. cbn [Z.eqb].
      destruct (ADC.trigger_condition st); try reflexivity.
      + destruct (Z.ltb_spec
                    (ADC.int16 (ADC.ADC_RawToVoltage_mV (ADC.ADC_OriginalData st i))) lo);
          [lia|reflexivity].
      + destruct (Z.ltb_spec
                    (ADC.int16 (- ADC.int16 (ADC.ADC_RawToVoltage_mV
                                               (ADC.ADC_OriginalData st i)))) lo);
          [lia|reflexivity]. }
  rewrite E. apply IH; try assumption; try lia.
  destruct Hidle as [Hc|Hv]; [now left|right]. intros j Hj. apply Hv. lia.
Qed.

(** Nothing is found, and the first 4096 samples are displayed, when the
    DMA did not deliver a complete buffer, when the trigger condition is
    neither the rising nor the falling edge, or when the voltage (negated
    for the falling edge) never goes below the lower threshold
    [trigger_level - trigger_hysteresis / 2]: the flag stored is false, no
    location is recorded, and [ADC_Data] holds samples 0 to 4095 in
    millivolts.  An incomplete buffer is reported as [XST_DATA_LOST], the
    other two cases as [XST_SUCCESS]; the packager is started again in
    all of them. *)
Theorem ADC_get_data_untriggered (triggered : bool) (receive_len : Z) (st : ADC.State) :
  receive_len <> 8192 \/
  ADC.trigger_condition st = ADC.TRIGGER_other \/
  (forall i, 0 <= i < 8192 -> ADC.trigger_lower st <= ADC.voltage_at st i) ->
  exists st',
    ADC.ADC_get_data triggered receive_len st =
      Some ((if receive_len =? 8192 then ADC.XST_SUCCESS else ADC.XST_DATA_LOST),
            (if triggered then Some false else None), st') /\
    ADC.trigger_num st' = 0 /\
    (forall j, 0 <= j < 4096 ->
       ADC.ADC_Data st' j =
       ADC.int16 (ADC.ADC_RawToVoltage_mV (ADC.ADC_OriginalData st j))) /\
    ADC.writes st' = ADC.writes st ++ [(ADC.SLV_REG3, 2); (ADC.SLV_REG3, 0)].
Proof.
  intros Hidle.
  set (st0 := ADC.set_trigger_num 0 st).
  assert (Hsearch : receive_len = 8192 ->
            ADC.search_loop (Z.to_nat 8192)
              (ADC.int16 (ADC.trigger_level st0 + Z.quot (ADC.trigger_hysteresis st0) 2))
              (ADC.int16 (ADC.trigger_level st0 - Z.quot (ADC.trigger_hysteresis st0) 2))
              0 (ADC.mkSearch false 0 0) st0 = Some (ADC.mkSearch false 0 0, st0)).
  { intros Hlen. apply search_loop_idle; [reflexivity|lia|lia|].
    destruct Hidle as [H|[H|H]]; [contradiction|now left|right].
    intros j Hj. apply (H j). lia. }
  destruct (ADC_data_copy_spec (ADC.trigger_position st0) st0) as (f & Ec & Hf & _).
  rewrite fits_own_position in Ec, Hf.
  exists (ADC.AXI4_IO_mWriteReg ADC.SLV_REG3 0
            (ADC.AXI4_IO_mWriteReg ADC.SLV_REG3 2 (ADC.set_ADC_Data f st0))).
  split; [|split; [reflexivity|split]].
  - unfold ADC.ADC_get_data. fold st0. cbv zeta.
    destruct (Z.eqb_spec receive_len 8192) as [Hlen|Hlen].
    + rewrite (Hsearch Hlen). cbn [ADC.t negb]. rewrite Ec. reflexivity.
    + cbn [negb]. rewrite Ec. reflexivity.
  - intros j Hj. adc_simpl. rewrite (Hf j Hj). unfold ADC.window. subst st0. adc_simpl.
    f_equal. f_equal. f_equal. lia.
  - adc_simpl. subst st0. adc_simpl. now rewrite <- app_assoc.
Qed.

Lemma ADC_get_data_untriggered_witness :
  let st := ADC.mkState (fun i => i mod 100) 0 200 ADC.RISING_EDGE_TRIGGER 2048 5
                        (fun _ => 0) (fun _ => 0) [] in
  (100 <> 8192 \/
   ADC.trigger_condition st = ADC.TRIGGER_other \/
   (forall i, 0 <= i < 8192 -> ADC.trigger_lower st <= ADC.voltage_at st i)) /\
  exists st',
    ADC.ADC_get_data true 100 st = Some (ADC.XST_DATA_LOST, Some false, st') /\
    ADC.trigger_num st' = 0 /\
    (forall j, 0 <= j < 4096 ->
       ADC.ADC_Data st' j =
       ADC.int16 (ADC.ADC_RawToVoltage_mV (ADC.ADC_OriginalData st j))) /\
    ADC.writes st' = ADC.writes st ++ [(ADC.SLV_REG3, 2); (ADC.SLV_REG3, 0)].
Proof.
  intros st.
  assert (H : 100 <> 8192 \/
              ADC.trigger_condition st = ADC.TRIGGER_other \/
              (forall i, 0 <= i < 8192 -> ADC.trigger_lower st <= ADC.voltage_at st i))
    by (left; lia).
  split; [exact H|].
  exact (ADC_get_data_untriggered true 100 st H).
Defined.

(** * The FIR coefficient reload *)

Lemma symmetry_loop_true (c : Z -> Z) (n : nat) :
  forall i, FIR.symmetry_loop n i c = true ->
            forall k, i <= k < i + Z.of_nat n -> c k = c (64 - k).
Proof.
  induction n as [|n IH]; intros i H k Hk; [lia|].
  cbn [FIR.symmetry_loop] in H.
  destruct (Z.eqb_spec (c i) (c (64 - i))) as [E|E]; cbn [negb] in H; [|discriminate].
  destruct (Z.eq_dec k i) as [->|Hne]; [exact E|].
  apply (IH (i + 1) H). lia.
Qed.

Lemma symmetry_loop_false (c : Z -> Z) (n : nat) :
  forall i, FIR.symmetry_loop n i c = false ->
            exists k, i <= k < i + Z.of_nat n /\ c k <> c (64 - k).
Proof.
  induction n as [|n IH]; intros i H; [discriminate|].
  cbn [FIR.symmetry_loop] in H.
  destruct (Z.eqb_spec (c i) (c (64 - i))) as [E|E]; cbn [negb] in H.
  - destruct (IH (i + 1) H) as (k & Hk & Hne). exists k. split; [lia|exact Hne].
  - exists i. split; [lia|exact E].
Qed.

Lemma symmetry_loop_symmetric (c : Z -> Z) :
  FIR.symmetry_loop 32 0 c = true <-> FIR.symmetric c.
Proof.
  split.
  - intros H k Hk.
    pose proof (symmetry_loop_true c 32 0 H) as Hlow.
    destruct (Z.lt_ge_cases k 32) as [Hlt|Hge].
    + apply Hlow. lia.
    + destruct (Z.eq_dec k 32) as [->|Hne]; [reflexivity|].
      symmetry. replace k with (64 - (64 - k)) at 2 by lia. apply Hlow. lia.
  - intros H. destruct (FIR.symmetry_loop 32 0 c) eqn:E; [reflexivity|].
    destruct (symmetry_loop_false c 32 0 E) as (k & Hk & Hne).
    exfalso. apply Hne, H. lia.
Qed.

(** [FIR_reload_coe] hands nothing but a symmetric filter to the hardware.
    Either it returns [XST_INVALID_PARAM] with no call made at all, and
    then the pointer is NULL or two taps that mirror each other differ; or
    it switches the channel to [FIR_RELOAD] and sends the first 66 bytes of
    the array, and then the 33 taps in them determine all 65: tap [k] is
    tap [min k (64 - k)], an index from 0 to 32. *)
Theorem FIR_reload_coe_sends_only_symmetric
    (coe : option (Z -> Z)) (send1 send2 : Z) (st : FIR.State) :
  (FIR.FIR_reload_coe coe send1 send2 st = (FIR.XST_INVALID_PARAM, st) /\
   (coe = None \/
    exists c i, coe = Some c /\ 0 <= i < 32 /\ c i <> c (64 - i)))
  \/
  (exists c more,
     coe = Some c /\
     (forall k, 0 <= k <= 64 ->
        0 <= Z.min k (64 - k) <= 32 /\ c k = c (Z.min k (64 - k))) /\
     FIR.trace (snd (FIR.FIR_reload_coe coe send1 send2 st)) =
       FIR.trace st ++
       FIR.SwitchChannelSource FIR.FIR_RELOAD ::
       FIR.send_package (FIR.DmaInterface st) FIR.coe_buffer 66 :: more).
Proof.
  destruct coe as [c|]; [|left; split; [reflexivity|now left]].
  unfold FIR.FIR_reload_coe.
  destruct (FIR.symmetry_loop 32 0 c) eqn:E; cbn [negb].
  - right. exists c.
    assert (Hsym : FIR.symmetric c) by now apply symmetry_loop_symmetric.
    unfold FIR.CHECK_STATUS_RET, FIR.DMA_send_package, FIR.SPU_SwitchChannelSource, FIR.emit.
    cbn [FIR.trace FIR.DmaInterface].
    assert (Htaps : forall k, 0 <= k <= 64 ->
              0 <= Z.min k (64 - k) <= 32 /\ c k = c (Z.min k (64 - k))).
    { intros k Hk. split; [lia|].
      destruct (Z.min_spec k (64 - k)) as [[_ ->]|[_ ->]]; [reflexivity|now apply Hsym]. }
    destruct (send1 =? FIR.XST_SUCCESS); cbn [negb];
      [destruct (send2 =? FIR.XST_SUCCESS); cbn [negb]|];
      eexists; (split; [reflexivity|]); (split; [exact Htaps|]);
      cbn [snd FIR.trace]; rewrite <- ?app_assoc; cbn [app]; reflexivity.
  - left. split; [reflexivity|right].
    destruct (symmetry_loop_false c 32 0 E) as (k & Hk & Hne).
    exists c, k. repeat split; [lia|lia|exact Hne].
Qed.

(** What a failing transfer leaves behind.  For a symmetric filter, a
    first [DMA_send_package] that fails makes [FIR_reload_coe] print and
    return that status with the channel still switched to [FIR_RELOAD]:
    the configuration byte is not sent and the source is not switched
    back.  Otherwise the channel is switched to [FIR_CONFIG], the one byte
    of [fir_config] is sent, and the status returned is that of the second
    transfer. *)
Theorem FIR_reload_coe_transfer_statuses
    (c : Z -> Z) (send1 send2 : Z) (st : FIR.State) :
  FIR.symmetric c ->
  let reload := [FIR.SwitchChannelSource FIR.FIR_RELOAD;
                 FIR.send_package (FIR.DmaInterface st) FIR.coe_buffer 66] in
  let config := [FIR.SwitchChannelSource FIR.FIR_CONFIG;
                 FIR.send_package (FIR.DmaInterface st) FIR.fir_config 1] in
  let (status, st') := FIR.FIR_reload_coe (Some c) send1 send2 st in
  FIR.DmaInterface st' = FIR.DmaInterface st /\
  (send1 <> FIR.XST_SUCCESS ->
     status = send1 /\
     FIR.trace st' = FIR.trace st ++ reload ++ [FIR.error_printed send1]) /\
  (send1 = FIR.XST_SUCCESS -> send2 <> FIR.XST_SUCCESS ->
     status = send2 /\
     FIR.trace st' = FIR.trace st ++ reload ++ config ++ [FIR.error_printed send2]) /\
  (send1 = FIR.XST_SUCCESS -> send2 = FIR.XST_SUCCESS ->
     status = FIR.XST_SUCCESS /\
     FIR.trace st' = FIR.trace st ++ reload ++ config).
Proof.
  intros Hsym. apply symmetry_loop_symmetric in Hsym.
  unfold FIR.FIR_reload_coe. rewrite Hsym. cbn [negb].
  unfold FIR.CHECK_STATUS_RET, FIR.DMA_send_package, FIR.SPU_SwitchChannelSource, FIR.emit.
  cbn [FIR.trace FIR.DmaInterface].
  destruct (Z.eqb_spec send1 FIR.XST_SUCCESS) as [E1|E1]; cbn [negb];
    [destruct (Z.eqb_spec send2 FIR.XST_SUCCESS) as [E2|E2]; cbn [negb]|];
    cbn [FIR.trace FIR.DmaInterface]; rewrite <- ?app_assoc; cbn [app];
    (split; [reflexivity|]);
    repeat split; intros; try contradiction; try congruence.
Qed.

Lemma FIR_reload_coe_transfer_statuses_witness :
  let c := fun k => (k - 32) * (k - 32) in
  let st := FIR.mkState (Some 1) [] in
  let send1 := 1 in
  let send2 := 0 in
  FIR.symmetric c /\
  let reload := [FIR.SwitchChannelSource FIR.FIR_RELOAD;
                 FIR.send_package (FIR.DmaInterface st) FIR.coe_buffer 66] in
  let config := [FIR.SwitchChannelSource FIR.FIR_CONFIG;
                 FIR.send_package (FIR.DmaInterface st) FIR.fir_config 1] in
  let (status, st') := FIR.FIR_reload_coe (Some c) send1 send2 st in
  FIR.DmaInterface st' = FIR.DmaInterface st /\
  (send1 <> FIR.XST_SUCCESS ->
     status = send1 /\
     FIR.trace st' = FIR.trace st ++ reload ++ [FIR.error_printed send1]) /\
  (send1 = FIR.XST_SUCCESS -> send2 <> FIR.XST_SUCCESS ->
     status = send2 /\
     FIR.trace st' = FIR.trace st ++ reload ++ config ++ [FIR.error_printed send2]) /\
  (send1 = FIR.XST_SUCCESS -> send2 = FIR.XST_SUCCESS ->
     status = FIR.XST_SUCCESS /\
     FIR.trace st' = FIR.trace st ++ reload ++ config).
Proof.
  intros c st send1 send2.
  assert (H : FIR.symmetric c) by (intros k Hk; unfold c; lia).
  split; [exact H|].
  exact (FIR_reload_coe_transfer_statuses c send1 send2 st H).
Defined.
